(** * Bookstore API (server.js): a shallow embedding of the request handlers

    Each route handler of [server.js] is a function from the stored
    collections it reads (products, users, cart) and the request to the
    response and the collection it writes back.

    - Stored documents are records with the properties and types the
      handlers write: identifiers are integers (those that numbers hold),
      prices, stocks and quantities are numbers, [isActive] is a boolean.
    - JavaScript numbers are exact rationals together with [NaN] and the
      two infinities, and the arithmetic on them is exact.  Where the
      handlers compute an integer from a string or from an identifier
      ([parseInt], the identifier of a new product), the result is rounded
      as a double is.  Values of request bodies are JavaScript primitives,
      with truthiness, [===] and [<] as in the language; arrays and objects
      in a body are outside the model.
    - Query parameters are strings or absent.  The body of a create request
      is a finite map from property names to values, read by dynamic lookup
      as in the source; the body of an update request is a patch of the
      stored properties.
    - The clock is an argument.  The create handler takes its two readings,
      for [createdAt] and for [updatedAt]; the update and delete handlers
      read it once.  The cart handlers take one reading, which stands for
      the time of the request in every timestamp they write.
    - Library functions (case folding, locale comparison, date and number
      parsing, bcrypt, jwt) are the fields of the class [Host]; the
      statements hold for every implementation of them.
    - The handlers of the admin routes are described for requests that
      passed the authentication middleware, whose composition with them is
      [adminRoute].  A handler that catches an exception answers with a
      server error and writes nothing; writes to the files are taken to
      succeed. *)

From Stdlib Require Import QArith Qround Lqa ZArith Lia List Sorting.Sorted Sorting.Permutation.
From Stdlib Require Import Strings.String Strings.Ascii.
From stdpp Require Import gmap strings list pretty.

Local Open Scope Z_scope.

(** ** JavaScript numbers and primitive values *)

Module JS.

(** A JavaScript number.  Finite doubles are modelled by exact rationals
    (sums, products and quotients are exact, and the two zeros are
    identified); [round_int] below gives the integers their rounding. *)
Inductive number : Type :=
  | NaN
  | PInf
  | NInf
  | Fin (q : Q).

Definition of_Z (z : Z) : number := Fin (inject_Z z).
Definition of_nat (n : nat) : number := of_Z (Z.of_nat n).

(** [a < b] *)
Definition num_lt (a b : number) : bool :=
  match a, b with
  | NaN, _ | _, NaN => false
  | PInf, _ => false
  | _, NInf => false
  | NInf, _ => true
  | Fin _, PInf => true
  | Fin x, Fin y => match (x ?= y)%Q with Lt => true | _ => false end
  end.

(** [a === b] on numbers *)
Definition num_eq (a b : number) : bool :=
  match a, b with
  | PInf, PInf | NInf, NInf => true
  | Fin x, Fin y => Qeq_bool x y
  | _, _ => false
  end.

Definition num_neg (a : number) : number :=
  match a with
  | NaN => NaN
  | PInf => NInf
  | NInf => PInf
  | Fin x => Fin (- x)%Q
  end.

(** [a + b] *)
Definition num_add (a b : number) : number :=
  match a, b with
  | NaN, _ | _, NaN => NaN
  | PInf, NInf | NInf, PInf => NaN
  | PInf, _ | _, PInf => PInf
  | NInf, _ | _, NInf => NInf
  | Fin x, Fin y => Fin (x + y)%Q
  end.

(** [a - b] *)
Definition num_sub (a b : number) : number := num_add a (num_neg b).

Definition Qis_zero (x : Q) : bool := Qeq_bool x 0%Q.
Definition Qis_neg (x : Q) : bool :=
  match (x ?= 0)%Q with Lt => true | _ => false end.

Definition inf_of_sign (negative : bool) : number :=
  if negative then NInf else PInf.

(** [a * b] *)
Definition num_mul (a b : number) : number :=
  match a, b with
  | NaN, _ | _, NaN => NaN
  | Fin x, Fin y => Fin (x * y)%Q
  | Fin x, PInf | PInf, Fin x =>
      if Qis_zero x then NaN else inf_of_sign (Qis_neg x)
  | Fin x, NInf | NInf, Fin x =>
      if Qis_zero x then NaN else inf_of_sign (negb (Qis_neg x))
  | PInf, PInf | NInf, NInf => PInf
  | PInf, NInf | NInf, PInf => NInf
  end.

(** [a / b] *)
Definition num_div (a b : number) : number :=
  match a, b with
  | NaN, _ | _, NaN => NaN
  | Fin x, Fin y =>
      if Qis_zero y
      then (if Qis_zero x then NaN else inf_of_sign (Qis_neg x))
      else Fin (x / y)%Q
  | Fin _, (PInf | NInf) => Fin 0%Q
  | PInf, Fin y => inf_of_sign (Qis_neg y)
  | NInf, Fin y => inf_of_sign (negb (Qis_neg y))
  | (PInf | NInf), (PInf | NInf) => NaN
  end.

(** [Math.ceil(a)] *)
Definition Math_ceil (a : number) : number :=
  match a with
  | Fin x => of_Z (Qceiling x)
  | _ => a
  end.

(** Truncation of a rational towards zero. *)
Definition Qtruncate (x : Q) : Z :=
  if Qis_neg x then Qceiling x else Qfloor x.

(** The integer a double holds when the mathematical result is the
    integer [z]: [z] itself up to 53 significant bits, and beyond that the
    nearest multiple of the spacing of doubles at that size, a tie going to
    the one with the even significand. *)
Definition round_int (z : Z) : Z :=
  let a := Z.abs z in
  let shift := Z.log2 a - 52 in
  if shift <=? 0 then z
  else
    let q := Z.shiftr a shift in
    let r := Z.land a (Z.ones shift) in
    let half := Z.shiftl 1 (shift - 1) in
    let q' := if (r <? half) || ((r =? half) && Z.even q) then q else q + 1 in
    Z.sgn z * Z.shiftl q' shift.

(** The number for the integer [z]: the rounded integer, or an infinity
    from [2^1024] on. *)
Definition round_Z (z : Z) : number :=
  let v := round_int z in
  if 2 ^ 1024 <=? Z.abs v then inf_of_sign (z <? 0) else of_Z v.

(** [Number.isSafeInteger]: the integers every one of which is a double,
    and whose successor and predecessor are doubles too. *)
Definition safe_integer (z : Z) : Prop := - 2 ^ 53 < z < 2 ^ 53.

(** Primitive values that occur in JSON bodies; [VUndefined] stands for an
    absent property. *)
Inductive value : Type :=
  | VUndefined
  | VNull
  | VBool (b : bool)
  | VNum (n : number)
  | VStr (s : string).

(** ToBoolean *)
Definition truthy (v : value) : bool :=
  match v with
  | VUndefined | VNull => false
  | VBool b => b
  | VNum NaN => false
  | VNum (Fin x) => negb (Qis_zero x)
  | VNum _ => true
  | VStr s => negb (String.eqb s "")
  end.

(** [a === b] *)
Definition strict_eq (a b : value) : bool :=
  match a, b with
  | VUndefined, VUndefined | VNull, VNull => true
  | VBool x, VBool y => Bool.eqb x y
  | VNum x, VNum y => num_eq x y
  | VStr x, VStr y => String.eqb x y
  | _, _ => false
  end.

(** [a || b] *)
Definition js_or (a b : value) : value := if truthy a then a else b.

End JS.

(** ** Strings *)

Module Str.

(** [s.includes(sub)] *)
Definition includes (s sub : string) : bool :=
  match String.index 0 sub s with
  | Some _ => true
  | None => false
  end.

(** White space skipped by [parseInt] (StrWhiteSpaceChar: the white space
    and line terminator code points).  Strings are UTF-8 byte strings: a
    code point above U+007F is the sequence of its two or three bytes. *)
Definition is_white_space (c : ascii) : bool :=
  let n := Z.of_N (N_of_ascii c) in
  ((9 <=? n) && (n <=? 13)) || (n =? 32).

(** U+00A0 *)
Definition is_white_space2 (c1 c2 : ascii) : bool :=
  let a := Z.of_N (N_of_ascii c1) in
  let b := Z.of_N (N_of_ascii c2) in
  (a =? 194) && (b =? 160).

(** U+1680, U+2000 to U+200A, U+2028, U+2029, U+202F, U+205F, U+3000 and
    U+FEFF *)
Definition is_white_space3 (c1 c2 c3 : ascii) : bool :=
  let a := Z.of_N (N_of_ascii c1) in
  let b := Z.of_N (N_of_ascii c2) in
  let c := Z.of_N (N_of_ascii c3) in
  ((a =? 225) && (b =? 154) && (c =? 128))
  || ((a =? 226) && (b =? 128)
      && (((128 <=? c) && (c <=? 138)) || (c =? 168) || (c =? 169) || (c =? 175)))
  || ((a =? 226) && (b =? 129) && (c =? 159))
  || ((a =? 227) && (b =? 128) && (c =? 128))
  || ((a =? 239) && (b =? 187) && (c =? 191)).

Fixpoint skip_white_space (l : list ascii) : list ascii :=
  match l with
  | c1 :: r1 =>
      if is_white_space c1 then skip_white_space r1
      else
        match r1 with
        | c2 :: r2 =>
            if is_white_space2 c1 c2 then skip_white_space r2
            else
              match r2 with
              | c3 :: r3 =>
                  if is_white_space3 c1 c2 c3 then skip_white_space r3 else l
              | [] => l
              end
        | [] => l
        end
  | [] => []
  end.

(** Value of [c] as a digit in the given radix, if it is one. *)
Definition digit_value (radix : Z) (c : ascii) : option Z :=
  let n := Z.of_N (N_of_ascii c) in
  let d :=
    if (48 <=? n) && (n <=? 57) then Some (n - 48)
    else if (97 <=? n) && (n <=? 122) then Some (n - 87)
    else if (65 <=? n) && (n <=? 90) then Some (n - 55)
    else None in
  match d with
  | Some v => if v <? radix then Some v else None
  | None => None
  end.

(** Longest prefix of digits, read in the given radix; [None] when the
    prefix is empty. *)
Fixpoint read_digits (radix : Z) (acc : option Z) (l : list ascii) : option Z :=
  match l with
  | c :: r =>
      match digit_value radix c with
      | Some d => read_digits radix (Some (default 0 acc * radix + d)) r
      | None => acc
      end
  | [] => acc
  end.

Definition strip_sign (l : list ascii) : Z * list ascii :=
  match l with
  | "-"%char :: r => (-1, r)
  | "+"%char :: r => (1, r)
  | _ => (1, l)
  end.

Definition strip_hex_prefix (l : list ascii) : Z * list ascii :=
  match l with
  | "0"%char :: "x"%char :: r => (16, r)
  | "0"%char :: "X"%char :: r => (16, r)
  | _ => (10, l)
  end.

(** [parseInt(s)] with no radix argument: the integer the digits stand
    for, as a number.  (From the 21st significant decimal digit on the
    standard lets an engine read the digits as zeros; the integer is read
    exactly here.) *)
Definition parseInt (s : string) : JS.number :=
  let '(sign, l) := strip_sign (skip_white_space (list_ascii_of_string s)) in
  let '(radix, l) := strip_hex_prefix l in
  match read_digits radix None l with
  | Some n => JS.round_Z (sign * n)
  | None => JS.NaN
  end.

End Str.

(** ** Arrays *)

Module Arr.

Section Sort.
Context {A : Type}.

(** A comparator result [v] puts [x] after [y] only when [v > 0]; [NaN]
    counts as [0]. *)
Definition keeps_order (v : JS.number) : bool :=
  negb (JS.num_lt (JS.Fin 0) v).

Fixpoint insert_sorted (cmp : A -> A -> JS.number) (x : A) (l : list A) : list A :=
  match l with
  | [] => [x]
  | y :: r =>
      if keeps_order (cmp x y) then x :: y :: r
      else y :: insert_sorted cmp x r
  end.

(** [l.sort(cmp)]: the stable sort that ECMAScript requires, as an
    insertion sort.  The result is the one every conforming engine
    produces when [cmp] is a consistent comparator; for other comparators
    the standard leaves the order to the implementation. *)
Definition sort (cmp : A -> A -> JS.number) (l : list A) : list A :=
  fold_right (insert_sorted cmp) [] l.

(** [l.find(f)] *)
Definition find (f : A -> bool) (l : list A) : option A := List.find f l.

(** [l.findIndex(f)], with [None] for [-1]. *)
Fixpoint findIndex (f : A -> bool) (l : list A) : option nat :=
  match l with
  | [] => None
  | x :: r => if f x then Some 0%nat else option_map S (findIndex f r)
  end.

(** Relative index of [slice]: ToIntegerOrInfinity, then negative
    indices count from the end, clamped to [0, len]. *)
Definition relative_index (len : Z) (n : JS.number) : Z :=
  match n with
  | JS.NaN => 0
  | JS.NInf => 0
  | JS.PInf => len
  | JS.Fin q =>
      let i := JS.Qtruncate q in
      if i <? 0 then Z.max (len + i) 0 else Z.min i len
  end.

(** [l.slice(start, end)] *)
Definition slice (start stop : JS.number) (l : list A) : list A :=
  let len := Z.of_nat (length l) in
  let k := relative_index len start in
  let final := relative_index len stop in
  take (Z.to_nat (final - k)) (drop (Z.to_nat k) l).

End Sort.

End Arr.

(** ** Data model *)

Module Product.

(** The [specifications] of a product. *)
Record specs : Type := {
  pages : string;
  language : string;
  publisher : string;
  year : string;
  format : string
}.

(** The value of a property of a stored product: a primitive, an array of
    strings (the tags) or a plain object (the specifications). *)
Inductive property : Type :=
  | Primitive (v : JS.value)
  | StringArray (l : list string)
  | Object.

(** A stored product, with the properties the create handler writes.  The
    numbers of a stored product are finite: where a handler computes
    [NaN] or an infinity for one, the JSON file and the response hold
    [null] in its place, and the statements about such a product say so. *)
Record t : Type := mk {
  id : Z;
  title : string;
  author : string;
  isbn : string;
  category : string;
  price : JS.number;
  discountPrice : option JS.number;  (* [None] is [null] *)
  description : string;
  imageUrl : string;
  stock : JS.number;
  isActive : bool;
  featured : JS.value;
  rating : option JS.number;         (* [None] is [null] *)
  reviewCount : JS.number;
  tags : property;
  specifications : specs;
  createdAt : string;
  updatedAt : string;
  createdBy : Z
}.

Definition opt_num (o : option JS.number) : JS.value :=
  match o with
  | Some n => JS.VNum n
  | None => JS.VNull
  end.

(** [p[field]] for a property name computed at run time. *)
Definition get (p : t) (field : string) : property :=
  if String.eqb field "id" then Primitive (JS.VNum (JS.of_Z (id p)))
  else if String.eqb field "title" then Primitive (JS.VStr (title p))
  else if String.eqb field "author" then Primitive (JS.VStr (author p))
  else if String.eqb field "isbn" then Primitive (JS.VStr (isbn p))
  else if String.eqb field "category" then Primitive (JS.VStr (category p))
  else if String.eqb field "price" then Primitive (JS.VNum (price p))
  else if String.eqb field "discountPrice" then Primitive (opt_num (discountPrice p))
  else if String.eqb field "description" then Primitive (JS.VStr (description p))
  else if String.eqb field "imageUrl" then Primitive (JS.VStr (imageUrl p))
  else if String.eqb field "stock" then Primitive (JS.VNum (stock p))
  else if String.eqb field "isActive" then Primitive (JS.VBool (isActive p))
  else if String.eqb field "featured" then Primitive (featured p)
  else if String.eqb field "rating" then Primitive (opt_num (rating p))
  else if String.eqb field "reviewCount" then Primitive (JS.VNum (reviewCount p))
  else if String.eqb field "tags" then tags p
  else if String.eqb field "specifications" then Object
  else if String.eqb field "createdAt" then Primitive (JS.VStr (createdAt p))
  else if String.eqb field "updatedAt" then Primitive (JS.VStr (updatedAt p))
  else if String.eqb field "createdBy" then Primitive (JS.VNum (JS.of_Z (createdBy p)))
  else Primitive JS.VUndefined.

(** ToPrimitive, as [new Date(v)] applies it to its argument: an array of
    strings is joined with commas, a plain object is "[object Object]". *)
Definition to_primitive (v : property) : JS.value :=
  match v with
  | Primitive x => x
  | StringArray l => JS.VStr (String.concat "," l)
  | Object => JS.VStr "[object Object]"
  end.

End Product.

Module User.
Record t : Type := mk {
  id : Z;
  email : string;
  password : string;   (* the stored hash *)
  role : string;
  name : string
}.
End User.

(** The payload of a verified token, as signed at login; the middleware
    stores it in [req.user]. *)
Record Identity : Type := {
  identity_id : Z;
  identity_email : string;
  identity_role : string;
  identity_name : string
}.

(** The payload the login handler signs for a user. *)
Definition identity_of (u : User.t) : Identity :=
  {| identity_id := User.id u;
     identity_email := User.email u;
     identity_role := User.role u;
     identity_name := User.name u |}.

Module CartItem.
Record t : Type := mk {
  productId : JS.value;
  quantity : JS.number;
  title : string;
  author : string;
  price : JS.number;
  imageUrl : string;
  addedAt : string
}.
End CartItem.

Module Cart.
Record t : Type := mk {
  items : list CartItem.t;
  total : JS.number;
  totalItems : JS.number;
  lastUpdated : string
}.
End Cart.

(** ** Host functions

    Library functions whose results the handlers only pass along or branch
    on.  Every statement below holds for any implementation of them. *)
Class Host : Type := {
  (** [s.toLowerCase()] *)
  toLowerCase : string -> string;
  (** [a.localeCompare(b)] *)
  localeCompare : string -> string -> JS.number;
  (** [s.trim()] *)
  trim : string -> string;
  (** the time value of [new Date(v)], [NaN] for an invalid date *)
  Date_value : JS.value -> JS.number;
  (** ToNumber on a string *)
  StringToNumber : string -> JS.number;
  (** ToString on a number *)
  NumberToString : JS.number -> string;
  (** [parseFloat(s)] on a string *)
  parseFloat_string : string -> JS.number;
  (** [bcrypt.compare(password, hash)] *)
  bcrypt_compare : string -> string -> bool;
  (** [jwt.sign(payload, secret, options)] for the payload built at login *)
  jwt_sign : Z -> string -> string -> string -> string
}.

(** A query-string parameter: a string, or absent. *)
Definition param_value (o : option string) : JS.value :=
  match o with
  | Some s => JS.VStr s
  | None => JS.VUndefined
  end.

(** The parameter when it is truthy (present and not empty). *)
Definition param_given (o : option string) : option string :=
  if JS.truthy (param_value o) then o else None.

(** ** Catalog: public query (GET /api/products) *)

Record PublicQuery : Type := {
  pq_category : option string;
  pq_search : option string;
  pq_sort : option string
}.

Record PublicFilters : Type := {
  pf_category : option string;   (* [None] is [null] *)
  pf_search : option string;
  pf_sort : option string
}.

Record PublicResponse : Type := {
  pr_products : list Product.t;
  pr_total : nat;
  pr_filters : PublicFilters
}.

Section Catalog.
Context `{Host}.

(** The [switch (req.query.sort)] of the public handler. *)
Definition publicSort (sort : string) (products : list Product.t) : list Product.t :=
  if String.eqb sort "price_asc" then
    Arr.sort (fun a b => JS.num_sub (Product.price a) (Product.price b)) products
  else if String.eqb sort "price_desc" then
    Arr.sort (fun a b => JS.num_sub (Product.price b) (Product.price a)) products
  else if String.eqb sort "title_asc" then
    Arr.sort (fun a b => localeCompare (Product.title a) (Product.title b)) products
  else if String.eqb sort "title_desc" then
    Arr.sort (fun a b => localeCompare (Product.title b) (Product.title a)) products
  else products.

Definition queryPublic (stored : list Product.t) (q : PublicQuery) : PublicResponse :=
  let products := stored in
  let products := List.filter (fun p => Bool.eqb (Product.isActive p) true) products in
  let products :=
    match param_given (pq_category q) with
    | Some c =>
        List.filter
          (fun p => String.eqb (toLowerCase (Product.category p)) (toLowerCase c))
          products
    | None => products
    end in
  let products :=
    match param_given (pq_search q) with
    | Some s =>
        let keyword := toLowerCase s in
        List.filter
          (fun p => Str.includes (toLowerCase (Product.title p)) keyword
                    || Str.includes (toLowerCase (Product.author p)) keyword)
          products
    | None => products
    end in
  let products :=
    match param_given (pq_sort q) with
    | Some s => publicSort s products
    | None => products
    end in
  {| pr_products := products;
     pr_total := length products;
     pr_filters := {| pf_category := param_given (pq_category q);
                      pf_search := param_given (pq_search q);
                      pf_sort := param_given (pq_sort q) |} |}.

End Catalog.

(** ** Catalog: admin query (GET /api/admin/products) *)

Record AdminQuery : Type := {
  aq_category : option string;
  aq_search : option string;
  aq_status : option string;
  aq_page : option string;
  aq_limit : option string;
  aq_sortBy : option string;
  aq_sortOrder : option string
}.

Record Pagination : Type := {
  currentPage : JS.number;
  totalPages : JS.number;
  totalProducts : nat;
  productsPerPage : JS.number;
  hasNextPage : bool;
  hasPrevPage : bool
}.

Record Statistics : Type := {
  st_total : nat;
  st_active : nat;
  st_inactive : nat;
  st_lowStock : nat;
  st_outOfStock : nat
}.

Record AdminFilters : Type := {
  af_category : string;
  af_search : string;
  af_status : string;
  af_sortBy : string;
  af_sortOrder : string
}.

Record AdminResponse : Type := {
  ar_products : list Product.t;
  ar_pagination : Pagination;
  ar_statistics : Statistics;
  ar_filters : AdminFilters
}.

Section AdminCatalog.
Context `{Host}.

(** The status, category and search filters of the admin handler, in the
    order the handler applies them. *)
Definition adminFilter (stored : list Product.t) (q : AdminQuery) : list Product.t :=
  let status := default "all"%string (aq_status q) in
  let products := stored in
  let products :=
    if String.eqb status "active" then
      List.filter (fun p => Bool.eqb (Product.isActive p) true) products
    else if String.eqb status "inactive" then
      List.filter (fun p => Bool.eqb (Product.isActive p) false) products
    else products in
  let products :=
    match param_given (aq_category q) with
    | Some c =>
        if negb (String.eqb c "all") then
          List.filter
            (fun p => Str.includes (toLowerCase (Product.category p)) (toLowerCase c))
            products
        else products
    | None => products
    end in
  match param_given (aq_search q) with
  | Some s =>
      let searchTerm := toLowerCase s in
      List.filter
        (fun p => Str.includes (toLowerCase (Product.title p)) searchTerm
                  || Str.includes (toLowerCase (Product.author p)) searchTerm
                  || (JS.truthy (JS.VStr (Product.isbn p))
                      && Str.includes (Product.isbn p) s))
        products
  | None => products
  end.

(** [sortBy || "createdAt"], after the default of the destructuring. *)
Definition adminSortField (q : AdminQuery) : string :=
  let sortBy := default "createdAt"%string (aq_sortBy q) in
  if JS.truthy (JS.VStr sortBy) then sortBy else "createdAt"%string.

(** [sortOrder === "asc" ? 1 : -1] *)
Definition adminOrder (q : AdminQuery) : JS.number :=
  let sortOrder := default "desc"%string (aq_sortOrder q) in
  if String.eqb sortOrder "asc" then JS.of_Z 1 else JS.of_Z (-1).

(** ToNumber on a stored number that may be [null]. *)
Definition null_to_zero (o : option JS.number) : JS.number :=
  default (JS.of_Z 0) o.

(** The comparator passed to [products.sort] by the admin handler. *)
Definition adminCompare (sortField : string) (order : JS.number)
    (a b : Product.t) : JS.number :=
  if String.eqb sortField "title" then
    JS.num_mul order (localeCompare (Product.title a) (Product.title b))
  else if String.eqb sortField "author" then
    JS.num_mul order (localeCompare (Product.author a) (Product.author b))
  else if String.eqb sortField "category" then
    JS.num_mul order (localeCompare (Product.category a) (Product.category b))
  else if String.eqb sortField "price" then
    JS.num_mul order (JS.num_sub (Product.price a) (Product.price b))
  else if String.eqb sortField "stock" then
    JS.num_mul order (JS.num_sub (Product.stock a) (Product.stock b))
  else if String.eqb sortField "rating" then
    JS.num_mul order
      (JS.num_sub (null_to_zero (Product.rating a)) (null_to_zero (Product.rating b)))
  else
    JS.num_mul order
      (JS.num_sub (Date_value (Product.to_primitive (Product.get a sortField)))
                  (Date_value (Product.to_primitive (Product.get b sortField)))).

(** The filtered and sorted array the handler paginates. *)
Definition adminSorted (stored : list Product.t) (q : AdminQuery) : list Product.t :=
  Arr.sort (adminCompare (adminSortField q) (adminOrder q)) (adminFilter stored q).

(** [parseInt(page)] and [parseInt(limit)].  The defaults of the
    destructuring are the numbers 1 and 50, which [parseInt] first turns
    into the strings "1" and "50". *)
Definition pageNum (q : AdminQuery) : JS.number :=
  Str.parseInt (default "1"%string (aq_page q)).
Definition limitNum (q : AdminQuery) : JS.number :=
  Str.parseInt (default "50"%string (aq_limit q)).

Definition startIndex (q : AdminQuery) : JS.number :=
  JS.num_mul (JS.num_sub (pageNum q) (JS.of_Z 1)) (limitNum q).
Definition endIndex (q : AdminQuery) : JS.number :=
  JS.num_add (startIndex q) (limitNum q).

Definition count (f : Product.t -> bool) (l : list Product.t) : nat :=
  length (List.filter f l).

Definition queryAdmin (stored : list Product.t) (q : AdminQuery) : AdminResponse :=
  let products := adminSorted stored q in
  let paginatedProducts := Arr.slice (startIndex q) (endIndex q) products in
  let totalProducts := length products in
  {| ar_products := paginatedProducts;
     ar_pagination :=
       {| currentPage := pageNum q;
          totalPages := JS.Math_ceil (JS.num_div (JS.of_nat totalProducts) (limitNum q));
          totalProducts := totalProducts;
          productsPerPage := limitNum q;
          hasNextPage := JS.num_lt (endIndex q) (JS.of_nat totalProducts);
          hasPrevPage := JS.num_lt (JS.of_Z 0) (startIndex q) |};
     ar_statistics :=
       {| st_total := totalProducts;
          st_active := count (fun p => Product.isActive p) products;
          st_inactive := count (fun p => negb (Product.isActive p)) products;
          st_lowStock :=
            count (fun p => JS.num_lt (Product.stock p) (JS.of_Z 10)
                            && JS.num_lt (JS.of_Z 0) (Product.stock p)) products;
          st_outOfStock :=
            count (fun p => JS.num_eq (Product.stock p) (JS.of_Z 0)) products |};
     ar_filters :=
       {| af_category := default "all"%string (param_given (aq_category q));
          af_search := default ""%string (param_given (aq_search q));
          af_status := default "all"%string (aq_status q);
          af_sortBy := adminSortField q;
          af_sortOrder := default "desc"%string (aq_sortOrder q) |} |}.

End AdminCatalog.

(** ** Admin login (POST /api/admin/login) *)

Record LoginBody : Type := {
  lb_email : option string;
  lb_password : option string
}.

Inductive LoginResponse : Type :=
  | LoginMissingCredentials                     (* 400 *)
  | LoginNotAdmin                               (* 401, no admin with that email *)
  | LoginWrongPassword                          (* 401 *)
  | LoginOk (token : string) (user : User.t).   (* 200 *)

Section Login.
Context `{Host}.

Definition login (users : list User.t) (body : LoginBody) : LoginResponse :=
  if negb (JS.truthy (param_value (lb_email body)))
     || negb (JS.truthy (param_value (lb_password body)))
  then LoginMissingCredentials
  else
    let email := default ""%string (lb_email body) in
    let password := default ""%string (lb_password body) in
    match Arr.find
            (fun u => String.eqb (User.email u) email
                      && String.eqb (User.role u) "admin")
            users with
    | None => LoginNotAdmin
    | Some user =>
        if negb (bcrypt_compare password (User.password user))
        then LoginWrongPassword
        else
          LoginOk
            (jwt_sign (User.id user) (User.email user) (User.role user) (User.name user))
            user
    end.

End Login.

Definition issues_token (r : LoginResponse) : Prop :=
  match r with
  | LoginOk _ _ => True
  | _ => False
  end.

(** ** Cart: add an item (POST /api/cart) *)

Record CartBody : Type := {
  cb_productId : JS.value;             (* [VUndefined] when absent *)
  cb_quantity : option JS.number       (* a JSON number, or absent *)
}.

Inductive CartResponse : Type :=
  | CartMissingProduct          (* 400, "ID produs este obligatoriu" *)
  | CartProductNotFound         (* 404 *)
  | CartInsufficientStock       (* 400, "Stoc insuficient" *)
  | CartOk (cart : Cart.t).     (* 200 *)

(** [readCart()]: the stored cart, or an empty one when none was saved. *)
Definition readCart (now : string) (stored : option Cart.t) : Cart.t :=
  match stored with
  | Some c => c
  | None =>
      {| Cart.items := []; Cart.total := JS.of_Z 0; Cart.totalItems := JS.of_Z 0;
         Cart.lastUpdated := now |}
  end.

(** [items.reduce((sum, item) => sum + item.price * item.quantity, 0)] *)
Definition cartTotal (items : list CartItem.t) : JS.number :=
  fold_left
    (fun sum item => JS.num_add sum (JS.num_mul (CartItem.price item) (CartItem.quantity item)))
    items (JS.of_Z 0).

(** [items.reduce((sum, item) => sum + item.quantity, 0)] *)
Definition cartTotalItems (items : list CartItem.t) : JS.number :=
  fold_left (fun sum item => JS.num_add sum (CartItem.quantity item)) items (JS.of_Z 0).

(** [item.quantity += quantity] *)
Definition addQuantity (quantity : JS.number) (item : CartItem.t) : CartItem.t :=
  {| CartItem.productId := CartItem.productId item;
     CartItem.quantity := JS.num_add (CartItem.quantity item) quantity;
     CartItem.title := CartItem.title item;
     CartItem.author := CartItem.author item;
     CartItem.price := CartItem.price item;
     CartItem.imageUrl := CartItem.imageUrl item;
     CartItem.addedAt := CartItem.addedAt item |}.

(** [product.discountPrice || product.price] *)
Definition snapshotPrice (product : Product.t) : JS.number :=
  match Product.discountPrice product with
  | Some d => if JS.truthy (JS.VNum d) then d else Product.price product
  | None => Product.price product
  end.

(** The product lookup of the cart handler. *)
Definition findActiveProduct (products : list Product.t) (productId : JS.value)
    : option Product.t :=
  Arr.find
    (fun p => JS.strict_eq (JS.VNum (JS.of_Z (Product.id p))) productId
              && Bool.eqb (Product.isActive p) true)
    products.

(** The merge lookup of the cart handler. *)
Definition existingItemIndex (items : list CartItem.t) (productId : JS.value)
    : option nat :=
  Arr.findIndex (fun item => JS.strict_eq (CartItem.productId item) productId) items.

(** The [if (existingItemIndex > -1) ... else ...] of the handler: the
    quantity of the existing line is increased, or a new line is pushed. *)
Definition mergeItem (now : string) (product : Product.t) (productId : JS.value)
    (quantity : JS.number) (items : list CartItem.t) : list CartItem.t :=
  match existingItemIndex items productId with
  | Some i => alter (addQuantity quantity) i items
  | None =>
      items ++
      [ {| CartItem.productId := productId;
           CartItem.quantity := quantity;
           CartItem.title := Product.title product;
           CartItem.author := Product.author product;
           CartItem.price := snapshotPrice product;
           CartItem.imageUrl := Product.imageUrl product;
           CartItem.addedAt := now |} ]
  end.

(** The handler; [now] is the reading of the clock during the request.
    Returns the response and the stored cart after the request. *)
Definition addItem (now : string) (products : list Product.t)
    (stored : option Cart.t) (body : CartBody) : CartResponse * option Cart.t :=
  let productId := cb_productId body in
  let quantity := default (JS.of_Z 1) (cb_quantity body) in
  if negb (JS.truthy productId) then (CartMissingProduct, stored)
  else
    match findActiveProduct products productId with
    | None => (CartProductNotFound, stored)
    | Some product =>
        if JS.num_lt (Product.stock product) quantity
        then (CartInsufficientStock, stored)
        else
          let cart := readCart now stored in
          let items := mergeItem now product productId quantity (Cart.items cart) in
          let cart :=
            {| Cart.items := items;
               Cart.total := cartTotal items;
               Cart.totalItems := cartTotalItems items;
               Cart.lastUpdated := now |} in
          (CartOk cart, Some cart)
    end.

(** ** Product administration (POST, PUT, DELETE /api/admin/products) *)

Section ValueCoercions.
Context `{Host}.

(** ToNumber *)
Definition ToNumber (v : JS.value) : JS.number :=
  match v with
  | JS.VUndefined => JS.NaN
  | JS.VNull => JS.of_Z 0
  | JS.VBool b => if b then JS.of_Z 1 else JS.of_Z 0
  | JS.VNum n => n
  | JS.VStr s => StringToNumber s
  end.

(** ToString *)
Definition ToString (v : JS.value) : string :=
  match v with
  | JS.VUndefined => "undefined"
  | JS.VNull => "null"
  | JS.VBool b => if b then "true" else "false"
  | JS.VNum n => NumberToString n
  | JS.VStr s => s
  end.

(** [a < b]: two strings are compared as strings, by code units; anything
    else is compared as numbers. *)
Definition js_lt (a b : JS.value) : bool :=
  match a, b with
  | JS.VStr x, JS.VStr y => String.ltb x y
  | _, _ => JS.num_lt (ToNumber a) (ToNumber b)
  end.

(** [a > b] *)
Definition js_gt (a b : JS.value) : bool := js_lt b a.

(** [parseFloat(v)] and [parseInt(v)]: the argument is first converted to
    a string. *)
Definition parseFloat (v : JS.value) : JS.number := parseFloat_string (ToString v).
Definition parseInt (v : JS.value) : JS.number := Str.parseInt (ToString v).

(** [v?.trim()]: [None] when the call throws a TypeError (a value that is
    neither nullish nor a string has no method [trim]); [Some None] is
    [undefined]. *)
Definition optional_trim (v : JS.value) : option (option string) :=
  match v with
  | JS.VUndefined | JS.VNull => Some None
  | JS.VStr s => Some (Some (trim s))
  | _ => None
  end.

(** [v?.trim() || fallback] *)
Definition trim_or (v : JS.value) (fallback : string) : option string :=
  match optional_trim v with
  | Some (Some s) => Some (if JS.truthy (JS.VStr s) then s else fallback)
  | Some None => Some fallback
  | None => None
  end.

(** [v.trim()] on a value already known to be truthy. *)
Definition required_trim (v : JS.value) : option string :=
  match v with
  | JS.VStr s => Some (trim s)
  | _ => None
  end.

(** [v ? parseFloat(v) : null] *)
Definition parseFloat_or_null (v : JS.value) : option JS.number :=
  if JS.truthy v then Some (parseFloat v) else None.

(** [v?.toString() || fallback]: every primitive that is not nullish has
    the method. *)
Definition toString_or (v : JS.value) (fallback : string) : string :=
  match v with
  | JS.VUndefined | JS.VNull => fallback
  | _ => if JS.truthy (JS.VStr (ToString v)) then ToString v else fallback
  end.

End ValueCoercions.

(** [req.body[k]] *)
Definition field (body : gmap string JS.value) (k : string) : JS.value :=
  default JS.VUndefined (body !! k).

Definition requiredFields : list string := ["title"; "author"; "price"; "stock"]%string.

Inductive CreateResponse : Type :=
  | CreateMissingFields (missingFields : list string)   (* 400 *)
  | CreateNegativeValue (what : string)                 (* 400, price or stock *)
  | CreateInvalidDiscount                               (* 400 *)
  | CreateServerError                                   (* 500, exception caught *)
  | Created (product : Product.t).                      (* 201 *)

Section Create.
Context `{Host}.

(** [lastProduct ? lastProduct.id + 1 : 1]: the sum is a sum of doubles. *)
Definition newId (products : list Product.t) : Z :=
  match last products with
  | Some lastProduct => JS.round_int (Product.id lastProduct + 1)
  | None => 1
  end.

(** The object literal [newProduct]; [None] when building it throws, which
    a call of [trim] on a number or a boolean does.  The clock is read
    twice, for [createdAt] and then for [updatedAt]; [user] is [req.user].
    A price, stock, rating or review count that [parseFloat] or [parseInt]
    cannot read is [NaN] here; the file and the response then hold [null]
    (see [finite_numbers]). *)
Definition newProduct (user : Identity) (now1 now2 : string) (products : list Product.t)
    (body : gmap string JS.value) : option Product.t :=
  title ← required_trim (field body "title");
  author ← required_trim (field body "author");
  isbn ← trim_or (field body "isbn") "";
  category ← trim_or (field body "category") "General";
  description ← trim_or (field body "description") "";
  imageUrl ← trim_or (field body "imageUrl") "/images/default-book.jpg";
  publisher ← trim_or (field body "publisher") "";
  Some {| Product.id := newId products;
          Product.title := title;
          Product.author := author;
          Product.isbn := isbn;
          Product.category := category;
          Product.price := parseFloat (field body "price");
          Product.discountPrice := parseFloat_or_null (field body "discountPrice");
          Product.description := description;
          Product.imageUrl := imageUrl;
          Product.stock := parseInt (field body "stock");
          Product.isActive := true;
          Product.featured := JS.js_or (field body "featured") (JS.VBool false);
          Product.rating := parseFloat_or_null (field body "rating");
          Product.reviewCount :=
            if JS.truthy (field body "reviewCount")
            then parseInt (field body "reviewCount") else JS.of_Z 0;
          Product.tags :=
            if JS.truthy (field body "tags")
            then Product.Primitive (field body "tags") else Product.StringArray [];
          Product.specifications :=
            {| Product.pages := toString_or (field body "pages") "";
               Product.language := "Romanian";
               Product.publisher := publisher;
               Product.year := toString_or (field body "year") "";
               Product.format := "Paperback" |};
          Product.createdAt := now1;
          Product.updatedAt := now2;
          Product.createdBy := identity_id user |}.

(** The handler: the response and the stored products after the request. *)
Definition create (user : Identity) (now1 now2 : string) (stored : list Product.t)
    (body : gmap string JS.value) : CreateResponse * list Product.t :=
  let price := field body "price" in
  let stock := field body "stock" in
  let discountPrice := field body "discountPrice" in
  let missingFields :=
    List.filter (fun f => negb (JS.truthy (field body f))) requiredFields in
  if (0 <? length missingFields)%nat then (CreateMissingFields missingFields, stored)
  else if js_lt price (JS.VNum (JS.of_Z 0)) then (CreateNegativeValue "price", stored)
  else if js_lt stock (JS.VNum (JS.of_Z 0)) then (CreateNegativeValue "stock", stored)
  else if JS.truthy discountPrice && js_gt discountPrice price
  then (CreateInvalidDiscount, stored)
  else
    match newProduct user now1 now2 stored body with
    | None => (CreateServerError, stored)
    | Some product => (Created product, stored ++ [product])
    end.

End Create.

(** The body of an update request, read as a patch of the stored
    properties: [None] for a property the body does not carry. *)
Record Patch : Type := {
  patch_id : option Z;
  patch_title : option string;
  patch_author : option string;
  patch_isbn : option string;
  patch_category : option string;
  patch_price : option JS.number;
  patch_discountPrice : option (option JS.number);
  patch_description : option string;
  patch_imageUrl : option string;
  patch_stock : option JS.number;
  patch_isActive : option bool;
  patch_featured : option JS.value;
  patch_rating : option (option JS.number);
  patch_reviewCount : option JS.number;
  patch_tags : option Product.property;
  patch_specifications : option Product.specs;
  patch_createdAt : option string;
  patch_updatedAt : option string;
  patch_createdBy : option Z
}.

(** [{ ...product, ...updates, updatedAt: now }] *)
Definition mergePatch (now : string) (product : Product.t) (updates : Patch) : Product.t :=
  {| Product.id := default (Product.id product) (patch_id updates);
     Product.title := default (Product.title product) (patch_title updates);
     Product.author := default (Product.author product) (patch_author updates);
     Product.isbn := default (Product.isbn product) (patch_isbn updates);
     Product.category := default (Product.category product) (patch_category updates);
     Product.price := default (Product.price product) (patch_price updates);
     Product.discountPrice :=
       default (Product.discountPrice product) (patch_discountPrice updates);
     Product.description := default (Product.description product) (patch_description updates);
     Product.imageUrl := default (Product.imageUrl product) (patch_imageUrl updates);
     Product.stock := default (Product.stock product) (patch_stock updates);
     Product.isActive := default (Product.isActive product) (patch_isActive updates);
     Product.featured := default (Product.featured product) (patch_featured updates);
     Product.rating := default (Product.rating product) (patch_rating updates);
     Product.reviewCount := default (Product.reviewCount product) (patch_reviewCount updates);
     Product.tags := default (Product.tags product) (patch_tags updates);
     Product.specifications :=
       default (Product.specifications product) (patch_specifications updates);
     Product.createdAt := default (Product.createdAt product) (patch_createdAt updates);
     Product.updatedAt := now;
     Product.createdBy := default (Product.createdBy product) (patch_createdBy updates) |}.

(** [products.findIndex((p) => p.id === productId)] with
    [productId = parseInt(req.params.id)]. *)
Definition findProductIndex (products : list Product.t) (idParam : string) : option nat :=
  let productId := Str.parseInt idParam in
  Arr.findIndex (fun p => JS.num_eq (JS.of_Z (Product.id p)) productId) products.

Inductive UpdateResponse : Type :=
  | UpdateNotFound                      (* 404 *)
  | Updated (product : Product.t).      (* 200 *)

Definition update (now : string) (stored : list Product.t) (idParam : string)
    (updates : Patch) : UpdateResponse * list Product.t :=
  match findProductIndex stored idParam with
  | None => (UpdateNotFound, stored)
  | Some productIndex =>
      let products := alter (fun p => mergePatch now p updates) productIndex stored in
      match products !! productIndex with
      | Some product => (Updated product, products)
      | None => (UpdateNotFound, stored)
      end
  end.

Inductive DeleteResponse : Type :=
  | DeleteNotFound                      (* 404 *)
  | Deleted (message : string).         (* 200 *)

(** [products[productIndex].isActive = false] and the refreshed timestamp. *)
Definition deactivate (now : string) (p : Product.t) : Product.t :=
  {| Product.id := Product.id p;
     Product.title := Product.title p;
     Product.author := Product.author p;
     Product.isbn := Product.isbn p;
     Product.category := Product.category p;
     Product.price := Product.price p;
     Product.discountPrice := Product.discountPrice p;
     Product.description := Product.description p;
     Product.imageUrl := Product.imageUrl p;
     Product.stock := Product.stock p;
     Product.isActive := false;
     Product.featured := Product.featured p;
     Product.rating := Product.rating p;
     Product.reviewCount := Product.reviewCount p;
     Product.tags := Product.tags p;
     Product.specifications := Product.specifications p;
     Product.createdAt := Product.createdAt p;
     Product.updatedAt := now;
     Product.createdBy := Product.createdBy p |}.

(** The delete handler; [permanent] is the query parameter, a string when
    given, so that any non-empty string asks for the permanent deletion. *)
Definition delete_product (now : string) (stored : list Product.t) (idParam : string)
    (permanent : option string) : DeleteResponse * list Product.t :=
  match findProductIndex stored idParam with
  | None => (DeleteNotFound, stored)
  | Some productIndex =>
      if JS.truthy (param_value permanent)
      then (Deleted "Produs şters definitiv", delete productIndex stored)
      else (Deleted "Produs dezactivat cu succes",
            alter (deactivate now) productIndex stored)
  end.

(** ** A sample host

    One implementation of the host functions, used to run the handlers on
    concrete requests: case folding and trimming for ASCII, numeric
    strings read as decimal literals (exactly, as every number here), dates
    in the format of [toISOString], a transparent stand-in for the password
    hash. *)

Module Sample.

Definition lower_char (c : ascii) : ascii :=
  let n := N_of_ascii c in
  if ((65 <=? n) && (n <=? 90))%N then ascii_of_N (n + 32) else c.

Fixpoint lower (s : string) : string :=
  match s with
  | EmptyString => EmptyString
  | String c r => String (lower_char c) (lower r)
  end.

Definition compare_strings (a b : string) : JS.number :=
  match String.compare a b with
  | Lt => JS.of_Z (-1)
  | Eq => JS.of_Z 0
  | Gt => JS.of_Z 1
  end.

Fixpoint drop_spaces (l : list ascii) : list ascii :=
  match l with
  | c :: r => if Str.is_white_space c then drop_spaces r else l
  | [] => []
  end.

Definition trim_chars (l : list ascii) : list ascii :=
  rev (drop_spaces (rev (drop_spaces l))).

Definition trim_both (s : string) : string :=
  string_of_list_ascii (trim_chars (list_ascii_of_string s)).

Definition hash (password : string) : string := ("hash:" ++ password)%string.

(** The longest prefix of decimal digits: its value, its length, the rest. *)
Fixpoint read_decimal_digits (acc : Z) (count : Z) (l : list ascii)
    : Z * Z * list ascii :=
  match l with
  | c :: r =>
      match Str.digit_value 10 c with
      | Some d => read_decimal_digits (acc * 10 + d) (count + 1) r
      | None => (acc, count, l)
      end
  | [] => (acc, count, [])
  end.

Definition read_exponent (l : list ascii) : Z * list ascii :=
  match l with
  | ("e" | "E")%char :: r =>
      let '(sign, r') := Str.strip_sign r in
      let '(e, n, rest) := read_decimal_digits 0 0 r' in
      if n =? 0 then (0, l) else (sign * e, rest)
  | _ => (0, l)
  end.

(** The longest prefix that is a decimal literal (digits, a fraction, an
    exponent), with the rest of the string. *)
Definition read_literal (l : list ascii) : option (Q * list ascii) :=
  let '(i, ni, r1) := read_decimal_digits 0 0 l in
  let '(f, nf, r2) :=
    match r1 with
    | "."%char :: r => read_decimal_digits 0 0 r
    | _ => (0, 0, r1)
    end in
  if ni + nf =? 0 then None
  else
    let '(e, r3) := read_exponent r2 in
    Some (Qred ((inject_Z i + inject_Z f / inject_Z (10 ^ nf)) * inject_Z 10 ^ e), r3).

Definition infinity_chars : list ascii := list_ascii_of_string "Infinity".

Definition starts_with (prefix l : list ascii) : bool :=
  if decide (take (length prefix) l = prefix) then true else false.

Definition signed (sign : Z) (n : JS.number) : JS.number :=
  if sign <? 0 then JS.num_neg n else n.

(** [parseFloat(s)] *)
Definition parse_float (s : string) : JS.number :=
  let '(sign, l) := Str.strip_sign (Str.skip_white_space (list_ascii_of_string s)) in
  if starts_with infinity_chars l then signed sign JS.PInf
  else match read_literal l with
       | Some (q, _) => signed sign (JS.Fin q)
       | None => JS.NaN
       end.

(** A literal with a radix prefix: all of [r] are digits of the radix. *)
Definition read_radix (radix : Z) (r : list ascii) : JS.number :=
  if forallb (fun c => bool_decide (is_Some (Str.digit_value radix c))) r
  then match Str.read_digits radix None r with
       | Some n => JS.of_Z n
       | None => JS.NaN
       end
  else JS.NaN.

(** ToNumber on a string: the whole string, trimmed, is a numeric literal;
    the empty string is [0]. *)
Definition to_number (s : string) : JS.number :=
  let l := trim_chars (list_ascii_of_string s) in
  match l with
  | [] => JS.of_Z 0
  | "0"%char :: ("x" | "X")%char :: r => read_radix 16 r
  | "0"%char :: ("o" | "O")%char :: r => read_radix 8 r
  | "0"%char :: ("b" | "B")%char :: r => read_radix 2 r
  | _ =>
      let '(sign, r) := Str.strip_sign l in
      if decide (r = infinity_chars) then signed sign JS.PInf
      else match read_literal r with
           | Some (q, []) => signed sign (JS.Fin q)
           | _ => JS.NaN
           end
  end.

(** The decimal digits of a fraction [0 <= n/d < 1], as far as [fuel]
    goes. *)
Fixpoint fraction_digits (fuel : nat) (n d : Z) : string :=
  match fuel with
  | O => EmptyString
  | S fuel' =>
      if n =? 0 then EmptyString
      else String (pretty_N_char (Z.to_N (10 * n / d)))
                  (fraction_digits fuel' (10 * n mod d) d)
  end.

(** ToString on a number, for the integers and the decimal fractions of up
    to twenty places (no exponent notation). *)
Definition number_to_string (n : JS.number) : string :=
  match n with
  | JS.NaN => "NaN"
  | JS.PInf => "Infinity"
  | JS.NInf => "-Infinity"
  | JS.Fin q =>
      let num := Z.abs (Qnum q) in
      let den := Z.pos (Qden q) in
      let whole := pretty (num / den) in
      let fraction := fraction_digits 20 (num mod den) den in
      let sign := if Qnum q <? 0 then "-"%string else ""%string in
      let point := if String.eqb fraction "" then ""%string else "."%string in
      (sign ++ whole ++ point ++ fraction)%string
  end.

(** The digits at the positions [from, from + len) of an ISO date. *)
Definition digits_at (from len : nat) (l : list ascii) : option Z :=
  let part := take len (drop from l) in
  if forallb (fun c => bool_decide (is_Some (Str.digit_value 10 c))) part
     && (length part =? len)%nat
  then Str.read_digits 10 None part
  else None.

(** Days from 1970-01-01 to the given date of the Gregorian calendar. *)
Definition days_from_civil (y m d : Z) : Z :=
  let y := if m <=? 2 then y - 1 else y in
  let era := y / 400 in
  let yoe := y - era * 400 in
  let doy := (153 * (if 2 <? m then m - 3 else m + 9) + 2) / 5 + d - 1 in
  let doe := yoe * 365 + yoe / 4 - yoe / 100 + doy in
  era * 146097 + doe - 719468.

(** The time value of a date written as [YYYY-MM-DDTHH:mm:ss.sssZ]. *)
Definition iso_time (s : string) : JS.number :=
  let l := list_ascii_of_string s in
  match digits_at 0 4 l, digits_at 5 2 l, digits_at 8 2 l,
        digits_at 11 2 l, digits_at 14 2 l, digits_at 17 2 l, digits_at 20 3 l with
  | Some y, Some m, Some d, Some h, Some mi, Some sec, Some ms =>
      if (length l =? 24)%nat
      then JS.of_Z ((((days_from_civil y m d * 24 + h) * 60 + mi) * 60 + sec) * 1000 + ms)
      else JS.NaN
  | _, _, _, _, _, _, _ => JS.NaN
  end.

(** The time value of [new Date(v)]. *)
Definition date_value (v : JS.value) : JS.number :=
  match v with
  | JS.VStr s => iso_time s
  | JS.VNum (JS.Fin q) => JS.of_Z (JS.Qtruncate q)
  | JS.VBool b => if b then JS.of_Z 1 else JS.of_Z 0
  | JS.VNull => JS.of_Z 0
  | _ => JS.NaN
  end.

#[export] Instance host : Host := {|
  toLowerCase := lower;
  localeCompare := compare_strings;
  trim := trim_both;
  Date_value := date_value;
  StringToNumber := to_number;
  NumberToString := number_to_string;
  parseFloat_string := parse_float;
  bcrypt_compare := fun password stored => String.eqb (hash password) stored;
  jwt_sign := fun _ email _ _ => ("token:" ++ email)%string
|}.

Definition book (id : Z) (title : string) (price stock : Z) (active : bool) : Product.t :=
  {| Product.id := id; Product.title := title; Product.author := "Author";
     Product.isbn := ""; Product.category := "General";
     Product.price := JS.of_Z price; Product.discountPrice := None;
     Product.description := ""; Product.imageUrl := "/images/default-book.jpg";
     Product.stock := JS.of_Z stock; Product.isActive := active;
     Product.featured := JS.VBool false;
     Product.rating := None;
     Product.reviewCount := JS.of_Z 0;
     Product.tags := Product.StringArray [];
     Product.specifications :=
       {| Product.pages := ""; Product.language := "Romanian";
          Product.publisher := ""; Product.year := "";
          Product.format := "Paperback" |};
     Product.createdAt := "2024-01-01T00:00:00.000Z";
     Product.updatedAt := "2024-01-01T00:00:00.000Z";
     Product.createdBy := 1 |}.

Definition now : string := "2024-06-01T12:00:00.000Z".

(** A second reading of the clock, one millisecond later. *)
Definition later : string := "2024-06-01T12:00:00.001Z".

(** Three products with prices 10, 20 and 30; the last one is inactive. *)
Definition stored : list Product.t :=
  [book 1 "A" 10 5 true; book 2 "B" 20 0 true; book 3 "C" 30 50 false].

Definition window (page limit : option string) : AdminQuery :=
  {| aq_category := None; aq_search := None; aq_status := None;
     aq_page := page; aq_limit := limit;
     aq_sortBy := Some "price"%string; aq_sortOrder := Some "asc"%string |}.

Definition any_query : PublicQuery :=
  {| pq_category := None; pq_search := None; pq_sort := None |}.

Definition admin : User.t :=
  {| User.id := 1; User.email := "admin@bookstore.com";
     User.password := hash "passAdm"; User.role := "admin"; User.name := "Admin" |}.

(** The payload of the token of the sample admin. *)
Definition admin_identity : Identity := identity_of admin.

Definition customer : User.t :=
  {| User.id := 2; User.email := "reader@bookstore.com";
     User.password := hash "secret"; User.role := "customer"; User.name := "Reader" |}.

(** An admin whose stored hash is the hash of the empty password. *)
Definition admin_without_password : User.t :=
  {| User.id := 3; User.email := "root@bookstore.com";
     User.password := hash ""; User.role := "admin"; User.name := "Root" |}.

Definition credentials (email password : string) : LoginBody :=
  {| lb_email := Some email; lb_password := Some password |}.

(** One product with id 2 and ten copies in stock. *)
Definition shelf : list Product.t := [book 2 "B" 20 10 true].

Definition line (id quantity : Z) : CartItem.t :=
  {| CartItem.productId := JS.VNum (JS.of_Z id);
     CartItem.quantity := JS.of_Z quantity;
     CartItem.title := "B"; CartItem.author := "Author";
     CartItem.price := JS.of_Z 20;
     CartItem.imageUrl := "/images/default-book.jpg";
     CartItem.addedAt := "2024-05-01T00:00:00.000Z" |}.

(** A stored cart that already holds the given quantity of product 2. *)
Definition cart_with (quantity : Z) : Cart.t :=
  {| Cart.items := [line 2 quantity];
     Cart.total := JS.of_Z (20 * quantity);
     Cart.totalItems := JS.of_Z quantity;
     Cart.lastUpdated := "2024-05-01T00:00:00.000Z" |}.

Definition num (z : Z) : JS.value := JS.VNum (JS.of_Z z).

Definition only_title : gmap string JS.value :=
  {[ "title"%string := JS.VStr "Only Title" ]}.

Definition new_book (price stock : Z) : gmap string JS.value :=
  <[ "title"%string := JS.VStr "Test Book" ]>
    (<[ "author"%string := JS.VStr "Test Author" ]>
       (<[ "price"%string := num price ]>
          {[ "stock"%string := num stock ]})).

Definition discounted_book (price stock discountPrice : Z) : gmap string JS.value :=
  <[ "discountPrice"%string := num discountPrice ]> (new_book price stock).

(** A patch that carries only an id. *)
Definition id_patch (id : Z) : Patch :=
  {| patch_id := Some id; patch_title := None; patch_author := None; patch_isbn := None;
     patch_category := None; patch_price := None; patch_discountPrice := None;
     patch_description := None; patch_imageUrl := None; patch_stock := None;
     patch_isActive := None; patch_featured := None; patch_rating := None;
     patch_reviewCount := None; patch_tags := None; patch_specifications := None;
     patch_createdAt := None; patch_updatedAt := None; patch_createdBy := None |}.

Definition title_patch (title : string) : Patch :=
  {| patch_id := None; patch_title := Some title; patch_author := None;
     patch_isbn := None; patch_category := None; patch_price := None;
     patch_discountPrice := None; patch_description := None; patch_imageUrl := None;
     patch_stock := None; patch_isActive := None; patch_featured := None;
     patch_rating := None; patch_reviewCount := None; patch_tags := None;
     patch_specifications := None; patch_createdAt := None; patch_updatedAt := None;
     patch_createdBy := None |}.

End Sample.

(** ** Vocabulary of the statements *)

(** A product is low on stock when [0 < stock < 10], and out of stock when
    [stock] is [0]. *)
Definition low_stock (p : Product.t) : Prop :=
  exists s, Product.stock p = JS.Fin s /\ (0 < s)%Q /\ (s < 10)%Q.

Definition out_of_stock (p : Product.t) : Prop :=
  exists s, Product.stock p = JS.Fin s /\ (s == 0)%Q.

Definition low_stockb (p : Product.t) : bool :=
  match Product.stock p with
  | JS.Fin s => if Qlt_le_dec 0 s then (if Qlt_le_dec s 10 then true else false) else false
  | _ => false
  end.

Definition out_of_stockb (p : Product.t) : bool :=
  match Product.stock p with
  | JS.Fin s => if Qeq_dec s 0 then true else false
  | _ => false
  end.

(** The number is finite: neither [NaN] nor an infinity.  JSON holds a
    finite number as it is. *)
Definition finite (n : JS.number) : Prop := exists q, n = JS.Fin q.


(** The same query with another pagination window. *)
Definition with_window (page limit : option string) (q : AdminQuery) : AdminQuery :=
  {| aq_category := aq_category q;
     aq_search := aq_search q;
     aq_status := aq_status q;
     aq_page := page;
     aq_limit := limit;
     aq_sortBy := aq_sortBy q;
     aq_sortOrder := aq_sortOrder q |}.

(** Two products have different prices when both prices are numbers and
    one is smaller than the other. *)
Definition different_prices (a b : Product.t) : Prop :=
  JS.num_lt (Product.price a) (Product.price b) = true
  \/ JS.num_lt (Product.price b) (Product.price a) = true.

(** All prices are pairwise distinct. *)
Definition distinct_prices (products : list Product.t) : Prop :=
  ForallOrdPairs different_prices products.

(** The same public query with the given sort key. *)
Definition with_sort (sort : string) (q : PublicQuery) : PublicQuery :=
  {| pq_category := pq_category q;
     pq_search := pq_search q;
     pq_sort := Some sort |}.

(** User collections in which no two users share an email. *)
Definition unique_emails (users : list User.t) : Prop :=
  List.NoDup (map User.email users).

(** The admin users with the given email. *)
Definition is_admin_with_email (email : string) (u : User.t) : Prop :=
  User.email u = email /\ User.role u = "admin"%string.

(** The line items of a cart for a product id. *)
Definition lines_for (productId : JS.value) (items : list CartItem.t) : list CartItem.t :=
  List.filter (fun item => JS.strict_eq (CartItem.productId item) productId) items.

(** The sum over the items, from left to right and starting from [0]. *)
Definition sum_over (f : CartItem.t -> JS.number) (items : list CartItem.t) : JS.number :=
  fold_left (fun sum item => JS.num_add sum (f item)) items (JS.of_Z 0).

Definition line_amount (item : CartItem.t) : JS.number :=
  JS.num_mul (CartItem.price item) (CartItem.quantity item).

(** The totals of a cart agree with its items. *)
Definition totals_consistent (cart : Cart.t) : Prop :=
  Cart.total cart = sum_over line_amount (Cart.items cart)
  /\ Cart.totalItems cart = sum_over CartItem.quantity (Cart.items cart).

(** The items of the stored cart ([readCart] without the clock). *)
Definition stored_items (stored : option Cart.t) : list CartItem.t :=
  match stored with
  | Some c => Cart.items c
  | None => []
  end.

(** A request to add [quantity] of [productId]. *)
Definition add_request (productId : JS.value) (quantity : JS.number) : CartBody :=
  {| cb_productId := productId; cb_quantity := Some quantity |}.

(** A response other than success. *)
Definition cart_failure (r : CartResponse) : Prop :=
  match r with
  | CartOk _ => False
  | _ => True
  end.

(** The user the login handler looks up: the first one with the email and
    the role admin. *)
Definition admin_lookup (users : list User.t) (email : string) : option User.t :=
  Arr.find
    (fun u => String.eqb (User.email u) email && String.eqb (User.role u) "admin")
    users.

(** A response of the create handler other than success. *)
Definition create_failure (r : CreateResponse) : Prop :=
  match r with
  | Created _ => False
  | _ => True
  end.

(** The required field is missing from the body, or falsy. *)
Definition absent (body : gmap string JS.value) (f : string) : Prop :=
  JS.truthy (field body f) = false.

(** The ids of the stored products, in collection order. *)
Definition ids (products : list Product.t) : list Z := map Product.id products.

Definition unique_ids (products : list Product.t) : Prop := List.NoDup (ids products).

(** Ids grow along the collection, as they do when every product was
    appended by the create handler. *)
Definition increasing_ids (products : list Product.t) : Prop :=
  StronglySorted Z.lt (ids products).

(** The id of the last stored product, when there is one, is a safe
    integer: the sum [lastProduct.id + 1] is then exact. *)
Definition safe_last_id (products : list Product.t) : Prop :=
  forall lastProduct,
    last products = Some lastProduct -> JS.safe_integer (Product.id lastProduct).


(** The comparator [cmp] decides the order [R] between [x] and [y]: it keeps
    [x] before [y] only when [R x y], and moves it after [y] only when
    [R y x]. *)
Definition decides {A : Type} (R : A -> A -> Prop) (cmp : A -> A -> JS.number)
    (x y : A) : Prop :=
  if Arr.keeps_order (cmp x y) then R x y else R y x.

(** [a] is cheaper than [b]. *)
Definition price_lt (a b : Product.t) : Prop :=
  JS.num_lt (Product.price a) (Product.price b) = true.

(** ** Cart: the other handlers *)

(** GET /api/cart: the stored cart, or the empty one; nothing is written. *)
Definition getCart (now : string) (stored : option Cart.t) : Cart.t :=
  readCart now stored.

(** POST /api/clear-cart: the stored cart after the request. *)
Definition clearCart (now : string) (stored : option Cart.t) : option Cart.t :=
  let cart := readCart now stored in
  Some {| Cart.items := [];
          Cart.total := JS.of_Z 0;
          Cart.totalItems := JS.of_Z 0;
          Cart.lastUpdated := now |}.

Section RemoveItem.
Context `{Host}.

(** DELETE /api/cart/:productId: the path parameter is a string, turned
    into a number by [Number(productId)]; every line whose productId is
    [!==] that number is kept.  Returns the cart of the response, which is
    also the one stored. *)
Definition removeItem (now : string) (stored : option Cart.t) (productId : string)
    : Cart.t * option Cart.t :=
  let cart := readCart now stored in
  let productIdNum := StringToNumber productId in
  let items :=
    List.filter
      (fun item => negb (JS.strict_eq (CartItem.productId item) (JS.VNum productIdNum)))
      (Cart.items cart) in
  let cart :=
    {| Cart.items := items;
       Cart.total := cartTotal items;
       Cart.totalItems := cartTotalItems items;
       Cart.lastUpdated := now |} in
  (cart, Some cart).

End RemoveItem.

(** ** Product administration: reading one product
    (GET /api/admin/products/:id) *)

Inductive GetResponse : Type :=
  | GetNotFound                       (* 404 *)
  | GetOk (product : Product.t).      (* 200 *)

Definition getById (stored : list Product.t) (idParam : string) : GetResponse :=
  let productId := Str.parseInt idParam in
  match Arr.find (fun p => JS.num_eq (JS.of_Z (Product.id p)) productId) stored with
  | None => GetNotFound
  | Some product => GetOk product
  end.

(** ** The authentication middleware *)

(** [jwt.verify(token, secret, callback)]: the payload, or [None] when the
    callback receives an error. *)
Class TokenVerifier : Type := {
  jwt_verify : string -> option Identity
}.

Module Split.

(** [s.split(sep)] for a separator of one character. *)
Fixpoint split_chars (sep : ascii) (current : list ascii) (l : list ascii)
    : list string :=
  match l with
  | [] => [string_of_list_ascii (rev current)]
  | c :: r =>
      if Ascii.eqb c sep
      then string_of_list_ascii (rev current) :: split_chars sep [] r
      else split_chars sep (c :: current) r
  end.

Definition split (sep : ascii) (s : string) : list string :=
  split_chars sep [] (list_ascii_of_string s).

End Split.

Inductive AuthError : Type :=
  | TokenRequired          (* 401 *)
  | TokenInvalid           (* 403 *)
  | AdminRequired.         (* 403, "Admin access required" *)

(** [authHeader && authHeader.split(" ")[1]], as a value: [VUndefined]
    when the header is missing or has no second part. *)
Definition headerToken (authHeader : option string) : JS.value :=
  match authHeader with
  | None => JS.VUndefined
  | Some h =>
      if JS.truthy (JS.VStr h)
      then match Split.split " " h !! 1%nat with
           | Some token => JS.VStr token
           | None => JS.VUndefined
           end
      else JS.VStr h
  end.

Section Auth.
Context `{TokenVerifier}.

(** [authenticateToken]: the error it answers with, or the identity it
    stores in [req.user] before calling [next]. *)
Definition authenticateToken (authHeader : option string) : AuthError + Identity :=
  match headerToken authHeader with
  | JS.VStr token =>
      if negb (JS.truthy (JS.VStr token)) then inl TokenRequired
      else match jwt_verify token with
           | None => inl TokenInvalid
           | Some user => inr user
           end
  | _ => inl TokenRequired
  end.

(** [requireAdmin] *)
Definition requireAdmin (user : Identity) : AuthError + Identity :=
  if negb (String.eqb (identity_role user) "admin") then inl AdminRequired
  else inr user.

(** A route registered as [app.METHOD(path, authenticateToken,
    requireAdmin, handler)]: the handler runs only when both middlewares
    called [next]; otherwise the error is the response and nothing is
    written. *)
Definition adminRoute {State Response : Type} (authHeader : option string)
    (handler : State -> Response * State) (stored : State)
    : (AuthError + Response) * State :=
  match authenticateToken authHeader with
  | inl e => (inl e, stored)
  | inr user =>
      match requireAdmin user with
      | inl e => (inl e, stored)
      | inr _ => let '(r, stored') := handler stored in (inr r, stored')
      end
  end.

End Auth.

(** The header a client sends with a token. *)
Definition bearer (token : string) : option string :=
  Some ("Bearer " ++ token)%string.

(** ** Vocabulary of the further statements *)

(** No two lines of the cart are for the same product id. *)
Definition one_line_per_product (items : list CartItem.t) : Prop :=
  forall productId, (length (lines_for productId items) <= 1)%nat.

(** The productId of the line is a number, the id of a stored product. *)
Definition numeric_line (item : CartItem.t) : Prop :=
  exists k : Z, JS.strict_eq (JS.VNum (JS.of_Z k)) (CartItem.productId item) = true.

(** The requests that write the cart. *)
Inductive CartRequest : Type :=
  | AddItem (body : CartBody)
  | RemoveItem (productId : string)
  | ClearCart.

Section CartSteps.
Context `{Host}.

(** The stored cart after a request, made at time [now] against the
    products stored at that time. *)
Definition cartStep (now : string) (products : list Product.t)
    (stored : option Cart.t) (request : CartRequest) : option Cart.t :=
  match request with
  | AddItem body => snd (addItem now products stored body)
  | RemoveItem productId => snd (removeItem now stored productId)
  | ClearCart => clearCart now stored
  end.

(** The carts that the handlers can have stored, starting without one. *)
Inductive reachableCart : option Cart.t -> Prop :=
  | reachable_start : reachableCart None
  | reachable_step now products stored request :
      reachableCart stored ->
      reachableCart (cartStep now products stored request).

End CartSteps.

(** The string has no space. *)
Definition spaceless (s : string) : Prop :=
  Forall (fun c => c <> " "%char) (list_ascii_of_string s).

(** The price of a product is a number (not [NaN]). *)
Definition priced (p : Product.t) : Prop := Product.price p <> JS.NaN.

(** [a <= b] on prices: [b] is not below [a]. *)
Definition price_le (a b : Product.t) : Prop :=
  JS.num_lt (Product.price b) (Product.price a) = false.

(** A sample verifier: it accepts the token the sample host signs for the
    sample admin, and one token of a reader signed with the same secret. *)
Module SampleAuth.

Definition admin_token : string := "token:admin@bookstore.com".
Definition reader_token : string := "token:reader@bookstore.com".

#[export] Instance verifier : TokenVerifier := {|
  jwt_verify := fun token =>
    if String.eqb token admin_token then Some (identity_of Sample.admin)
    else if String.eqb token reader_token then Some (identity_of Sample.customer)
    else None
|}.

End SampleAuth.

(** The character is a decimal digit. *)
Definition digit_char (c : ascii) : Prop :=
  exists d : N, (d < 10)%N /\ c = pretty_N_char d.

(** The id parameter addresses no stored product: it is not a number, or
    it is a number that is the id of none (an integer that no product has,
    or an infinity). *)
Definition unknown_id (stored : list Product.t) (idParam : string) : Prop :=
  Str.parseInt idParam = JS.NaN
  \/ (exists n, Str.parseInt idParam = JS.of_Z n /\ ~ In n (ids stored))
  \/ Str.parseInt idParam = JS.PInf \/ Str.parseInt idParam = JS.NInf.

(** Every number of the product is finite. *)
Definition finite_numbers (p : Product.t) : Prop :=
  finite (Product.price p) /\ finite (Product.stock p)
  /\ finite (Product.reviewCount p)
  /\ (forall d, Product.discountPrice p = Some d -> finite d)
  /\ (forall r, Product.rating p = Some r -> finite r).

(** A number or a boolean, where the create handler calls [trim]. *)
Definition not_trimmable (v : JS.value) : Prop :=
  match v with
  | JS.VNum _ | JS.VBool _ => True
  | _ => False
  end.

(** The properties of the body on which the create handler calls [trim]. *)
Definition trimmedFields : list string :=
  ["title"; "author"; "isbn"; "category"; "description"; "imageUrl"; "publisher"]%string.

(** The public query without parameters. *)
Definition no_filter : PublicQuery :=
  {| pq_category := None; pq_search := None; pq_sort := None |}.

Section PublicMatch.
Context `{Host}.

(** The product is active and passes the category and search parameters
    of the public query that are given. *)
Definition publicMatches (q : PublicQuery) (p : Product.t) : bool :=
  Bool.eqb (Product.isActive p) true
  && match param_given (pq_category q) with
     | Some c => String.eqb (toLowerCase (Product.category p)) (toLowerCase c)
     | None => true
     end
  && match param_given (pq_search q) with
     | Some s =>
         Str.includes (toLowerCase (Product.title p)) (toLowerCase s)
         || Str.includes (toLowerCase (Product.author p)) (toLowerCase s)
     | None => true
     end.

End PublicMatch.

(** The sort keys the public query knows. *)
Definition known_sort (sort : string) : Prop :=
  In sort ["price_asc"; "price_desc"; "title_asc"; "title_desc"]%string.

(** The same admin query with another status, or another category. *)
Definition with_status (status : option string) (q : AdminQuery) : AdminQuery :=
  {| aq_category := aq_category q;
     aq_search := aq_search q;
     aq_status := status;
     aq_page := aq_page q;
     aq_limit := aq_limit q;
     aq_sortBy := aq_sortBy q;
     aq_sortOrder := aq_sortOrder q |}.

Definition with_category (category : option string) (q : AdminQuery) : AdminQuery :=
  {| aq_category := category;
     aq_search := aq_search q;
     aq_status := aq_status q;
     aq_page := aq_page q;
     aq_limit := aq_limit q;
     aq_sortBy := aq_sortBy q;
     aq_sortOrder := aq_sortOrder q |}.

(** The page [k] of size [l] of a query, asked for with decimal strings. *)
Definition page_of (k l : Z) (q : AdminQuery) : AdminQuery :=
  with_window (Some (pretty k)) (Some (pretty l)) q.

(** Requests and values on which the further statements are run. *)
Module Scenario.


Definition add_two : CartBody := add_request (Sample.num 2) (JS.of_Z 1).

(** A handler of an admin route: the permanent deletion of product 2. *)
Definition delete_second (stored : list Product.t) : DeleteResponse * list Product.t :=
  delete_product Sample.now stored "2" (Some "true"%string).

Definition second_page : AdminQuery :=
  Sample.window (Some "2"%string) (Some "1"%string).

End Scenario.

(** * Properties *)

(** ** Sorting and filtering *)

Section ArrayFacts.
Context {A : Type}.
Implicit Types (l : list A) (cmp : A -> A -> JS.number).

Lemma insert_sorted_perm cmp x l : Permutation (Arr.insert_sorted cmp x l) (x :: l).
Proof.
  induction l as [|y r IH]; simpl.
  - reflexivity.
  - destruct (Arr.keeps_order (cmp x y)).
    + reflexivity.
    + rewrite IH. apply perm_swap.
Qed.

Lemma sort_perm cmp l : Permutation (Arr.sort cmp l) l.
Proof.
  induction l as [|x r IH]; simpl.
  - reflexivity.
  - unfold Arr.sort in *. rewrite insert_sorted_perm. now rewrite IH.
Qed.

Lemma sort_In cmp l x : In x (Arr.sort cmp l) <-> In x l.
Proof.
  split; apply Permutation_in; [|symmetry]; apply sort_perm.
Qed.

Lemma sort_length cmp l : length (Arr.sort cmp l) = length l.
Proof. apply Permutation_length, sort_perm. Qed.

Lemma filter_length_perm (f : A -> bool) l l' :
  Permutation l l' -> length (List.filter f l) = length (List.filter f l').
Proof.
  induction 1 as [|x l l' _ IH|x y l|l l' l'' _ IH1 _ IH2]; simpl.
  - reflexivity.
  - destruct (f x); simpl; now rewrite IH.
  - destruct (f x), (f y); reflexivity.
  - now rewrite IH1.
Qed.

Lemma filter_length_sort (f : A -> bool) cmp l :
  length (List.filter f (Arr.sort cmp l)) = length (List.filter f l).
Proof. apply filter_length_perm, sort_perm. Qed.

Lemma filter_partition_length (f : A -> bool) l :
  (length (List.filter f l) + length (List.filter (fun x => negb (f x)) l))%nat = length l.
Proof.
  induction l as [|x r IH]; simpl; [reflexivity|].
  destruct (f x); simpl; lia.
Qed.

End ArrayFacts.

(** ** The public catalog *)

Section PublicCatalogFacts.
Context `{Host}.

Lemma publicSort_In sort products p :
  In p (publicSort sort products) <-> In p products.
Proof.
  unfold publicSort.
  repeat match goal with
         | |- context [if ?b then _ else _] => destruct b
         end; try apply sort_In; reflexivity.
Qed.

(** Every product the public query returns comes from the stored
    collection and passed the [isActive === true] filter. *)
Lemma queryPublic_In stored q p :
  In p (pr_products (queryPublic stored q)) ->
  In p stored /\ Product.isActive p = true.
Proof.
  unfold queryPublic; simpl.
  set (active := List.filter _ stored).
  assert (Hactive : forall x, In x active -> In x stored /\ Product.isActive x = true).
  { intros x Hx. apply filter_In in Hx as [Hin Hb]. split; [exact Hin|].
    destruct (Product.isActive x); [reflexivity|discriminate]. }
  intros Hp. apply Hactive. clear Hactive. revert Hp.
  destruct (param_given (pq_sort q)) as [s|];
    [rewrite publicSort_In|];
    (destruct (param_given (pq_search q)) as [k|];
       [intros Hp; apply filter_In in Hp as [Hp _]; revert Hp|]);
    (destruct (param_given (pq_category q)) as [c|];
       [intros Hp; apply filter_In in Hp as [Hp _]; exact Hp|tauto]).
Qed.

(** C1: whatever the stored products and whatever the category, search and
    sort parameters, every product in the list returned by the public
    catalog query has [isActive] equal to [true]; an inactive product is
    never returned. *)
Theorem queryPublic_only_active stored q :
  Forall (fun p => Product.isActive p = true) (pr_products (queryPublic stored q)).
Proof.
  apply List.Forall_forall. intros p Hp. now apply queryPublic_In in Hp.
Qed.

End PublicCatalogFacts.

(** ** Numbers *)

Lemma num_lt_Fin x y : JS.num_lt (JS.Fin x) (JS.Fin y) = true <-> (x < y)%Q.
Proof.
  simpl. rewrite Qlt_alt. destruct (x ?= y)%Q; split; congruence.
Qed.

Lemma num_eq_Fin x y : JS.num_eq (JS.Fin x) (JS.Fin y) = true <-> (x == y)%Q.
Proof. simpl. apply Qeq_bool_iff. Qed.

(** ** The admin catalog: statistics *)

Lemma low_stockb_spec p : low_stockb p = true <-> low_stock p.
Proof.
  unfold low_stockb, low_stock. destruct (Product.stock p) as [| | |s].
  1-3: split; [discriminate|intros (s & Hs & _); discriminate].
  destruct (Qlt_le_dec 0 s) as [H0|H0]; [destruct (Qlt_le_dec s 10) as [H1|H1]|].
  - split; [intros _; exists s; auto|reflexivity].
  - split; [discriminate|]. intros (s' & Hs & _ & Hlt). injection Hs as <-. lra.
  - split; [discriminate|]. intros (s' & Hs & Hlt & _). injection Hs as <-. lra.
Qed.

Lemma out_of_stockb_spec p : out_of_stockb p = true <-> out_of_stock p.
Proof.
  unfold out_of_stockb, out_of_stock. destruct (Product.stock p) as [| | |s].
  1-3: split; [discriminate|intros (s & Hs & _); discriminate].
  destruct (Qeq_dec s 0) as [H0|H0].
  - split; [intros _; exists s; auto|reflexivity].
  - split; [discriminate|]. intros (s' & Hs & Heq). injection Hs as <-. contradiction.
Qed.

Lemma handler_low_stock p :
  JS.num_lt (Product.stock p) (JS.of_Z 10) && JS.num_lt (JS.of_Z 0) (Product.stock p)
  = low_stockb p.
Proof.
  unfold low_stockb, JS.of_Z. destruct (Product.stock p) as [| | |s]; try reflexivity.
  destruct (Qlt_le_dec 0 s) as [H0|H0]; [destruct (Qlt_le_dec s 10) as [H1|H1]|].
  - apply andb_true_intro; split; apply num_lt_Fin; assumption.
  - apply andb_false_intro1, not_true_is_false. rewrite num_lt_Fin.
    change (inject_Z 10) with 10%Q. lra.
  - apply andb_false_intro2, not_true_is_false. rewrite num_lt_Fin.
    change (inject_Z 0) with 0%Q. lra.
Qed.

Lemma handler_out_of_stock p :
  JS.num_eq (Product.stock p) (JS.of_Z 0) = out_of_stockb p.
Proof.
  unfold out_of_stockb, JS.of_Z. destruct (Product.stock p) as [| | |s]; try reflexivity.
  destruct (Qeq_dec s 0) as [H0|H0].
  - apply num_eq_Fin. exact H0.
  - apply not_true_is_false. rewrite num_eq_Fin. exact H0.
Qed.

Section AdminStatisticsFacts.
Context `{Host}.

Lemma count_sorted f stored q : count f (adminSorted stored q) = count f (adminFilter stored q).
Proof. apply filter_length_sort. Qed.

Lemma count_ext f g l : (forall p, f p = g p) -> count f l = count g l.
Proof. intros Hfg. unfold count. f_equal. apply filter_ext. intros p. apply Hfg. Qed.

(** C4: for every stored collection, every admin query and every pagination
    window (page and limit parameters), the statistics of the response are
    those of the whole filtered set: [total] is its size, [active] and
    [inactive] count its active and inactive products and add up to
    [total], [lowStock] counts its products with [0 < stock < 10] and
    [outOfStock] those with [stock] equal to [0]. *)
Theorem queryAdmin_statistics stored q page limit :
  let filtered := adminFilter stored q in
  let stats := ar_statistics (queryAdmin stored (with_window page limit q)) in
  st_total stats = length filtered /\
  st_active stats = count (fun p => Product.isActive p) filtered /\
  st_inactive stats = count (fun p => negb (Product.isActive p)) filtered /\
  (st_active stats + st_inactive stats)%nat = st_total stats /\
  st_lowStock stats = count low_stockb filtered /\
  st_outOfStock stats = count out_of_stockb filtered /\
  (forall p, low_stockb p = true <-> low_stock p) /\
  (forall p, out_of_stockb p = true <-> out_of_stock p).
Proof.
  intros filtered stats.
  assert (Hf : adminFilter stored (with_window page limit q) = filtered) by reflexivity.
  subst stats. unfold queryAdmin. simpl.
  rewrite !count_sorted, Hf. unfold adminSorted. rewrite sort_length, Hf.
  split; [reflexivity|]. split; [reflexivity|]. split; [reflexivity|].
  split; [apply filter_partition_length|].
  split; [apply count_ext, handler_low_stock|].
  split; [apply count_ext, handler_out_of_stock|].
  split; [exact low_stockb_spec|exact out_of_stockb_spec].
Qed.

End AdminStatisticsFacts.

(** ** The admin catalog: pagination *)



Lemma Qis_neg_comp x y : (x == y)%Q -> JS.Qis_neg x = JS.Qis_neg y.
Proof. intros Hxy. unfold JS.Qis_neg. now rewrite Hxy. Qed.

Lemma Qtruncate_Z q z : (q == inject_Z z)%Q -> JS.Qtruncate q = z.
Proof.
  intros Hq. unfold JS.Qtruncate.
  rewrite (Qfloor_comp _ _ Hq), (Qceiling_comp _ _ Hq), Qfloor_Z, Qceiling_Z.
  now destruct (JS.Qis_neg q).
Qed.

(** Up to [2^53] in absolute value an integer is a double. *)
Lemma round_int_safe z : Z.abs z <= 2 ^ 53 -> JS.round_int z = z.
Proof.
  intros Hz. unfold JS.round_int.
  destruct (Z.eq_dec (Z.abs z) (2 ^ 53)) as [Heq|Hne].
  - destruct (Z.abs_eq_or_opp z) as [Hz'|Hz']; rewrite Hz' in Heq.
    + subst z. vm_compute. reflexivity.
    + assert (z = - 2 ^ 53) as -> by lia. vm_compute. reflexivity.
  - assert (Hlt : Z.abs z < 2 ^ 53) by lia.
    destruct (Z.eq_dec (Z.abs z) 0) as [H0|H0].
    + rewrite H0. reflexivity.
    + assert (Hlog : Z.log2 (Z.abs z) < 53) by (apply Z.log2_lt_pow2; lia).
      destruct (Z.leb_spec (Z.log2 (Z.abs z) - 52) 0); [reflexivity|lia].
Qed.

Lemma round_Z_safe z : Z.abs z <= 2 ^ 53 -> JS.round_Z z = JS.of_Z z.
Proof.
  intros Hz. unfold JS.round_Z. rewrite (round_int_safe z Hz).
  assert (Hpow : 2 ^ 53 < 2 ^ 1024) by (apply Z.pow_lt_mono_r; lia).
  destruct (Z.leb_spec (2 ^ 1024) (Z.abs z)); [lia|reflexivity].
Qed.



(** *** [parseInt] reads back the decimal string of an integer *)

Ltac digit_cases d Hd :=
  assert (d = 0 \/ d = 1 \/ d = 2 \/ d = 3 \/ d = 4 \/ d = 5 \/ d = 6 \/ d = 7
          \/ d = 8 \/ d = 9)%N as Hd by lia;
  destruct Hd as [->|[->|[->|[->|[->|[->|[->|[->|[->| ->]]]]]]]]].

Lemma digit_value_pretty (d : N) :
  (d < 10)%N -> Str.digit_value 10 (pretty_N_char d) = Some (Z.of_N d).
Proof. intros Hlt. digit_cases d Hd; reflexivity. Qed.

Lemma digit_not_white_space c : digit_char c -> Str.is_white_space c = false.
Proof. intros (d & Hlt & ->). digit_cases d Hd; reflexivity. Qed.

(** No white space starts with an ASCII character that is not white space. *)
Lemma skip_white_space_ascii c r :
  Str.is_white_space c = false -> Z.of_N (N_of_ascii c) < 128 ->
  Str.skip_white_space (c :: r) = c :: r.
Proof.
  intros Hws Hascii. simpl. rewrite Hws.
  destruct r as [|c2 r2]; [reflexivity|].
  unfold Str.is_white_space2.
  rewrite (proj2 (Z.eqb_neq (Z.of_N (N_of_ascii c)) 194)) by lia. simpl.
  destruct r2 as [|c3 r3]; [reflexivity|].
  unfold Str.is_white_space3.
  rewrite (proj2 (Z.eqb_neq (Z.of_N (N_of_ascii c)) 225)),
    (proj2 (Z.eqb_neq (Z.of_N (N_of_ascii c)) 226)),
    (proj2 (Z.eqb_neq (Z.of_N (N_of_ascii c)) 227)),
    (proj2 (Z.eqb_neq (Z.of_N (N_of_ascii c)) 239)) by lia.
  reflexivity.
Qed.

Lemma digit_skip_white_space c r :
  digit_char c -> Str.skip_white_space (c :: r) = c :: r.
Proof.
  intros Hc. apply skip_white_space_ascii; [now apply digit_not_white_space|].
  destruct Hc as (d & Hlt & ->). digit_cases d Hd; vm_compute; reflexivity.
Qed.

Lemma digit_strip_sign c r : digit_char c -> Str.strip_sign (c :: r) = (1, c :: r).
Proof. intros (d & Hlt & ->). digit_cases d Hd; reflexivity. Qed.

Lemma digits_strip_hex_prefix l :
  Forall digit_char l -> Str.strip_hex_prefix l = (10, l).
Proof.
  intros Hl. destruct Hl as [|c r (d & Hlt & ->) Hr]; [reflexivity|].
  digit_cases d Hd; try reflexivity.
  destruct Hr as [|c' r' (d' & Hlt' & ->) _]; [reflexivity|].
  digit_cases d' Hd'; reflexivity.
Qed.

Lemma read_digits_pretty (x : N) :
  (0 < x)%N ->
  forall s,
  exists ds,
    list_ascii_of_string (pretty_N_go x s) = ds ++ list_ascii_of_string s
    /\ Forall digit_char ds /\ ds <> []
    /\ forall acc rest,
        Str.read_digits 10 acc (ds ++ rest)
        = Str.read_digits 10
            (Some (default 0 acc * 10 ^ Z.of_nat (length ds) + Z.of_N x)) rest.
Proof.
  induction (N.lt_wf_0 x) as [x _ IH]. intros Hx s.
  rewrite pretty_N_go_step by exact Hx.
  set (c := pretty_N_char (x `mod` 10)).
  assert (Hmod : (x `mod` 10 < 10)%N) by (apply N.mod_lt; lia).
  assert (Hc : digit_char c) by (exists (x `mod` 10)%N; now split).
  assert (Hval : Str.digit_value 10 c = Some (Z.of_N (x `mod` 10)))
    by now apply digit_value_pretty.
  assert (Hx10 : Z.of_N x = 10 * Z.of_N (x `div` 10) + Z.of_N (x `mod` 10)).
  { rewrite (N.div_mod x 10) at 1 by lia. lia. }
  destruct (decide (0 < x `div` 10)%N) as [Hq|Hq].
  - destruct (IH (x `div` 10)%N) with (s := String c s) as (ds & Hds & Hdig & Hne & Hread);
      [apply N.div_lt; lia|exact Hq|].
    exists (ds ++ [c]). split; [|split; [|split]].
    + rewrite Hds. simpl. now rewrite <- app_assoc.
    + apply Forall_app. split; [exact Hdig|now constructor].
    + destruct ds; discriminate.
    + intros acc rest. rewrite <- app_assoc. simpl. rewrite Hread. simpl.
      rewrite Hval. simpl. f_equal. f_equal.
      rewrite length_app, Nat2Z.inj_add. simpl length.
      rewrite Z.pow_add_r by lia. change (10 ^ Z.of_nat 1) with 10. lia.
  - assert (Hzero : (x `div` 10 = 0)%N) by lia.
    rewrite Hzero, pretty_N_go_0.
    exists [c]. split; [reflexivity|]. split; [now constructor|]. split; [discriminate|].
    intros acc rest. simpl. rewrite Hval. f_equal. f_equal.
    rewrite Hzero in Hx10. change (10 ^ Z.of_nat 1) with 10. lia.
Qed.

Lemma parseInt_pretty_positive (p : positive) :
  exists ds,
    list_ascii_of_string (pretty p) = ds /\ Forall digit_char ds /\ ds <> []
    /\ Str.read_digits 10 None ds = Some (Z.pos p).
Proof.
  unfold pretty, pretty_positive, pretty, pretty_N.
  destruct (decide (N.pos p = 0%N)) as [|_]; [discriminate|].
  destruct (read_digits_pretty (N.pos p) ltac:(lia) "") as (ds & Hds & Hdig & Hne & Hread).
  exists ds. simpl in Hds. rewrite app_nil_r in Hds.
  split; [exact Hds|]. split; [exact Hdig|]. split; [exact Hne|].
  specialize (Hread None []). rewrite app_nil_r in Hread. rewrite Hread. simpl.
  f_equal.
Qed.

(** [parseInt] of the decimal string of an integer is that integer as a
    number: the integer itself when it is safe. *)
Lemma parseInt_pretty (n : Z) : Str.parseInt (pretty n) = JS.round_Z n.
Proof.
  destruct n as [|p|p].
  - reflexivity.
  - destruct (parseInt_pretty_positive p) as (ds & Hds & Hdig & Hne & Hread).
    unfold Str.parseInt. change (pretty (Z.pos p)) with (pretty p). rewrite Hds.
    destruct ds as [|c r]; [contradiction|].
    assert (Hc : digit_char c) by now apply Forall_cons_1 in Hdig as [Hc _].
    rewrite (digit_skip_white_space c r Hc).
    rewrite (digit_strip_sign c r Hc), (digits_strip_hex_prefix _ Hdig), Hread.
    f_equal; lia.
  - destruct (parseInt_pretty_positive p) as (ds & Hds & Hdig & Hne & Hread).
    unfold Str.parseInt. change (pretty (Z.neg p)) with ("-" +:+ pretty p).
    change (list_ascii_of_string ("-" +:+ pretty p))
      with ("-"%char :: list_ascii_of_string (pretty p)).
    rewrite Hds.
    rewrite (skip_white_space_ascii "-"%char ds) by (vm_compute; reflexivity).
    change (Str.strip_sign ("-"%char :: ds)) with (-1, ds).
    cbv beta iota.
    rewrite (digits_strip_hex_prefix _ Hdig), Hread. f_equal; lia.
Qed.




Lemma parseInt_pretty_safe (n : Z) :
  JS.safe_integer n -> Str.parseInt (pretty n) = JS.of_Z n.
Proof.
  intros Hn. rewrite parseInt_pretty. apply round_Z_safe.
  unfold JS.safe_integer in Hn. lia.
Qed.

Section SliceFacts.
Context {A : Type}.
Implicit Types (l : list A).

Lemma relative_index_nonneg len q i :
  (q == inject_Z i)%Q -> 0 <= i ->
  Arr.relative_index len (JS.Fin q) = Z.min i len.
Proof.
  intros Hq Hi. simpl. rewrite (Qtruncate_Z q i Hq).
  destruct (Z.ltb_spec i 0); [lia|reflexivity].
Qed.

(** On indices inside [0, +oo) [slice] is [take] after [drop]. *)
Lemma slice_window l (qs qe : Q) (s n : Z) :
  (qs == inject_Z s)%Q -> (qe == inject_Z (s + n))%Q -> 0 <= s -> 0 <= n ->
  Arr.slice (JS.Fin qs) (JS.Fin qe) l = take (Z.to_nat n) (drop (Z.to_nat s) l).
Proof.
  intros Hs He Hs0 Hn0. unfold Arr.slice.
  rewrite (relative_index_nonneg _ qs s Hs Hs0).
  rewrite (relative_index_nonneg _ qe (s + n) He) by lia.
  set (len := Z.of_nat (length l)).
  destruct (Z.le_gt_cases len s) as [Hge|Hlt].
  - rewrite !drop_ge by lia. now rewrite !take_nil.
  - rewrite (Z.min_l s len) by lia.
    destruct (Z.le_gt_cases (s + n) len) as [Hin|Hout].
    + rewrite Z.min_l by lia. do 2 f_equal. lia.
    + rewrite Z.min_r by lia.
      rewrite !take_ge; [reflexivity| |]; rewrite length_drop; lia.
Qed.

End SliceFacts.



Section AdminPaginationFacts.
Context `{Host}.


End AdminPaginationFacts.



(** ** Sorting by price *)

Section SortedFacts.
Context {A : Type}.
Variable R : A -> A -> Prop.
Hypothesis R_trans : forall x y z, R x y -> R y z -> R x z.
Hypothesis R_asym : forall x y, R x y -> R y x -> False.
Implicit Types (l : list A) (cmp : A -> A -> JS.number).

Lemma insert_sorted_StronglySorted cmp x l :
  Forall (decides R cmp x) l ->
  StronglySorted R l -> StronglySorted R (Arr.insert_sorted cmp x l).
Proof.
  induction l as [|y r IH]; intros Hx Hl; simpl.
  - constructor; constructor.
  - apply Forall_cons_1 in Hx as [Hxy Hxr].
    apply StronglySorted_inv in Hl as [Hr Hy].
    unfold decides in Hxy. destruct (Arr.keeps_order (cmp x y)).
    + constructor; [constructor; assumption|].
      constructor; [assumption|].
      eapply List.Forall_impl; [|exact Hy]. intros z Hz. now apply R_trans with y.
    + constructor; [now apply IH|].
      apply List.Forall_forall. intros z Hz.
      apply (Permutation_in _ (insert_sorted_perm cmp x r)) in Hz as [<-|Hz];
        [assumption|].
      rewrite List.Forall_forall in Hy. now apply Hy.
Qed.

Lemma sort_StronglySorted cmp l :
  ForallOrdPairs (decides R cmp) l -> StronglySorted R (Arr.sort cmp l).
Proof.
  induction 1 as [|x l Hx _ IH]; simpl.
  - constructor.
  - apply insert_sorted_StronglySorted; [|exact IH].
    apply List.Forall_forall. intros y Hy. apply sort_In in Hy.
    rewrite List.Forall_forall in Hx. now apply Hx.
Qed.

Lemma StronglySorted_snoc l a :
  StronglySorted R l -> Forall (fun x => R x a) l -> StronglySorted R (l ++ [a]).
Proof.
  induction 1 as [|x l Hl IH Hx]; intros Ha; simpl.
  - constructor; constructor.
  - apply Forall_cons_1 in Ha as [Hxa Hla].
    constructor; [now apply IH|].
    apply Forall_app; split; [assumption|]. constructor; [assumption|constructor].
Qed.

(** A list has at most one arrangement that is sorted for a strict order. *)
Lemma StronglySorted_unique l1 l2 :
  StronglySorted R l1 -> StronglySorted R l2 -> Permutation l1 l2 -> l1 = l2.
Proof.
  intros H1. revert l2. induction H1 as [|a t1 Ht1 IH Ha]; intros l2 H2 Hp.
  - apply Permutation_nil in Hp. now subst.
  - destruct H2 as [|b t2 Ht2 Hb].
    + symmetry in Hp. apply Permutation_nil in Hp. discriminate.
    + assert (Hab : a = b).
      { assert (Hin_a : In a (b :: t2)) by (eapply Permutation_in; [exact Hp|now left]).
        assert (Hin_b : In b (a :: t1))
          by (eapply Permutation_in; [symmetry; exact Hp|now left]).
        destruct Hin_a as [Heq|Hin_a]; [now symmetry|].
        destruct Hin_b as [Heq|Hin_b]; [assumption|].
        rewrite List.Forall_forall in Ha, Hb.
        exfalso. apply (R_asym a b); [now apply Ha|now apply Hb]. }
      subst b. f_equal. apply IH; [assumption|].
      now apply Permutation_cons_inv in Hp.
Qed.

End SortedFacts.

Lemma StronglySorted_rev {A : Type} (R : A -> A -> Prop) (l : list A) :
  StronglySorted R l -> StronglySorted (fun x y => R y x) (rev l).
Proof.
  induction 1 as [|x l Hl IH Hx]; simpl.
  - constructor.
  - apply StronglySorted_snoc; [exact IH|].
    apply List.Forall_forall. intros y Hy. apply in_rev in Hy.
    rewrite List.Forall_forall in Hx. now apply Hx.
Qed.

Lemma ForallOrdPairs_filter {A : Type} (R : A -> A -> Prop) (f : A -> bool) (l : list A) :
  ForallOrdPairs R l -> ForallOrdPairs R (List.filter f l).
Proof.
  induction 1 as [|x l Hx _ IH]; simpl.
  - constructor.
  - destruct (f x); [|exact IH].
    constructor; [|exact IH].
    apply List.Forall_forall. intros y Hy. apply filter_In in Hy as [Hy _].
    rewrite List.Forall_forall in Hx. now apply Hx.
Qed.

Lemma ForallOrdPairs_impl {A : Type} (R S : A -> A -> Prop) (l : list A) :
  (forall x y, R x y -> S x y) -> ForallOrdPairs R l -> ForallOrdPairs S l.
Proof.
  intros HRS. induction 1 as [|x l Hx _ IH]; constructor; [|exact IH].
  eapply List.Forall_impl; [|exact Hx]. intros y. apply HRS.
Qed.

(** The sign of a difference: [0 < a - b] exactly when [b < a]. *)
Lemma num_sub_pos a b : JS.num_lt (JS.Fin 0) (JS.num_sub a b) = JS.num_lt b a.
Proof.
  destruct a as [| | |x], b as [| | |y]; try reflexivity.
  unfold JS.num_sub, JS.num_neg, JS.num_add.
  destruct (JS.num_lt (JS.Fin y) (JS.Fin x)) eqn:Hlt.
  - apply num_lt_Fin in Hlt. apply num_lt_Fin. lra.
  - apply not_true_is_false. intros Hpos. apply num_lt_Fin in Hpos.
    apply not_true_iff_false in Hlt. apply Hlt, num_lt_Fin. lra.
Qed.

Lemma num_lt_trans a b c :
  JS.num_lt a b = true -> JS.num_lt b c = true -> JS.num_lt a c = true.
Proof.
  destruct a as [| | |x], b as [| | |y], c as [| | |z];
    try reflexivity; try discriminate.
  rewrite !num_lt_Fin. lra.
Qed.

Lemma num_lt_asym a b : JS.num_lt a b = true -> JS.num_lt b a = true -> False.
Proof.
  destruct a as [| | |x], b as [| | |y]; try discriminate.
  rewrite !num_lt_Fin. lra.
Qed.

Section PriceSortFacts.
Context `{Host}.

Lemma price_asc_sorted (l : list Product.t) :
  distinct_prices l ->
  StronglySorted price_lt
    (Arr.sort (fun a b => JS.num_sub (Product.price a) (Product.price b)) l).
Proof.
  intros Hd. apply sort_StronglySorted.
  - intros x y z. apply num_lt_trans.
  - eapply ForallOrdPairs_impl; [|exact Hd].
    intros x y Hxy. unfold decides, Arr.keeps_order. rewrite num_sub_pos.
    unfold price_lt. destruct (JS.num_lt (Product.price y) (Product.price x)) eqn:Hyx;
      simpl; [reflexivity|].
    destruct Hxy as [Hlt|Hlt]; [exact Hlt|congruence].
Qed.

Lemma price_desc_sorted (l : list Product.t) :
  distinct_prices l ->
  StronglySorted (fun a b => price_lt b a)
    (Arr.sort (fun a b => JS.num_sub (Product.price b) (Product.price a)) l).
Proof.
  intros Hd. apply sort_StronglySorted.
  - intros x y z Hxy Hyz. now apply (num_lt_trans _ _ _ Hyz).
  - eapply ForallOrdPairs_impl; [|exact Hd].
    intros x y Hxy. unfold decides, Arr.keeps_order. rewrite num_sub_pos.
    unfold price_lt. destruct (JS.num_lt (Product.price x) (Product.price y)) eqn:Hlt;
      simpl; [reflexivity|].
    destruct Hxy as [Hxy|Hxy]; [congruence|exact Hxy].
Qed.

Lemma price_sorts_reverse (l : list Product.t) :
  distinct_prices l ->
  Arr.sort (fun a b => JS.num_sub (Product.price a) (Product.price b)) l
  = rev (Arr.sort (fun a b => JS.num_sub (Product.price b) (Product.price a)) l).
Proof.
  intros Hd. apply (StronglySorted_unique price_lt).
  - intros x y. apply num_lt_asym.
  - now apply price_asc_sorted.
  - apply (StronglySorted_rev (fun a b => price_lt b a)). now apply price_desc_sorted.
  - rewrite sort_perm, <- Permutation_rev, sort_perm. reflexivity.
Qed.

(** C9: when the prices of the stored products are pairwise distinct, the
    list the public query returns for the sort key [price_asc] is exactly
    the reverse of the list it returns for [price_desc], whatever the
    category and search parameters. *)
Theorem queryPublic_price_asc_rev_desc stored q :
  distinct_prices stored ->
  pr_products (queryPublic stored (with_sort "price_asc" q))
  = rev (pr_products (queryPublic stored (with_sort "price_desc" q))).
Proof.
  intros Hd. unfold queryPublic; simpl.
  change (param_given (Some "price_asc"%string)) with (Some "price_asc"%string).
  change (param_given (Some "price_desc"%string)) with (Some "price_desc"%string).
  cbv beta iota.
  match goal with
  | |- publicSort _ ?l = _ => set (filtered := l)
  end.
  change (publicSort "price_asc" filtered)
    with (Arr.sort (fun a b => JS.num_sub (Product.price a) (Product.price b)) filtered).
  change (publicSort "price_desc" filtered)
    with (Arr.sort (fun a b => JS.num_sub (Product.price b) (Product.price a)) filtered).
  apply price_sorts_reverse.
  subst filtered. unfold distinct_prices.
  destruct (param_given (pq_search q)), (param_given (pq_category q));
    repeat apply ForallOrdPairs_filter; exact Hd.
Qed.

End PriceSortFacts.

(** ** Admin login *)

Lemma NoDup_map_inj {A B : Type} (f : A -> B) (l : list A) (a b : A) :
  List.NoDup (map f l) -> In a l -> In b l -> f a = f b -> a = b.
Proof.
  induction l as [|x l IH]; simpl; [tauto|].
  intros Hnd Ha Hb Hab. apply List.NoDup_cons_iff in Hnd as [Hx Hnd].
  destruct Ha as [<-|Ha], Hb as [<-|Hb].
  - reflexivity.
  - exfalso. apply Hx. rewrite Hab. now apply in_map.
  - exfalso. apply Hx. rewrite <- Hab. now apply in_map.
  - now apply IH.
Qed.

Lemma nonempty_truthy s : s <> ""%string -> JS.truthy (JS.VStr s) = true.
Proof.
  intros Hs. simpl. apply negb_true_iff. now apply String.eqb_neq.
Qed.

Section LoginFacts.
Context `{Host}.

Lemma admin_lookup_Some users email u :
  admin_lookup users email = Some u -> In u users /\ is_admin_with_email email u.
Proof.
  intros Hf. apply find_some in Hf as [Hin Hb].
  apply andb_true_iff in Hb as [He Hr].
  apply String.eqb_eq in He, Hr. now repeat split.
Qed.

Lemma admin_lookup_None users email :
  admin_lookup users email = None <->
  forall u, In u users -> ~ is_admin_with_email email u.
Proof.
  split.
  - intros Hf u Hin [He Hr].
    pose proof (find_none _ _ Hf u Hin) as Hb. simpl in Hb.
    apply String.eqb_eq in He, Hr. rewrite He, Hr in Hb. discriminate.
  - intros Hall. destruct (admin_lookup users email) as [u|] eqn:Hf; [|reflexivity].
    apply admin_lookup_Some in Hf as [Hin Hu]. exfalso. now apply (Hall u).
Qed.

Lemma login_given users email password :
  email <> ""%string -> password <> ""%string ->
  login users {| lb_email := Some email; lb_password := Some password |}
  = match admin_lookup users email with
    | None => LoginNotAdmin
    | Some user =>
        if negb (bcrypt_compare password (User.password user))
        then LoginWrongPassword
        else LoginOk
               (jwt_sign (User.id user) (User.email user) (User.role user) (User.name user))
               user
    end.
Proof.
  intros He Hp. unfold login. cbn [lb_email lb_password param_value].
  rewrite (nonempty_truthy _ He), (nonempty_truthy _ Hp). reflexivity.
Qed.

(** C2, as amended: for a non-empty email and a non-empty password, login
    issues a token exactly when the first user with that email and the role
    admin has a stored hash that the password matches; when emails are
    unique in the collection this is: exactly when some user has that
    email, the role admin and a matching hash.  A user with that email and
    another role is not found: the response is the one for an email no user
    has.  An empty or missing email or password is rejected before any
    lookup. *)
Theorem login_token_iff users email password :
  email <> ""%string -> password <> ""%string ->
  let r := login users {| lb_email := Some email; lb_password := Some password |} in
  (issues_token r <->
   exists u, admin_lookup users email = Some u
             /\ bcrypt_compare password (User.password u) = true) /\
  (unique_emails users ->
   (issues_token r <->
    exists u, In u users /\ is_admin_with_email email u
              /\ bcrypt_compare password (User.password u) = true)) /\
  ((forall u, In u users -> User.email u = email -> User.role u <> "admin"%string) ->
   r = LoginNotAdmin) /\
  (forall users' body,
      JS.truthy (param_value (lb_email body)) = false
      \/ JS.truthy (param_value (lb_password body)) = false ->
      login users' body = LoginMissingCredentials).
Proof.
  intros He Hp r.
  assert (Hr : r = _) by apply (login_given users email password He Hp).
  assert (Hfirst : issues_token r <->
                   exists u, admin_lookup users email = Some u
                             /\ bcrypt_compare password (User.password u) = true).
  { rewrite Hr. destruct (admin_lookup users email) as [u|] eqn:Hf.
    - destruct (bcrypt_compare password (User.password u)) eqn:Hc; simpl.
      + split; [intros _; now exists u|trivial].
      + split; [contradiction|]. intros (u' & [= <-] & Hc'). congruence.
    - simpl. split; [contradiction|]. intros (u' & Hu' & _). discriminate. }
  split; [exact Hfirst|]. split; [|split].
  - intros Huniq. rewrite Hfirst. split.
    + intros (u & Hf & Hc). apply admin_lookup_Some in Hf as [Hin Hu]. now exists u.
    + intros (u & Hin & Hu & Hc).
      destruct (admin_lookup users email) as [u'|] eqn:Hf.
      * exists u'. split; [reflexivity|].
        apply admin_lookup_Some in Hf as [Hin' [He' _]].
        assert (u' = u) as ->; [|exact Hc].
        apply (NoDup_map_inj User.email users); try assumption.
        destruct Hu as [Heu _]. congruence.
      * exfalso. rewrite admin_lookup_None in Hf. now apply (Hf u).
  - intros Hnone. rewrite Hr.
    assert (Hf : admin_lookup users email = None).
    { apply admin_lookup_None. intros u Hin [Heu Hru]. now apply (Hnone u). }
    now rewrite Hf.
  - intros users' body Hmiss. unfold login.
    destruct Hmiss as [-> | ->]; simpl; [reflexivity|].
    now rewrite orb_true_r.
Qed.

End LoginFacts.

(** ** The cart *)

Section FindIndexFacts.
Context {A : Type}.
Implicit Types (P : A -> bool) (l : list A).

Lemma findIndex_None P l : Arr.findIndex P l = None <-> List.filter P l = [].
Proof.
  induction l as [|x r IH]; simpl; [tauto|].
  destruct (P x); [split; discriminate|].
  rewrite <- IH. destruct (Arr.findIndex P r); simpl; split; congruence.
Qed.

Lemma findIndex_Some P l i :
  Arr.findIndex P l = Some i ->
  exists x, l !! i = Some x /\ P x = true
            /\ forall j y, (j < i)%nat -> l !! j = Some y -> P y = false.
Proof.
  revert i. induction l as [|x r IH]; simpl; intros i Hi; [discriminate|].
  destruct (P x) eqn:HPx.
  - injection Hi as <-. exists x. repeat split; [assumption|]. intros j y Hj. lia.
  - destruct (Arr.findIndex P r) as [k|]; [|discriminate].
    injection Hi as <-. destruct (IH k eq_refl) as (y & Hy & HPy & Hbefore).
    exists y. repeat split; [assumption..|].
    intros [|j] z Hj Hz; simpl in Hz; [congruence|].
    apply (Hbefore j); [lia|assumption].
Qed.

Lemma findIndex_alter P (f : A -> A) l i :
  (forall x, P (f x) = P x) ->
  Arr.findIndex P (alter f i l) = Arr.findIndex P l.
Proof.
  intros Hf. revert i. induction l as [|x r IH]; intros [|i]; simpl; try reflexivity.
  - now rewrite Hf.
  - specialize (IH i). unfold alter in IH. now rewrite IH.
Qed.


End FindIndexFacts.


Lemma readCart_items now stored : Cart.items (readCart now stored) = stored_items stored.
Proof. now destruct stored. Qed.


Lemma addItem_success now products stored productId quantity product :
  JS.truthy productId = true ->
  findActiveProduct products productId = Some product ->
  JS.num_lt (Product.stock product) quantity = false ->
  let items := mergeItem now product productId quantity (stored_items stored) in
  let cart := {| Cart.items := items;
                 Cart.total := cartTotal items;
                 Cart.totalItems := cartTotalItems items;
                 Cart.lastUpdated := now |} in
  addItem now products stored (add_request productId quantity) = (CartOk cart, Some cart).
Proof.
  intros Ht Hf Hs. unfold addItem, add_request. simpl.
  now rewrite Ht, Hf, Hs, readCart_items.
Qed.



Lemma findActiveProduct_None products productId :
  findActiveProduct products productId = None <->
  forall p, In p products ->
            JS.strict_eq (JS.VNum (JS.of_Z (Product.id p))) productId = true ->
            Product.isActive p = false.
Proof.
  unfold findActiveProduct, Arr.find. split.
  - intros Hf p Hin Hid. pose proof (find_none _ _ Hf p Hin) as Hb. cbv beta in Hb.
    rewrite Hid in Hb. now destruct (Product.isActive p).
  - intros Hall. destruct (List.find _ products) as [p|] eqn:Hf; [|reflexivity].
    apply find_some in Hf as [Hin Hb]. apply andb_true_iff in Hb as [Hid Hact].
    rewrite (Hall p Hin Hid) in Hact. discriminate.
Qed.

Lemma findActiveProduct_Some products productId product :
  findActiveProduct products productId = Some product ->
  In product products
  /\ JS.strict_eq (JS.VNum (JS.of_Z (Product.id product))) productId = true
  /\ Product.isActive product = true.
Proof.
  intros Hf. apply find_some in Hf as [Hin Hb].
  apply andb_true_iff in Hb as [Hid Hact].
  repeat split; try assumption. now destruct (Product.isActive product).
Qed.

(** C6, as amended: adding to the cart fails with the validation error
    when the productId is absent or falsy (the number [0], the empty
    string, [null], [false]); for a truthy productId, with
    not-found when no stored product has that id and is active, which
    includes a product that exists but is inactive; and once a product is
    found, with the stock error when its stock is less than the requested
    quantity.  The requested quantity alone is compared: whether the
    request fails does not depend on the stored cart, and a request within
    the stock succeeds whatever the cart holds.  A failed request leaves
    the stored cart as it was. *)
Theorem addItem_failures now products stored body :
  let productId := cb_productId body in
  let quantity := default (JS.of_Z 1) (cb_quantity body) in
  let outcome := addItem now products stored body in
  (productId = JS.VUndefined -> outcome = (CartMissingProduct, stored)) /\
  (JS.truthy productId = false -> outcome = (CartMissingProduct, stored)) /\
  (JS.truthy productId = true ->
   (forall p, In p products ->
              JS.strict_eq (JS.VNum (JS.of_Z (Product.id p))) productId = true ->
              Product.isActive p = false) ->
   outcome = (CartProductNotFound, stored)) /\
  (forall product,
      JS.truthy productId = true ->
      findActiveProduct products productId = Some product ->
      JS.num_lt (Product.stock product) quantity = true ->
      outcome = (CartInsufficientStock, stored)) /\
  (forall product,
      JS.truthy productId = true ->
      findActiveProduct products productId = Some product ->
      JS.num_lt (Product.stock product) quantity = false ->
      exists cart, outcome = (CartOk cart, Some cart)) /\
  (forall now' stored',
      cart_failure (fst (addItem now' products stored' body))
      <-> cart_failure (fst outcome)) /\
  (cart_failure (fst outcome) -> snd outcome = stored).
Proof.
  intros productId quantity outcome. subst outcome. unfold addItem.
  fold productId. fold quantity.
  split; [intros ->; reflexivity|].
  split; [intros ->; reflexivity|].
  split; [intros -> Hnone; apply findActiveProduct_None in Hnone; now rewrite Hnone|].
  split; [intros product -> -> ->; reflexivity|].
  split; [intros product -> -> ->; simpl; eauto|].
  split.
  - intros now' stored'. unfold addItem. fold productId. fold quantity.
    destruct (negb (JS.truthy productId)); [reflexivity|].
    destruct (findActiveProduct products productId) as [product|]; [|reflexivity].
    destruct (JS.num_lt (Product.stock product) quantity); reflexivity.
  - destruct (negb (JS.truthy productId)); [reflexivity|].
    destruct (findActiveProduct products productId) as [product|]; [|reflexivity].
    destruct (JS.num_lt (Product.stock product) quantity); [reflexivity|].
    simpl. contradiction.
Qed.

(** *** Product ids given as strings *)

Lemma pretty_N_go_length x s :
  (String.length s <= String.length (pretty_N_go x s))%nat.
Proof.
  revert s. induction (N.lt_wf_0 x) as [x _ IH]; intros s.
  destruct (decide (0 < x)%N) as [Hx|Hx].
  - rewrite pretty_N_go_step by exact Hx.
    etransitivity; [|apply IH; now apply N.div_lt]. simpl. lia.
  - assert (x = 0%N) as -> by lia. now rewrite pretty_N_go_0.
Qed.

Lemma pretty_positive_nonempty (p : positive) : pretty p <> ""%string.
Proof.
  unfold pretty, pretty_positive, pretty, pretty_N.
  destruct (decide (N.pos p = 0%N)) as [|_]; [discriminate|].
  rewrite pretty_N_go_step by lia. intros Hempty.
  pose proof (pretty_N_go_length (N.pos p `div` 10)
                (String (pretty_N_char (N.pos p `mod` 10)) "")) as Hlen.
  rewrite Hempty in Hlen. simpl in Hlen. lia.
Qed.

(** The decimal string of an integer is not empty. *)
Lemma pretty_Z_nonempty (n : Z) : pretty n <> ""%string.
Proof.
  destruct n as [|p|p]; unfold pretty, pretty_Z.
  - discriminate.
  - apply pretty_positive_nonempty.
  - discriminate.
Qed.

Lemma addItem_string_not_found now products stored s quantity :
  s <> ""%string ->
  addItem now products stored {| cb_productId := JS.VStr s; cb_quantity := quantity |}
  = (CartProductNotFound, stored).
Proof.
  intros Hs. unfold addItem. cbn [cb_productId].
  rewrite (nonempty_truthy s Hs). simpl.
  assert (Hf : findActiveProduct products (JS.VStr s) = None).
  { apply findActiveProduct_None. intros p _ Hid. discriminate. }
  now rewrite Hf.
Qed.

(** C10: product ids are compared with [===], without numeric coercion.
    Where the request with the number [n] finds an active product with
    enough stock and adds it, the request whose productId is the decimal
    string of [n] fails with not-found and leaves the cart as it was.  The
    merge lookup uses the same comparison: the index it returns is that of
    a line whose productId is strictly equal to the requested one, and a
    productId given as a string matches no line whose productId is a
    number. *)
Theorem addItem_strict_productId now products stored (n : Z) quantity product :
  JS.truthy (JS.VNum (JS.of_Z n)) = true ->
  findActiveProduct products (JS.VNum (JS.of_Z n)) = Some product ->
  JS.num_lt (Product.stock product) quantity = false ->
  (exists cart,
      addItem now products stored (add_request (JS.VNum (JS.of_Z n)) quantity)
      = (CartOk cart, Some cart)) /\
  addItem now products stored (add_request (JS.VStr (pretty n)) quantity)
  = (CartProductNotFound, stored) /\
  (forall s q, s <> ""%string ->
      addItem now products stored {| cb_productId := JS.VStr s; cb_quantity := q |}
      = (CartProductNotFound, stored)) /\
  (forall items productId i,
      existingItemIndex items productId = Some i ->
      exists item, items !! i = Some item
                   /\ JS.strict_eq (CartItem.productId item) productId = true) /\
  (forall items s,
      (forall item, In item items -> exists m, CartItem.productId item = JS.VNum m) ->
      existingItemIndex items (JS.VStr s) = None).
Proof.
  intros Ht Hf Hs. split; [|split; [|split; [|split]]].
  - pose proof (addItem_success now products stored _ quantity product Ht Hf Hs) as Hok.
    cbv zeta in Hok. eauto.
  - apply addItem_string_not_found, pretty_Z_nonempty.
  - intros s q. apply addItem_string_not_found.
  - intros items productId i Hi. apply findIndex_Some in Hi as (item & Hitem & Heq & _).
    now exists item.
  - intros items s Hnum. apply findIndex_None.
    induction items as [|item items IH]; simpl; [reflexivity|].
    destruct (Hnum item (or_introl eq_refl)) as [m ->]. simpl.
    apply IH. intros item' Hin. apply Hnum. now right.
Qed.

(** ** Creating a product *)

Section CreateFacts.
Context `{Host}.

Lemma js_lt_Fin x y :
  js_lt (JS.VNum (JS.Fin x)) (JS.VNum (JS.Fin y)) = true <-> (x < y)%Q.
Proof. apply num_lt_Fin. Qed.

Lemma missing_nonempty body :
  (exists f, In f requiredFields /\ absent body f) <->
  (0 <? length (List.filter (fun f => negb (JS.truthy (field body f))) requiredFields))%nat
  = true.
Proof.
  rewrite Nat.ltb_lt. split.
  - intros (f & Hin & Habs).
    assert (Hf : In f (List.filter (fun f => negb (JS.truthy (field body f)))
                         requiredFields)).
    { apply filter_In. split; [exact Hin|]. unfold absent in Habs. now rewrite Habs. }
    destruct (List.filter _ requiredFields); [contradiction|simpl; lia].
  - intros Hlen.
    destruct (List.filter _ requiredFields) as [|f r] eqn:Hf; [simpl in Hlen; lia|].
    assert (Hin : In f (f :: r)) by now left.
    rewrite <- Hf in Hin. apply filter_In in Hin as [Hin Hb].
    exists f. split; [exact Hin|]. unfold absent. now apply negb_true_iff.
Qed.

Lemma missing_empty body :
  Forall (fun f => JS.truthy (field body f) = true) requiredFields ->
  (0 <? length (List.filter (fun f => negb (JS.truthy (field body f))) requiredFields))%nat
  = false.
Proof.
  intros Hall. apply not_true_is_false. intros Hne.
  apply missing_nonempty in Hne as (f & Hin & Habs).
  rewrite List.Forall_forall in Hall. unfold absent in Habs.
  rewrite (Hall f Hin) in Habs. discriminate.
Qed.

(** C5: creating a product fails with MissingFields when one of title,
    author, price, stock is missing or falsy, and the list it reports is
    exactly the required fields that are absent, in the order title,
    author, price, stock.  When none is absent it fails with NegativeValue
    if [price < 0] or [stock < 0], and otherwise with InvalidDiscount if a
    discountPrice is given and [discountPrice > price]; the comparisons are
    JavaScript's, which on numbers are the usual ones.  No failure appends
    a product: the stored collection is unchanged. *)
Theorem create_validation user now1 now2 stored body :
  let price := field body "price" in
  let stock := field body "stock" in
  let discountPrice := field body "discountPrice" in
  let zero := JS.VNum (JS.of_Z 0) in
  let outcome := create user now1 now2 stored body in
  ((exists f, In f requiredFields /\ absent body f) ->
   exists missing,
     outcome = (CreateMissingFields missing, stored)
     /\ (forall f, In f missing <-> In f requiredFields /\ absent body f)
     /\ sublist missing requiredFields) /\
  (Forall (fun f => JS.truthy (field body f) = true) requiredFields ->
   js_lt price zero = true \/ js_lt stock zero = true ->
   exists what, outcome = (CreateNegativeValue what, stored)) /\
  (Forall (fun f => JS.truthy (field body f) = true) requiredFields ->
   js_lt price zero = false -> js_lt stock zero = false ->
   JS.truthy discountPrice = true -> js_gt discountPrice price = true ->
   outcome = (CreateInvalidDiscount, stored)) /\
  (forall x, price = JS.VNum (JS.Fin x) -> js_lt price zero = true <-> (x < 0)%Q) /\
  (forall x, stock = JS.VNum (JS.Fin x) -> js_lt stock zero = true <-> (x < 0)%Q) /\
  (forall d x, discountPrice = JS.VNum (JS.Fin d) -> price = JS.VNum (JS.Fin x) ->
               js_gt discountPrice price = true <-> (x < d)%Q) /\
  (create_failure (fst outcome) -> snd outcome = stored).
Proof.
  intros price stock discountPrice zero outcome.
  split; [|split; [|split; [|split; [|split; [|split]]]]].
  - intros Habs. exists (List.filter (fun f => negb (JS.truthy (field body f))) requiredFields).
    split; [|split].
    + subst outcome. unfold create. apply missing_nonempty in Habs. now rewrite Habs.
    + intros f. rewrite filter_In. unfold absent. now rewrite negb_true_iff.
    + clear. induction requiredFields as [|f r IH]; simpl; [constructor|].
      destruct (negb _); now constructor.
  - intros Hall Hneg. subst outcome. unfold create.
    rewrite (missing_empty body Hall). fold price. fold stock. fold zero.
    destruct (js_lt price zero); [eauto|].
    destruct Hneg as [Hneg|Hneg]; [discriminate|]. rewrite Hneg. eauto.
  - intros Hall Hp Hs Ht Hgt. subst outcome. unfold create.
    rewrite (missing_empty body Hall). fold price. fold stock. fold zero.
    fold discountPrice. now rewrite Hp, Hs, Ht, Hgt.
  - intros x ->. apply js_lt_Fin.
  - intros x ->. apply js_lt_Fin.
  - intros d x -> ->. apply js_lt_Fin.
  - subst outcome. unfold create.
    repeat match goal with
           | |- context [if ?b then _ else _] => destruct b; [reflexivity|]
           end.
    destruct (newProduct user now1 now2 stored body); [simpl; contradiction|reflexivity].
Qed.

End CreateFacts.

(** ** Product identifiers *)

Section IdFacts.
Context {A B : Type}.
Implicit Types (l : list A) (g : A -> B) (f : A -> A).

Lemma map_alter_preserved g f l i :
  (forall x, g (f x) = g x) -> map g (alter f i l) = map g l.
Proof.
  intros Hf. revert i. induction l as [|x r IH]; intros [|i]; simpl; try reflexivity.
  - now rewrite Hf.
  - specialize (IH i). unfold alter in IH. now rewrite IH.
Qed.

Lemma map_delete g l (i : nat) : map g (delete i l) = delete i (map g l).
Proof.
  revert i. induction l as [|x r IH]; intros [|i]; simpl; try reflexivity.
  f_equal. apply IH.
Qed.

Lemma In_delete l (i : nat) x : In x (delete i l) -> In x l.
Proof.
  revert i. induction l as [|y r IH]; intros [|i]; simpl; try tauto.
  intros [->|Hin]; [now left|]. right. now apply (IH i).
Qed.

Lemma NoDup_delete l (i : nat) : List.NoDup l -> List.NoDup (delete i l).
Proof.
  intros Hnd. revert i. induction Hnd as [|x r Hx Hnd IH]; intros [|i]; simpl.
  - constructor.
  - constructor.
  - exact Hnd.
  - constructor; [|apply IH]. intros Hin. apply Hx. now apply In_delete in Hin.
Qed.

Lemma StronglySorted_delete (R : A -> A -> Prop) l (i : nat) :
  StronglySorted R l -> StronglySorted R (delete i l).
Proof.
  intros Hs. revert i. induction Hs as [|x r Hr IH Hx]; intros [|i]; simpl.
  - constructor.
  - constructor.
  - exact Hr.
  - constructor; [apply IH|].
    apply List.Forall_forall. intros y Hy. apply In_delete in Hy.
    rewrite List.Forall_forall in Hx. now apply Hx.
Qed.

End IdFacts.

Lemma increasing_below_last (l : list Z) (m : Z) :
  StronglySorted Z.lt l -> last l = Some m -> Forall (fun x => x < m + 1) l.
Proof.
  induction 1 as [|x r Hr IH Hx]; intros Hlast; [constructor|].
  destruct r as [|y r'].
  - injection Hlast as <-. constructor; [lia|constructor].
  - change (last (x :: y :: r')) with (last (y :: r')) in Hlast.
    constructor; [|now apply IH].
    assert (Hm : In m (y :: r')).
    { apply list_elem_of_In, last_Some_elem_of, Hlast. }
    rewrite List.Forall_forall in Hx. specialize (Hx m Hm). lia.
Qed.

Lemma increasing_NoDup (l : list Z) : StronglySorted Z.lt l -> List.NoDup l.
Proof.
  induction 1 as [|x r Hr IH Hx]; constructor; [|exact IH].
  intros Hin. rewrite List.Forall_forall in Hx. specialize (Hx x Hin). lia.
Qed.

Lemma mergePatch_id now p updates :
  patch_id updates = None -> Product.id (mergePatch now p updates) = Product.id p.
Proof. intros Hid. simpl. now rewrite Hid. Qed.

Lemma update_ids now stored idParam updates :
  patch_id updates = None ->
  ids (snd (update now stored idParam updates)) = ids stored.
Proof.
  intros Hid. unfold update.
  destruct (findProductIndex stored idParam) as [i|]; [|reflexivity].
  destruct (alter _ i stored !! i) eqn:Hi; [|reflexivity].
  simpl. apply map_alter_preserved. intros p. now apply mergePatch_id.
Qed.

Lemma delete_product_ids now stored idParam permanent :
  ids (snd (delete_product now stored idParam permanent)) = ids stored
  \/ exists i, ids (snd (delete_product now stored idParam permanent))
               = delete i (ids stored).
Proof.
  unfold delete_product.
  destruct (findProductIndex stored idParam) as [i|]; [|now left].
  destruct (JS.truthy (param_value permanent)); simpl.
  - right. exists i. apply map_delete.
  - left. now apply map_alter_preserved.
Qed.

Section CreateIdFacts.
Context `{Host}.

Lemma newProduct_id user now1 now2 stored body product :
  newProduct user now1 now2 stored body = Some product -> Product.id product = newId stored.
Proof.
  unfold newProduct. intros Hnew.
  repeat match type of Hnew with
         | (match ?o with _ => _ end) = Some _ => destruct o; simpl in Hnew; [|discriminate]
         | mbind _ ?o = Some _ => destruct o; simpl in Hnew; [|discriminate]
         end.
  now injection Hnew as <-.
Qed.

Lemma create_ids user now1 now2 stored body :
  ids (snd (create user now1 now2 stored body)) = ids stored
  \/ ids (snd (create user now1 now2 stored body)) = ids stored ++ [newId stored].
Proof.
  unfold create.
  repeat match goal with
         | |- context [if ?b then _ else _] => destruct b; [now left|]
         end.
  destruct (newProduct user now1 now2 stored body) as [product|] eqn:Hnew; [|now left].
  right. simpl. unfold ids. rewrite map_app. simpl.
  now rewrite (newProduct_id _ _ _ _ _ _ Hnew).
Qed.

(** With a safe last id the new id is the last id plus one. *)
Lemma newId_safe stored :
  safe_last_id stored ->
  newId stored = match last stored with
                 | Some lastProduct => Product.id lastProduct + 1
                 | None => 1
                 end.
Proof.
  intros Hsafe. unfold newId, safe_last_id in *.
  destruct (last stored) as [lastProduct|]; [|reflexivity].
  apply round_int_safe. specialize (Hsafe lastProduct eq_refl).
  unfold JS.safe_integer in Hsafe. lia.
Qed.

Lemma newId_increasing stored :
  increasing_ids stored -> safe_last_id stored ->
  StronglySorted Z.lt (ids stored ++ [newId stored]).
Proof.
  intros Hinc Hsafe. apply StronglySorted_snoc; [exact Hinc|].
  rewrite (newId_safe stored Hsafe).
  destruct (last stored) as [lastProduct|] eqn:Hlast.
  - apply increasing_below_last; [exact Hinc|].
    unfold ids. change (map Product.id stored) with (Product.id <$> stored).
    now rewrite fmap_last, Hlast.
  - apply last_None in Hlast. subst stored. constructor.
Qed.

(** C7, as amended: the product collection is written by the create,
    update and delete handlers only.  An update whose patch carries no [id]
    leaves the id of every stored product as it was; a delete leaves all
    ids as they were or, when permanent, removes one product and leaves the
    ids of the others; a create leaves the ids of the stored products and
    appends at most one id, which is the id of the last product plus one (1
    in an empty collection) when that id is a safe integer.  Unique ids
    stay unique under such updates and under deletes, and ids that increase
    along the collection stay increasing, hence unique, under deletes, such
    updates, and creates after a safe last id. *)
Theorem product_ids_preserved user now now' stored :
  (forall idParam updates,
      patch_id updates = None ->
      ids (snd (update now stored idParam updates)) = ids stored) /\
  (forall idParam permanent,
      ids (snd (delete_product now stored idParam permanent)) = ids stored
      \/ exists i, ids (snd (delete_product now stored idParam permanent))
                   = delete i (ids stored)) /\
  (forall body,
      ids (snd (create user now now' stored body)) = ids stored
      \/ exists n, ids (snd (create user now now' stored body)) = ids stored ++ [n]) /\
  (safe_last_id stored ->
   forall body,
     ids (snd (create user now now' stored body)) = ids stored
     \/ ids (snd (create user now now' stored body))
        = ids stored ++ [match last stored with
                         | Some lastProduct => Product.id lastProduct + 1
                         | None => 1
                         end]) /\
  (unique_ids stored ->
   (forall idParam updates,
       patch_id updates = None -> unique_ids (snd (update now stored idParam updates))) /\
   (forall idParam permanent,
       unique_ids (snd (delete_product now stored idParam permanent)))) /\
  (increasing_ids stored ->
   (forall idParam updates,
       patch_id updates = None ->
       increasing_ids (snd (update now stored idParam updates))) /\
   (forall idParam permanent,
       increasing_ids (snd (delete_product now stored idParam permanent))) /\
   (safe_last_id stored ->
    forall body,
      increasing_ids (snd (create user now now' stored body))
      /\ unique_ids (snd (create user now now' stored body)))).
Proof.
  split; [intros; now apply update_ids|].
  split; [intros; apply delete_product_ids|].
  split.
  { intros body. destruct (create_ids user now now' stored body) as [Hsame|Hnew];
      [now left|right; eauto]. }
  split.
  { intros Hsafe body. rewrite <- (newId_safe stored Hsafe). apply create_ids. }
  split.
  - intros Huniq. split.
    + intros idParam updates Hid. unfold unique_ids. now rewrite update_ids.
    + intros idParam permanent. unfold unique_ids.
      destruct (delete_product_ids now stored idParam permanent) as [-> | [i ->]];
        [exact Huniq|now apply NoDup_delete].
  - intros Hinc. split; [|split].
    + intros idParam updates Hid. unfold increasing_ids. now rewrite update_ids.
    + intros idParam permanent. unfold increasing_ids.
      destruct (delete_product_ids now stored idParam permanent) as [-> | [i ->]];
        [exact Hinc|now apply StronglySorted_delete].
    + intros Hsafe body.
      assert (Hcreate : increasing_ids (snd (create user now now' stored body))).
      { unfold increasing_ids.
        destruct (create_ids user now now' stored body) as [-> | ->];
          [exact Hinc|now apply newId_increasing]. }
      split; [exact Hcreate|]. now apply increasing_NoDup.
Qed.

End CreateIdFacts.

(** ** The statements on the sample data *)

Example create_only_title :
  @create Sample.host Sample.admin_identity Sample.now Sample.later Sample.stored Sample.only_title
  = (CreateMissingFields ["author"; "price"; "stock"]%string, Sample.stored).
Proof. vm_compute. reflexivity. Qed.

Example create_new_book :
  ids (snd (@create Sample.host Sample.admin_identity Sample.now Sample.later Sample.stored (Sample.new_book 30 10)))
  = [1; 2; 3; 4].
Proof. vm_compute. reflexivity. Qed.

(** The price sorts of the sample products are each other's reverse. *)
Lemma queryPublic_price_asc_rev_desc_witness :
  distinct_prices Sample.stored /\
  pr_products (@queryPublic Sample.host Sample.stored
                 (with_sort "price_asc" Sample.any_query))
  = rev (pr_products (@queryPublic Sample.host Sample.stored
                        (with_sort "price_desc" Sample.any_query))).
Proof.
  assert (Hd : distinct_prices Sample.stored).
  { unfold distinct_prices, Sample.stored.
    repeat (constructor; [repeat (constructor; [left; reflexivity|]); constructor|]).
    constructor. }
  split; [exact Hd|].
  apply (@queryPublic_price_asc_rev_desc Sample.host Sample.stored Sample.any_query Hd).
Defined.

(** The admin logs in with the right password; the reader, who is no admin,
    is not found. *)
Lemma login_token_iff_witness :
  issues_token (@login Sample.host [Sample.customer; Sample.admin]
                  (Sample.credentials "admin@bookstore.com" "passAdm")) /\
  @login Sample.host [Sample.customer; Sample.admin]
    (Sample.credentials "reader@bookstore.com" "secret") = LoginNotAdmin.
Proof.
  split.
  - destruct (@login_token_iff Sample.host [Sample.customer; Sample.admin]
                "admin@bookstore.com" "passAdm") as (Hiff & _).
    + discriminate.
    + discriminate.
    + apply Hiff. exists Sample.admin. split; reflexivity.
  - destruct (@login_token_iff Sample.host [Sample.customer; Sample.admin]
                "reader@bookstore.com" "secret") as (_ & _ & Hnone & _).
    + discriminate.
    + discriminate.
    + apply Hnone. intros u [<-|[<-|[]]] Hemail; simpl in *; discriminate.
Defined.

(** C2, as stated, fails for an empty password: an admin whose stored hash
    matches the empty password exists, and no token is issued; the request
    is rejected for its missing password. *)
Lemma login_empty_password_counterexample :
  let users := [Sample.admin_without_password] in
  let r := @login Sample.host users (Sample.credentials "root@bookstore.com" "") in
  (exists u, In u users
             /\ is_admin_with_email "root@bookstore.com" u
             /\ @bcrypt_compare Sample.host "" (User.password u) = true) /\
  r = LoginMissingCredentials /\
  ~ issues_token r.
Proof.
  intros users r. split; [|split].
  - exists Sample.admin_without_password. repeat split. now left.
  - reflexivity.
  - intros Htoken. exact Htoken.
Qed.



(** The failures of the cart handler on the sample shelf: no productId, an
    unknown id, more than the stock; and a request within the stock that
    succeeds although the cart already holds the whole stock. *)
Lemma addItem_failures_witness :
  addItem Sample.now Sample.shelf (Some (Sample.cart_with 10))
    {| cb_productId := JS.VUndefined; cb_quantity := None |}
  = (CartMissingProduct, Some (Sample.cart_with 10)) /\
  addItem Sample.now Sample.shelf (Some (Sample.cart_with 10))
    (add_request (Sample.num 99999) (JS.of_Z 1))
  = (CartProductNotFound, Some (Sample.cart_with 10)) /\
  addItem Sample.now Sample.shelf (Some (Sample.cart_with 10))
    (add_request (Sample.num 2) (JS.of_Z 11))
  = (CartInsufficientStock, Some (Sample.cart_with 10)) /\
  exists cart,
    addItem Sample.now Sample.shelf (Some (Sample.cart_with 10))
      (add_request (Sample.num 2) (JS.of_Z 1))
    = (CartOk cart, Some cart).
Proof.
  split; [|split; [|split]].
  - destruct (addItem_failures Sample.now Sample.shelf (Some (Sample.cart_with 10))
                {| cb_productId := JS.VUndefined; cb_quantity := None |})
      as (Hmissing & _).
    apply Hmissing. reflexivity.
  - destruct (addItem_failures Sample.now Sample.shelf (Some (Sample.cart_with 10))
                (add_request (Sample.num 99999) (JS.of_Z 1)))
      as (_ & _ & Hnone & _).
    apply Hnone; [reflexivity|].
    intros p [<-|[]] Hid. vm_compute in Hid. discriminate.
  - destruct (addItem_failures Sample.now Sample.shelf (Some (Sample.cart_with 10))
                (add_request (Sample.num 2) (JS.of_Z 11)))
      as (_ & _ & _ & Hstock & _).
    apply (Hstock (Sample.book 2 "B" 20 10 true)); reflexivity.
  - destruct (addItem_failures Sample.now Sample.shelf (Some (Sample.cart_with 10))
                (add_request (Sample.num 2) (JS.of_Z 1)))
      as (_ & _ & _ & _ & Hok & _).
    apply (Hok (Sample.book 2 "B" 20 10 true)); reflexivity.
Defined.

(** C6, as stated, fails for a productId that is given and falsy: with
    the productId [0], which is the id of no product, the request is not
    answered with not-found but with the validation error. *)
Lemma addItem_falsy_productId_counterexample :
  let body := add_request (Sample.num 0) (JS.of_Z 1) in
  let outcome := addItem Sample.now Sample.shelf None body in
  cb_productId body <> JS.VUndefined /\
  (forall p, In p Sample.shelf ->
             JS.strict_eq (JS.VNum (JS.of_Z (Product.id p))) (cb_productId body) = false) /\
  outcome = (CartMissingProduct, None) /\
  fst outcome <> CartProductNotFound.
Proof.
  intros body outcome. split; [discriminate|]. split; [|split].
  - intros p [<-|[]]. reflexivity.
  - reflexivity.
  - discriminate.
Qed.

(** Product 2 is found by the number 2 and not by the string "2". *)
Lemma addItem_strict_productId_witness :
  (exists cart,
      addItem Sample.now Sample.shelf None (add_request (Sample.num 2) (JS.of_Z 1))
      = (CartOk cart, Some cart)) /\
  addItem Sample.now Sample.shelf None (add_request (JS.VStr "2") (JS.of_Z 1))
  = (CartProductNotFound, None).
Proof.
  destruct (addItem_strict_productId Sample.now Sample.shelf None 2 (JS.of_Z 1)
              (Sample.book 2 "B" 20 10 true))
    as (Hok & Hstring & _).
  - reflexivity.
  - reflexivity.
  - reflexivity.
  - split; [exact Hok|exact Hstring].
Defined.

(** The three validation failures on sample bodies: only a title; a price
    of -5; a discountPrice of 30 for a price of 20. *)
Lemma create_validation_witness :
  @create Sample.host Sample.admin_identity Sample.now Sample.later Sample.stored Sample.only_title
  = (CreateMissingFields ["author"; "price"; "stock"]%string, Sample.stored) /\
  (exists what,
      @create Sample.host Sample.admin_identity Sample.now Sample.later Sample.stored (Sample.new_book (-5) 3)
      = (CreateNegativeValue what, Sample.stored)) /\
  @create Sample.host Sample.admin_identity Sample.now Sample.later Sample.stored (Sample.discounted_book 20 3 30)
  = (CreateInvalidDiscount, Sample.stored).
Proof.
  split; [|split].
  - destruct (@create_validation Sample.host Sample.admin_identity Sample.now Sample.later Sample.stored Sample.only_title)
      as (Hmissing & _).
    destruct Hmissing as (missing & Hcreate & _ & _).
    + exists "author"%string. split; [simpl; tauto|reflexivity].
    + rewrite Hcreate. vm_compute in Hcreate. injection Hcreate as <-. reflexivity.
  - destruct (@create_validation Sample.host Sample.admin_identity Sample.now Sample.later Sample.stored
                (Sample.new_book (-5) 3)) as (_ & Hnegative & _).
    apply Hnegative.
    + repeat constructor.
    + left. reflexivity.
  - destruct (@create_validation Sample.host Sample.admin_identity Sample.now Sample.later Sample.stored
                (Sample.discounted_book 20 3 30)) as (_ & _ & Hdiscount & _).
    apply Hdiscount; try reflexivity. repeat constructor.
Defined.

(** A patch of the title leaves the ids of the sample products; so do the
    deletion of product 2 and the creation of a fourth product. *)
Lemma product_ids_preserved_witness :
  ids (snd (update Sample.now Sample.stored "2" (Sample.title_patch "Updated Title")))
  = [1; 2; 3] /\
  unique_ids (snd (delete_product Sample.now Sample.stored "2" (Some "true"%string))) /\
  unique_ids (snd (@create Sample.host Sample.admin_identity Sample.now Sample.later
                     Sample.stored (Sample.new_book 30 10))).
Proof.
  assert (Hinc : increasing_ids Sample.stored).
  { unfold increasing_ids. simpl.
    repeat (constructor; [|repeat (constructor; [lia|]); constructor]).
    constructor. }
  assert (Hsafe : safe_last_id Sample.stored).
  { intros lastProduct [= <-]. unfold JS.safe_integer. simpl. lia. }
  destruct (@product_ids_preserved Sample.host Sample.admin_identity Sample.now
              Sample.later Sample.stored)
    as (Hupdate & _ & _ & _ & Hunique & Hincreasing).
  split; [|split].
  - apply (Hupdate "2"%string (Sample.title_patch "Updated Title")). reflexivity.
  - apply Hunique. now apply increasing_NoDup.
  - apply (Hincreasing Hinc). exact Hsafe.
Defined.

(** C7, as stated, fails for a patch that carries an id: updating product 1
    with the patch [{id: 2}] changes its id, and two stored products then
    share the id 2. *)
Lemma update_patch_id_counterexample :
  let stored' := snd (update Sample.now Sample.stored "1" (Sample.id_patch 2)) in
  unique_ids Sample.stored /\
  ids Sample.stored = [1; 2; 3] /\
  ids stored' = [2; 2; 3] /\
  ~ unique_ids stored'.
Proof.
  intros stored'.
  assert (Hids : ids stored' = [2; 2; 3]) by reflexivity.
  split; [|split; [reflexivity|split; [exact Hids|]]].
  - unfold unique_ids. simpl.
    repeat (constructor; [simpl; intuition lia|]). constructor.
  - unfold unique_ids. rewrite Hids. intros Hnd.
    apply List.NoDup_cons_iff in Hnd as [Hin _]. apply Hin. now left.
Qed.

(** Beyond the safe integers the ids are no longer handed out in
    sequence: after a product with the id [2^53] the create handler gives
    the same id again, and the decimal string of [2^53 + 1] reads the
    product with the id [2^53]. *)
Example create_after_last_safe_integer :
  let stored := [Sample.book 1 "A" 10 5 true; Sample.book (2 ^ 53) "B" 20 5 true] in
  increasing_ids stored /\
  ids (snd (@create Sample.host Sample.admin_identity Sample.now Sample.later stored
              (Sample.new_book 30 10)))
  = [1; 2 ^ 53; 2 ^ 53] /\
  getById stored "9007199254740993" = GetOk (Sample.book (2 ^ 53) "B" 20 5 true).
Proof.
  intros stored. split; [|split].
  - unfold increasing_ids. simpl.
    repeat (constructor; [|repeat (constructor; [lia|]); constructor]).
    constructor.
  - vm_compute. reflexivity.
  - vm_compute. reflexivity.
Qed.

(** ** The primitives on examples *)

Example parseInt_decimal : Str.parseInt "2" = JS.of_Z 2.
Proof. reflexivity. Qed.

Example parseInt_prefix : Str.parseInt "  12px" = JS.of_Z 12.
Proof. reflexivity. Qed.

Example parseInt_hexadecimal : Str.parseInt "-0x1F" = JS.of_Z (-31).
Proof. reflexivity. Qed.

Example parseInt_not_a_number : Str.parseInt "abc" = JS.NaN /\ Str.parseInt "" = JS.NaN.
Proof. split; reflexivity. Qed.

Example parseInt_rounds : Str.parseInt "9007199254740993" = JS.of_Z 9007199254740992.
Proof. vm_compute. reflexivity. Qed.

Example parseInt_overflows :
  Str.parseInt (string_of_list_ascii (repeat "9"%char 310)) = JS.PInf.
Proof. vm_compute. reflexivity. Qed.

(** A no-break space (U+00A0, the bytes 194 and 160) before the digits. *)
Example parseInt_skips_no_break_space :
  Str.parseInt (String (ascii_of_nat 194) (String (ascii_of_nat 160) "12")) = JS.of_Z 12.
Proof. vm_compute. reflexivity. Qed.

Example slice_from_the_end :
  Arr.slice (JS.of_Z (-2)) (JS.of_Z 5) [1; 2; 3] = [2; 3].
Proof. reflexivity. Qed.

Example slice_NaN : Arr.slice JS.NaN JS.NaN [1; 2; 3] = [].
Proof. reflexivity. Qed.

Example sort_descending :
  Arr.sort (fun a b => JS.num_sub (JS.of_Z b) (JS.of_Z a)) [1; 3; 2] = [3; 2; 1].
Proof. reflexivity. Qed.

Example sort_is_stable :
  Arr.sort (fun a b => JS.num_sub (JS.of_Z (fst a)) (JS.of_Z (fst b)))
    [(2, "a"); (1, "b"); (2, "c"); (1, "d")]%string
  = [(1, "b"); (1, "d"); (2, "a"); (2, "c")]%string.
Proof. reflexivity. Qed.

Example public_query_hides_inactive :
  map Product.id
    (pr_products (@queryPublic Sample.host Sample.stored
                    (with_sort "price_desc" Sample.any_query)))
  = [2; 1].
Proof. reflexivity. Qed.

Example admin_statistics :
  ar_statistics (@queryAdmin Sample.host Sample.stored (Sample.window None None))
  = {| st_total := 3; st_active := 2; st_inactive := 1;
       st_lowStock := 1; st_outOfStock := 1 |}.
Proof. reflexivity. Qed.

(** * Further properties of the handlers *)

(** ** Strict equality *)

Lemma num_eq_sym a b : JS.num_eq a b = JS.num_eq b a.
Proof.
  destruct a as [| | |x], b as [| | |y]; try reflexivity. simpl.
  destruct (Qeq_bool x y) eqn:Hxy.
  - symmetry. apply Qeq_bool_iff. symmetry. now apply Qeq_bool_iff.
  - symmetry. apply not_true_is_false. intros Hyx. apply Qeq_bool_iff in Hyx.
    apply not_true_iff_false in Hxy. apply Hxy, Qeq_bool_iff. now symmetry.
Qed.

Lemma num_eq_trans a b c :
  JS.num_eq a b = true -> JS.num_eq b c = true -> JS.num_eq a c = true.
Proof.
  destruct a as [| | |x], b as [| | |y], c as [| | |z]; try discriminate; try reflexivity.
  simpl. rewrite !Qeq_bool_iff. intros Hxy Hyz. now rewrite Hxy.
Qed.

Lemma strict_eq_sym a b : JS.strict_eq a b = JS.strict_eq b a.
Proof.
  destruct a as [| |x|x|x], b as [| |y|y|y]; try reflexivity; simpl.
  - now destruct x, y.
  - apply num_eq_sym.
  - apply String.eqb_sym.
Qed.

Lemma strict_eq_trans a b c :
  JS.strict_eq a b = true -> JS.strict_eq b c = true -> JS.strict_eq a c = true.
Proof.
  destruct a as [| |x|x|x], b as [| |y|y|y], c as [| |z|z|z];
    try discriminate; try reflexivity; simpl.
  - destruct x, y, z; try discriminate; reflexivity.
  - apply num_eq_trans.
  - rewrite !String.eqb_eq. congruence.
Qed.

Lemma num_eq_of_Z a b : JS.num_eq (JS.of_Z a) (JS.of_Z b) = true <-> a = b.
Proof.
  unfold JS.of_Z. rewrite num_eq_Fin. split.
  - intros Heq. now apply inject_Z_injective.
  - intros ->. reflexivity.
Qed.

(** ** The cart: removing, clearing, and what every stored cart satisfies *)

Section ListFilterFacts.
Context {A : Type}.
Implicit Types (P : A -> bool) (l : list A).

Lemma filter_none_keeps_all P l :
  List.filter P l = [] -> List.filter (fun x => negb (P x)) l = l.
Proof.
  induction l as [|x r IH]; simpl; [reflexivity|].
  destruct (P x); [discriminate|]. intros Hr. simpl. f_equal. now apply IH.
Qed.

Lemma filter_filter_negb P l :
  List.filter P (List.filter (fun x => negb (P x)) l) = [].
Proof.
  induction l as [|x r IH]; simpl; [reflexivity|].
  destruct (P x) eqn:HP; simpl; [exact IH|]. now rewrite HP.
Qed.

Lemma filter_sublist P l : sublist (List.filter P l) l.
Proof.
  induction l as [|x r IH]; simpl; [constructor|].
  destruct (P x); now constructor.
Qed.

Lemma filter_comm P (Q : A -> bool) l :
  List.filter P (List.filter Q l) = List.filter Q (List.filter P l).
Proof.
  induction l as [|x r IH]; simpl; [reflexivity|].
  destruct (P x) eqn:HP, (Q x) eqn:HQ; simpl; rewrite ?HP, ?HQ, IH; reflexivity.
Qed.

Lemma filter_length_le P l : (length (List.filter P l) <= length l)%nat.
Proof.
  induction l as [|x r IH]; simpl; [lia|]. destruct (P x); simpl; lia.
Qed.

End ListFilterFacts.

Lemma lines_for_other_kept n productId items :
  JS.strict_eq productId n = false ->
  lines_for productId
    (List.filter (fun item => negb (JS.strict_eq (CartItem.productId item) n)) items)
  = lines_for productId items.
Proof.
  intros Hne. unfold lines_for. induction items as [|item r IH]; simpl; [reflexivity|].
  destruct (JS.strict_eq (CartItem.productId item) n) eqn:Hn; simpl.
  - destruct (JS.strict_eq (CartItem.productId item) productId) eqn:Hp; [|exact IH].
    exfalso. rewrite strict_eq_sym in Hp.
    rewrite (strict_eq_trans _ _ _ Hp Hn) in Hne. discriminate.
  - rewrite IH. reflexivity.
Qed.

Lemma lines_for_related a b items :
  JS.strict_eq a b = true -> lines_for b items = [] -> lines_for a items = [].
Proof.
  intros Hab. unfold lines_for. induction items as [|item r IH]; simpl; [reflexivity|].
  destruct (JS.strict_eq (CartItem.productId item) b) eqn:Hb; [discriminate|].
  intros Hr. destruct (JS.strict_eq (CartItem.productId item) a) eqn:Ha; [|now apply IH].
  rewrite (strict_eq_trans _ _ _ Ha Hab) in Hb. discriminate.
Qed.

Section RemoveItemFacts.
Context `{Host}.

(** X1: removing a product from the cart deletes every line whose
    productId is strictly equal to the number the path parameter stands
    for, whatever its quantity, and nothing else: the other lines are kept,
    in their order, the lines of every other product id are as before, and
    the totals are recomputed from the lines that remain.  The cart of the
    response is the cart stored. *)
Theorem removeItem_effect now stored productId :
  let n := JS.VNum (StringToNumber productId) in
  let cart := fst (removeItem now stored productId) in
  snd (removeItem now stored productId) = Some cart /\
  lines_for n (Cart.items cart) = [] /\
  (forall item,
      In item (Cart.items cart) <->
      In item (stored_items stored) /\ JS.strict_eq (CartItem.productId item) n = false) /\
  sublist (Cart.items cart) (stored_items stored) /\
  (forall other,
      JS.strict_eq other n = false ->
      lines_for other (Cart.items cart) = lines_for other (stored_items stored)) /\
  totals_consistent cart.
Proof.
  intros n cart. subst cart. unfold removeItem. cbn [fst snd Cart.items].
  rewrite readCart_items. fold n.
  split; [reflexivity|]. split; [apply filter_filter_negb|].
  split; [|split; [apply filter_sublist|split]].
  - intros item. rewrite filter_In, negb_true_iff. reflexivity.
  - intros other Hother. now apply lines_for_other_kept.
  - split; reflexivity.
Qed.

(** X2: removing is a no-op on the lines when the cart holds no line for
    that number, in particular when the path parameter is not a number
    ([NaN] is strictly equal to nothing); and removing the same product a
    second time changes nothing more. *)
Theorem removeItem_absent_idempotent now now' stored productId :
  let n := JS.VNum (StringToNumber productId) in
  let once := removeItem now stored productId in
  (lines_for n (stored_items stored) = [] ->
   Cart.items (fst once) = stored_items stored) /\
  (StringToNumber productId = JS.NaN ->
   Cart.items (fst once) = stored_items stored) /\
  Cart.items (fst (removeItem now' (snd once) productId)) = Cart.items (fst once) /\
  Cart.total (fst (removeItem now' (snd once) productId)) = Cart.total (fst once) /\
  Cart.totalItems (fst (removeItem now' (snd once) productId))
  = Cart.totalItems (fst once).
Proof.
  intros n once. subst once. unfold removeItem. cbn [fst snd Cart.items Cart.total
    Cart.totalItems readCart]. rewrite readCart_items. fold n.
  assert (Habsent : lines_for n (stored_items stored) = [] ->
                    List.filter
                      (fun item => negb (JS.strict_eq (CartItem.productId item) n))
                      (stored_items stored) = stored_items stored).
  { intros Hnone. now apply filter_none_keeps_all. }
  assert (Htwice :
            List.filter (fun item => negb (JS.strict_eq (CartItem.productId item) n))
              (List.filter (fun item => negb (JS.strict_eq (CartItem.productId item) n))
                 (stored_items stored))
            = List.filter (fun item => negb (JS.strict_eq (CartItem.productId item) n))
                (stored_items stored)).
  { apply filter_none_keeps_all, filter_filter_negb. }
  split; [exact Habsent|]. split; [|rewrite Htwice; auto].
  intros HNaN. apply Habsent. subst n. rewrite HNaN. unfold lines_for.
  clear. induction (stored_items stored) as [|item r IH]; simpl; [reflexivity|].
  destruct (CartItem.productId item) as [| |b|[| | |x]|s]; simpl; exact IH.
Qed.

(** X3: adding a product to a cart that holds no line for it and then
    removing it, with a path parameter that stands for the same id, gives
    back the lines the cart had. *)
Theorem addItem_removeItem_round_trip now1 now2 products stored productId quantity
    product idParam :
  JS.truthy productId = true ->
  findActiveProduct products productId = Some product ->
  JS.num_lt (Product.stock product) quantity = false ->
  lines_for productId (stored_items stored) = [] ->
  JS.strict_eq (JS.VNum (StringToNumber idParam)) productId = true ->
  let added := addItem now1 products stored (add_request productId quantity) in
  Cart.items (fst (removeItem now2 (snd added) idParam)) = stored_items stored.
Proof.
  intros Ht Hf Hs Hnone Hid added. subst added.
  rewrite (addItem_success now1 products stored productId quantity product Ht Hf Hs).
  unfold removeItem. cbn [fst snd Cart.items readCart].
  unfold mergeItem, existingItemIndex.
  assert (Hidx : Arr.findIndex
                   (fun item => JS.strict_eq (CartItem.productId item) productId)
                   (stored_items stored) = None) by now apply findIndex_None.
  rewrite Hidx, List.filter_app. simpl.
  rewrite (strict_eq_sym productId), Hid. simpl. rewrite app_nil_r.
  apply filter_none_keeps_all.
  exact (lines_for_related _ _ _ Hid Hnone).
Qed.

End RemoveItemFacts.

Section AlterFacts.
Context {A : Type}.
Implicit Types (P : A -> bool) (f : A -> A) (l : list A).

Lemma filter_length_alter P f l i :
  (forall x, P (f x) = P x) ->
  length (List.filter P (alter f i l)) = length (List.filter P l).
Proof.
  intros Hf. revert i. induction l as [|x r IH]; intros [|i]; simpl; try reflexivity.
  - rewrite Hf. now destruct (P x).
  - specialize (IH i). unfold alter in IH. destruct (P x); simpl; now rewrite IH.
Qed.

Lemma Forall_alter (Q : A -> Prop) f l i :
  (forall x, Q x -> Q (f x)) -> Forall Q l -> Forall Q (alter f i l).
Proof.
  intros Hf Hl. revert i. induction Hl as [|x r Hx Hr IH]; intros [|i]; simpl.
  - constructor.
  - constructor.
  - constructor; [now apply Hf|exact Hr].
  - constructor; [exact Hx|apply IH].
Qed.

Lemma alter_as_insert f l i x :
  l !! i = Some x -> alter f i l = <[i := f x]> l.
Proof.
  revert i. induction l as [|y r IH]; intros [|i]; simpl; try discriminate.
  - now intros [= ->].
  - intros Hi. f_equal. now apply IH.
Qed.

End AlterFacts.

Lemma filter_nil_iff {A : Type} (P : A -> bool) (l : list A) :
  List.filter P l = [] <-> forall x, In x l -> P x = false.
Proof.
  induction l as [|x r IH]; simpl.
  - split; [intros _ y []|reflexivity].
  - destruct (P x) eqn:HP.
    + split; [discriminate|]. intros Hall. rewrite (Hall x) in HP; [discriminate|now left].
    + rewrite IH. split.
      * intros Hr y [<-|Hy]; [exact HP|now apply Hr].
      * intros Hall y Hy. apply Hall. now right.
Qed.

Lemma mergeItem_one_line now product productId quantity items :
  one_line_per_product items ->
  one_line_per_product (mergeItem now product productId quantity items).
Proof.
  intros Hone other. unfold mergeItem, existingItemIndex.
  destruct (Arr.findIndex _ items) as [i|] eqn:Hi.
  - unfold lines_for. rewrite filter_length_alter; [apply Hone|reflexivity].
  - apply findIndex_None in Hi. unfold lines_for. rewrite List.filter_app. simpl.
    destruct (JS.strict_eq productId other) eqn:Hother.
    + assert (Hnone : lines_for other items = []).
      { apply (lines_for_related other productId); [|exact Hi].
        now rewrite strict_eq_sym. }
      unfold lines_for in Hnone. rewrite Hnone. simpl. lia.
    + rewrite app_nil_r. apply Hone.
Qed.

Lemma mergeItem_numeric now product productId quantity items :
  numeric_line
    {| CartItem.productId := productId; CartItem.quantity := quantity;
       CartItem.title := Product.title product; CartItem.author := Product.author product;
       CartItem.price := snapshotPrice product;
       CartItem.imageUrl := Product.imageUrl product; CartItem.addedAt := now |} ->
  Forall numeric_line items ->
  Forall numeric_line (mergeItem now product productId quantity items).
Proof.
  intros Hnew Hitems. unfold mergeItem.
  destruct (existingItemIndex items productId) as [i|].
  - apply Forall_alter; [|exact Hitems]. intros item Hitem. exact Hitem.
  - apply Forall_app. split; [exact Hitems|]. now constructor.
Qed.

Section ReachableCartFacts.
Context `{Host}.

(** X4: every cart the handlers can have stored, starting without a cart
    and through any sequence of add, remove and clear requests (against
    any product collections), has totals that agree with its lines, at
    most one line per product id, and only lines whose productId is a
    number that was the id of a stored product. *)
Theorem reachableCart_invariant stored cart :
  reachableCart stored -> stored = Some cart ->
  totals_consistent cart /\
  one_line_per_product (Cart.items cart) /\
  Forall numeric_line (Cart.items cart).
Proof.
  intros Hreach. revert cart.
  induction Hreach as [|now products stored request Hreach IH]; intros cart Hcart;
    [discriminate|].
  assert (Hitems : one_line_per_product (stored_items stored)
                   /\ Forall numeric_line (stored_items stored)).
  { destruct stored as [c|]; simpl.
    - destruct (IH c eq_refl) as (_ & Hone & Hnum). now split.
    - split; [intros pid; simpl; lia|constructor]. }
  destruct Hitems as [Hone Hnum].
  destruct request as [body|productId|]; simpl in Hcart.
  - unfold addItem in Hcart.
    destruct (negb (JS.truthy (cb_productId body))); [now apply IH|].
    destruct (findActiveProduct products (cb_productId body)) as [product|] eqn:Hf;
      [|now apply IH].
    destruct (JS.num_lt _ _); [now apply IH|].
    cbn [snd] in Hcart. injection Hcart as <-.
    cbn [Cart.items]. rewrite readCart_items.
    split; [split; reflexivity|]. split.
    + now apply mergeItem_one_line.
    + apply mergeItem_numeric; [|exact Hnum].
      apply findActiveProduct_Some in Hf as (_ & Hid & _).
      exists (Product.id product). exact Hid.
  - unfold removeItem in Hcart. simpl in Hcart. injection Hcart as <-.
    cbn [Cart.items]. rewrite readCart_items.
    split; [split; reflexivity|]. split.
    + intros pid. unfold lines_for. rewrite filter_comm.
      etransitivity; [apply filter_length_le|apply Hone].
    + apply List.Forall_forall. intros item Hitem. apply filter_In in Hitem as [Hitem _].
      rewrite List.Forall_forall in Hnum. now apply Hnum.
  - unfold clearCart in Hcart. injection Hcart as <-. simpl.
    split; [split; reflexivity|]. split; [intros pid; simpl; lia|constructor].
Qed.

End ReachableCartFacts.

(** X5: a successful add changes one line and nothing else.  Either the
    cart had a line for the product: its quantity grows by the requested
    quantity while its price, title, author and image stay the snapshot
    taken when the line was created, whatever the product says now, and
    every other line is as it was; or it had none and one line is appended,
    with the requested quantity and the discount price of the product when
    it has one that is not zero, its list price otherwise. *)
Theorem addItem_touches_one_line now products stored productId quantity product cart :
  addItem now products stored (add_request productId quantity) = (CartOk cart, Some cart) ->
  findActiveProduct products productId = Some product ->
  (exists i line,
      stored_items stored !! i = Some line
      /\ JS.strict_eq (CartItem.productId line) productId = true
      /\ Cart.items cart = <[i := addQuantity quantity line]> (stored_items stored)
      /\ CartItem.price (addQuantity quantity line) = CartItem.price line
      /\ CartItem.title (addQuantity quantity line) = CartItem.title line
      /\ CartItem.quantity (addQuantity quantity line)
         = JS.num_add (CartItem.quantity line) quantity)
  \/
  (lines_for productId (stored_items stored) = []
   /\ exists line,
       Cart.items cart = stored_items stored ++ [line]
       /\ CartItem.productId line = productId
       /\ CartItem.quantity line = quantity
       /\ CartItem.title line = Product.title product
       /\ CartItem.price line
          = match Product.discountPrice product with
            | Some d => if JS.truthy (JS.VNum d) then d else Product.price product
            | None => Product.price product
            end).
Proof.
  intros Hadd Hf. unfold addItem, add_request in Hadd. simpl in Hadd.
  destruct (negb (JS.truthy productId)); [discriminate|].
  rewrite Hf in Hadd. destruct (JS.num_lt _ _); [discriminate|].
  injection Hadd as <-. cbn [Cart.items]. rewrite readCart_items.
  unfold mergeItem, existingItemIndex.
  destruct (Arr.findIndex _ (stored_items stored)) as [i|] eqn:Hi.
  - left. apply findIndex_Some in Hi as (line & Hline & Heq & _).
    exists i, line. repeat split; try assumption. now apply alter_as_insert.
  - right. apply findIndex_None in Hi. split; [exact Hi|].
    eexists. repeat split.
Qed.

(** ** The authentication middleware *)

Lemma list_ascii_of_string_app (a b : string) :
  list_ascii_of_string (a ++ b) = list_ascii_of_string a ++ list_ascii_of_string b.
Proof. induction a as [|c a IH]; simpl; [reflexivity|]. now rewrite IH. Qed.

Lemma split_chars_spaceless sep current l :
  Forall (fun c => c <> sep) l ->
  Split.split_chars sep current l = [string_of_list_ascii (rev current ++ l)].
Proof.
  intros Hl. revert current. induction Hl as [|c r Hc Hr IH]; intros current; simpl.
  - now rewrite app_nil_r.
  - apply Ascii.eqb_neq in Hc. rewrite Hc, IH. simpl. now rewrite <- app_assoc.
Qed.

Lemma split_chars_first sep current a b :
  Forall (fun c => c <> sep) a ->
  Split.split_chars sep current (a ++ sep :: b)
  = string_of_list_ascii (rev current ++ a) :: Split.split_chars sep [] b.
Proof.
  intros Ha. revert current. induction Ha as [|c r Hc Hr IH]; intros current; simpl.
  - rewrite Ascii.eqb_refl. now rewrite app_nil_r.
  - apply Ascii.eqb_neq in Hc. rewrite Hc, IH. simpl. now rewrite <- app_assoc.
Qed.

Lemma headerToken_second_word scheme token :
  spaceless scheme -> spaceless token ->
  headerToken (Some (scheme ++ " " ++ token)%string) = JS.VStr token.
Proof.
  intros Hs Ht. unfold headerToken.
  assert (Htruthy : JS.truthy (JS.VStr (scheme ++ " " ++ token)) = true).
  { apply nonempty_truthy. destruct scheme; discriminate. }
  rewrite Htruthy. unfold Split.split.
  rewrite list_ascii_of_string_app.
  change (list_ascii_of_string (" " ++ token))
    with (" "%char :: list_ascii_of_string token).
  rewrite (split_chars_first " " [] _ _ Hs).
  rewrite (split_chars_spaceless " " [] _ Ht).
  cbn [lookup list_lookup rev app]. now rewrite string_of_list_ascii_of_string.
Qed.

Lemma headerToken_one_word h :
  spaceless h -> JS.truthy (headerToken (Some h)) = false.
Proof.
  intros Hh. unfold headerToken.
  destruct (JS.truthy (JS.VStr h)) eqn:Ht; [|exact Ht].
  unfold Split.split. now rewrite (split_chars_spaceless " " [] _ Hh).
Qed.

Section AuthFacts.
Context `{TokenVerifier}.

(** X7: the token is the second word of the Authorization header.  A
    request without the header, or whose header has no space, is answered
    with 401; for a header made of a first word, a space and a token, the
    first word is not looked at (it need not be "Bearer"): an empty token
    is answered with 401, a token that does not verify with 403, and a
    token that verifies passes with its payload as the identity. *)
Theorem authenticateToken_cases :
  authenticateToken None = inl TokenRequired /\
  (forall h, spaceless h -> authenticateToken (Some h) = inl TokenRequired) /\
  (forall scheme token,
      spaceless scheme -> spaceless token ->
      authenticateToken (Some (scheme ++ " " ++ token)%string)
      = if String.eqb token "" then inl TokenRequired
        else match jwt_verify token with
             | None => inl TokenInvalid
             | Some user => inr user
             end).
Proof.
  split; [reflexivity|]. split.
  - intros h Hh. unfold authenticateToken.
    pose proof (headerToken_one_word h Hh) as Hfalsy.
    destruct (headerToken (Some h)) as [| | | |token]; try reflexivity.
    now rewrite Hfalsy.
  - intros scheme token Hs Ht. unfold authenticateToken.
    rewrite (headerToken_second_word scheme token Hs Ht). simpl.
    now destruct (String.eqb token "").
Qed.

Lemma authenticateToken_inr authHeader user :
  authenticateToken authHeader = inr user ->
  exists token,
    headerToken authHeader = JS.VStr token /\ token <> ""%string
    /\ jwt_verify token = Some user.
Proof.
  unfold authenticateToken.
  destruct (headerToken authHeader) as [| | | |token]; try discriminate.
  destruct (negb (JS.truthy (JS.VStr token))) eqn:Ht; [discriminate|].
  destruct (jwt_verify token) as [u|] eqn:Hv; [|discriminate].
  intros [= <-]. exists token. repeat split; try assumption.
  intros ->. discriminate.
Qed.

(** X8: an admin route runs its handler, and so can change what is stored,
    only for a request whose header carries a token that verifies to an
    identity with the role admin; such a request gets the handler's
    response and effect.  Every other request is answered with an
    authentication error and leaves what is stored as it was: 403 with
    "Admin access required" exactly when the token verifies to another
    role. *)
Theorem adminRoute_guard {State Response : Type} authHeader
    (handler : State -> Response * State) stored :
  let result := adminRoute authHeader handler stored in
  (forall r stored',
      result = (inr r, stored') ->
      exists token user,
        headerToken authHeader = JS.VStr token /\ token <> ""%string
        /\ jwt_verify token = Some user
        /\ identity_role user = "admin"%string
        /\ handler stored = (r, stored')) /\
  (forall user,
      authenticateToken authHeader = inr user ->
      identity_role user = "admin"%string ->
      result = (inr (fst (handler stored)), snd (handler stored))) /\
  (forall e, fst result = inl e -> snd result = stored) /\
  (fst result = inl AdminRequired <->
   exists user, authenticateToken authHeader = inr user
                /\ identity_role user <> "admin"%string).
Proof.
  intros result. subst result. unfold adminRoute, requireAdmin.
  destruct (authenticateToken authHeader) as [e|user] eqn:Hauth.
  - split; [discriminate|]. split; [discriminate|]. split; [reflexivity|].
    split; [|intros (u & Hu & _); discriminate].
    simpl. intros [= ->]. unfold authenticateToken in Hauth.
    destruct (headerToken authHeader) as [| | | |t]; try discriminate.
    destruct (negb _); [discriminate|]. destruct (jwt_verify t); discriminate.
  - destruct (String.eqb (identity_role user) "admin") eqn:Hrole; simpl.
    + apply String.eqb_eq in Hrole.
      destruct (handler stored) as [r0 s0] eqn:Hh.
      split; [|split; [|split; [discriminate|]]].
      * intros r stored' [= <- <-].
        apply authenticateToken_inr in Hauth as (token & Htok & Hne & Hv).
        exists token, user. repeat split; assumption.
      * intros u [= <-] _. reflexivity.
      * split; [discriminate|]. intros (u & [= <-] & Hu). contradiction.
    + apply String.eqb_neq in Hrole.
      split; [discriminate|]. split; [intros u [= <-] Hu; contradiction|].
      split; [reflexivity|]. split; [intros _; now exists user|reflexivity].
Qed.

End AuthFacts.

Section LoginAuthFacts.
Context `{Host} `{TokenVerifier}.

(** X9: a token issued by the login handler opens the admin routes.  When
    the verifier gives back the payload that was signed for the user, and
    the token is one word, a request that sends it after "Bearer " passes
    both middlewares and gets the response and the effect of the handler:
    the user the login found has the role admin. *)
Theorem login_token_opens_admin_routes {State Response : Type} users body token user
    (handler : State -> Response * State) stored :
  login users body = LoginOk token user ->
  jwt_verify token = Some (identity_of user) ->
  spaceless token -> token <> ""%string ->
  User.role user = "admin"%string /\
  adminRoute (bearer token) handler stored
  = (inr (fst (handler stored)), snd (handler stored)).
Proof.
  intros Hlogin Hverify Hword Hne.
  assert (Hrole : User.role user = "admin"%string).
  { unfold login in Hlogin. destruct (_ || _); [discriminate|].
    destruct (Arr.find _ users) as [u|] eqn:Hf; [|discriminate].
    destruct (negb _); [discriminate|]. injection Hlogin as _ <-.
    apply find_some in Hf as [_ Hb]. apply andb_true_iff in Hb as [_ Hr].
    now apply String.eqb_eq. }
  split; [exact Hrole|].
  assert (Hauth : authenticateToken (bearer token) = inr (identity_of user)).
  { unfold bearer, authenticateToken.
    change ("Bearer " ++ token)%string with ("Bearer" ++ " " ++ token)%string.
    rewrite (headerToken_second_word "Bearer" token);
      [|repeat constructor; discriminate|exact Hword].
    rewrite (nonempty_truthy token Hne). simpl. now rewrite Hverify. }
  unfold adminRoute. rewrite Hauth. unfold requireAdmin. simpl.
  rewrite Hrole. simpl. now destruct (handler stored).
Qed.

End LoginAuthFacts.

(** ** Product administration: reading, updating, deleting *)

Section FindFacts.
Context {A : Type}.
Implicit Types (P : A -> bool) (l : list A).

Lemma find_findIndex P l :
  Arr.find P l = match Arr.findIndex P l with
                 | Some i => l !! i
                 | None => None
                 end.
Proof.
  unfold Arr.find. induction l as [|x r IH]; simpl; [reflexivity|].
  destruct (P x); [reflexivity|]. rewrite IH.
  now destruct (Arr.findIndex P r).
Qed.

Lemma findIndex_lt P l i : Arr.findIndex P l = Some i -> (i < length l)%nat.
Proof.
  intros Hi. apply findIndex_Some in Hi as (x & Hx & _).
  now apply lookup_lt_Some in Hx.
Qed.

Lemma findIndex_ext P (Q : A -> bool) l :
  (forall x, In x l -> P x = Q x) -> Arr.findIndex P l = Arr.findIndex Q l.
Proof.
  induction l as [|x r IH]; simpl; [reflexivity|]. intros Hext.
  rewrite (Hext x) by now left. rewrite IH; [reflexivity|].
  intros y Hy. apply Hext. now right.
Qed.

End FindFacts.

Lemma unknown_id_no_match stored idParam p :
  unknown_id stored idParam -> In p stored ->
  JS.num_eq (JS.of_Z (Product.id p)) (Str.parseInt idParam) = false.
Proof.
  intros [HNaN|[(n & Hn & Hnot)|[Hinf|Hinf]]] Hin.
  - now rewrite HNaN.
  - rewrite Hn. apply not_true_is_false. rewrite num_eq_of_Z. intros Heq.
    apply Hnot. rewrite <- Heq. unfold ids. now apply in_map.
  - now rewrite Hinf.
  - now rewrite Hinf.
Qed.

Lemma findProductIndex_unknown stored idParam :
  unknown_id stored idParam -> findProductIndex stored idParam = None.
Proof.
  intros Hunknown. unfold findProductIndex. apply findIndex_None, filter_nil_iff.
  intros p Hp. now apply (unknown_id_no_match stored).
Qed.

Lemma getById_unknown stored idParam :
  unknown_id stored idParam -> getById stored idParam = GetNotFound.
Proof.
  intros Hunknown.
  pose proof (findProductIndex_unknown stored idParam Hunknown) as Hidx.
  unfold getById. rewrite find_findIndex.
  unfold findProductIndex in Hidx. now rewrite Hidx.
Qed.

(** X10: an id parameter that is not a number ([parseInt] gives [NaN]), or
    that is a number no stored product has as its id (an infinity
    included), is not found by the
    read, update and delete handlers, and the update and the delete leave
    the collection as it was. *)
Theorem unknown_id_not_found now stored idParam updates permanent :
  unknown_id stored idParam ->
  getById stored idParam = GetNotFound /\
  update now stored idParam updates = (UpdateNotFound, stored) /\
  delete_product now stored idParam permanent = (DeleteNotFound, stored).
Proof.
  intros Hunknown.
  pose proof (findProductIndex_unknown stored idParam Hunknown) as Hidx.
  split; [|split].
  - now apply getById_unknown.
  - unfold update. now rewrite Hidx.
  - unfold delete_product. now rewrite Hidx.
Qed.

Lemma getById_pretty_Some stored n p :
  JS.safe_integer n ->
  getById stored (pretty n) = GetOk p -> In p stored /\ Product.id p = n.
Proof.
  intros Hn. unfold getById. rewrite (parseInt_pretty_safe n Hn).
  destruct (Arr.find _ stored) as [p'|] eqn:Hf; [|discriminate].
  intros [= <-]. apply find_some in Hf as [Hin Hid].
  split; [exact Hin|]. now apply num_eq_of_Z.
Qed.

Lemma getById_own_id stored p :
  Z.abs (Product.id p) <= 2 ^ 53 ->
  unique_ids stored -> In p stored -> getById stored (pretty (Product.id p)) = GetOk p.
Proof.
  intros Hsafe Huniq Hp. unfold getById. rewrite parseInt_pretty, (round_Z_safe _ Hsafe).
  destruct (Arr.find _ stored) as [p'|] eqn:Hf.
  - f_equal. apply find_some in Hf as [Hp' Hid]. apply num_eq_of_Z in Hid.
    now apply (NoDup_map_inj Product.id stored).
  - exfalso. pose proof (find_none _ _ Hf p Hp) as Hb. cbv beta in Hb.
    assert (JS.num_eq (JS.of_Z (Product.id p)) (JS.of_Z (Product.id p)) = true)
      by now apply num_eq_of_Z.
    congruence.
Qed.

(** X11: reading one product by the decimal string of a safe integer (an
    integer below [2^53] in absolute value, which [parseInt] reads exactly)
    returns a stored product with that id whenever there is one, whether it
    is active or not, and not-found otherwise; when ids are unique, every
    stored product with that id is the one returned. *)
Theorem getById_finds_stored stored (n : Z) :
  JS.safe_integer n ->
  (forall p, getById stored (pretty n) = GetOk p -> In p stored /\ Product.id p = n) /\
  (In n (ids stored) -> exists p, getById stored (pretty n) = GetOk p) /\
  (~ In n (ids stored) -> getById stored (pretty n) = GetNotFound) /\
  (unique_ids stored ->
   forall p, In p stored -> Product.id p = n -> getById stored (pretty n) = GetOk p).
Proof.
  intros Hsafe.
  split; [intros p; now apply getById_pretty_Some|].
  split; [|split].
  - intros Hin. unfold getById. rewrite (parseInt_pretty_safe n Hsafe).
    destruct (Arr.find _ stored) as [p|] eqn:Hf; [now exists p|].
    exfalso. unfold ids in Hin. apply in_map_iff in Hin as (p & Hid & Hp).
    pose proof (find_none _ _ Hf p Hp) as Hb. cbv beta in Hb.
    rewrite Hid in Hb. assert (JS.num_eq (JS.of_Z n) (JS.of_Z n) = true)
      by now apply num_eq_of_Z. congruence.
  - intros Hnot. apply getById_unknown. right. left. exists n.
    split; [now apply parseInt_pretty_safe|exact Hnot].
  - intros Huniq p Hp Hid. subst n. apply getById_own_id; try assumption.
    unfold JS.safe_integer in Hsafe. lia.
Qed.

Lemma findProductIndex_Some stored idParam i :
  findProductIndex stored idParam = Some i ->
  exists old,
    stored !! i = Some old
    /\ JS.num_eq (JS.of_Z (Product.id old)) (Str.parseInt idParam) = true.
Proof.
  intros Hi. apply findIndex_Some in Hi as (old & Hold & Hid & _). now exists old.
Qed.

Lemma lookup_alter_same {A : Type} (f : A -> A) (l : list A) i x :
  l !! i = Some x -> alter f i l !! i = Some (f x).
Proof.
  revert i. induction l as [|y r IH]; intros [|i]; simpl; try discriminate.
  - now intros [= ->].
  - apply IH.
Qed.

Lemma findIndex_map {A B : Type} (g : B -> bool) (f : A -> B) (l : list A) :
  Arr.findIndex (fun x => g (f x)) l = Arr.findIndex g (map f l).
Proof.
  induction l as [|x r IH]; simpl; [reflexivity|]. now rewrite IH.
Qed.

Lemma findProductIndex_same_ids stored stored' idParam :
  ids stored' = ids stored ->
  findProductIndex stored' idParam = findProductIndex stored idParam.
Proof.
  intros Hids. unfold findProductIndex.
  rewrite (findIndex_map (fun n => JS.num_eq (JS.of_Z n) (Str.parseInt idParam))
             Product.id stored').
  rewrite (findIndex_map (fun n => JS.num_eq (JS.of_Z n) (Str.parseInt idParam))
             Product.id stored).
  unfold ids in Hids. now rewrite Hids.
Qed.

(** X12: a successful update rewrites one product and nothing else: the
    first one whose id is the number of the id parameter.  The product
    stored in its place, which is also the one of the response, takes
    every property the patch carries from the patch, with no validation (a
    negative price is stored as given), keeps the others, and has
    [updatedAt] set to the time of the request even when the patch carries
    one.  The collection keeps its length and every other position. *)
Theorem update_effect now stored idParam updates product stored' :
  update now stored idParam updates = (Updated product, stored') ->
  exists i old,
    findProductIndex stored idParam = Some i
    /\ stored !! i = Some old
    /\ JS.num_eq (JS.of_Z (Product.id old)) (Str.parseInt idParam) = true
    /\ product = mergePatch now old updates
    /\ stored' = <[i := product]> stored
    /\ stored' !! i = Some product
    /\ length stored' = length stored
    /\ (forall j, j <> i -> stored' !! j = stored !! j)
    /\ Product.updatedAt product = now
    /\ (forall x, patch_price updates = Some x -> Product.price product = x)
    /\ (patch_price updates = None -> Product.price product = Product.price old)
    /\ (forall t, patch_title updates = Some t -> Product.title product = t)
    /\ (patch_title updates = None -> Product.title product = Product.title old).
Proof.
  unfold update. destruct (findProductIndex stored idParam) as [i|] eqn:Hi; [|discriminate].
  destruct (findProductIndex_Some stored idParam i Hi) as (old & Hold & Hid).
  rewrite (lookup_alter_same (fun p => mergePatch now p updates) stored i old Hold).
  intros [= <- <-].
  exists i, old.
  split; [reflexivity|]. split; [exact Hold|]. split; [exact Hid|].
  split; [reflexivity|].
  split; [now apply (alter_as_insert (fun p => mergePatch now p updates))|].
  split; [now apply (lookup_alter_same (fun p => mergePatch now p updates))|].
  split; [apply length_alter|].
  split; [intros j Hj; now apply list_lookup_alter_ne|].
  split; [reflexivity|].
  split; [intros x Hx; simpl; now rewrite Hx|].
  split; [intros Hx; simpl; now rewrite Hx|].
  split; [intros t Ht; simpl; now rewrite Ht|].
  intros Ht. simpl. now rewrite Ht.
Qed.

(** X13: after an update whose patch carries no id, reading the product
    with the same id parameter returns the product the update answered
    with. *)
Theorem update_then_getById now stored idParam updates product stored' :
  update now stored idParam updates = (Updated product, stored') ->
  patch_id updates = None ->
  getById stored' idParam = GetOk product.
Proof.
  intros Hupdate Hpatch.
  assert (Hids : ids stored' = ids stored).
  { pose proof (update_ids now stored idParam updates Hpatch) as Hids.
    now rewrite Hupdate in Hids. }
  unfold update in Hupdate.
  destruct (findProductIndex stored idParam) as [i|] eqn:Hi; [|discriminate].
  destruct (findProductIndex_Some stored idParam i Hi) as (old & Hold & Hid).
  rewrite (lookup_alter_same (fun p => mergePatch now p updates) stored i old Hold)
    in Hupdate.
  injection Hupdate as <- <-.
  unfold getById. rewrite find_findIndex.
  change (Arr.findIndex _ ?l) with (findProductIndex l idParam).
  rewrite (findProductIndex_same_ids stored _ idParam Hids), Hi.
  now rewrite (lookup_alter_same (fun p => mergePatch now p updates) stored i old Hold).
Qed.

Section SoftDeleteFacts.
Context `{Host}.

(** X14: a delete without the permanent flag keeps the product in the
    collection with [isActive] false and the time of the request as
    [updatedAt]: the admin still reads it by its id, every other position
    of the collection is as before, and no public query returns it; with
    unique ids no public query returns a product with its id. *)
Theorem soft_delete_hides now stored idParam permanent i old :
  JS.truthy (param_value permanent) = false ->
  findProductIndex stored idParam = Some i ->
  stored !! i = Some old ->
  let stored' := snd (delete_product now stored idParam permanent) in
  stored' = <[i := deactivate now old]> stored /\
  ids stored' = ids stored /\
  getById stored' idParam = GetOk (deactivate now old) /\
  Product.isActive (deactivate now old) = false /\
  (forall q, ~ In (deactivate now old) (pr_products (queryPublic stored' q))) /\
  (unique_ids stored ->
   forall q p, In p (pr_products (queryPublic stored' q)) ->
               Product.id p <> Product.id old).
Proof.
  intros Hsoft Hi Hold stored'. subst stored'. unfold delete_product.
  rewrite Hi, Hsoft. cbn [snd].
  assert (Hids : ids (alter (deactivate now) i stored) = ids stored)
    by now apply map_alter_preserved.
  assert (Hat : alter (deactivate now) i stored !! i = Some (deactivate now old))
    by now apply lookup_alter_same.
  split; [now apply alter_as_insert|]. split; [exact Hids|]. split; [|split; [reflexivity|split]].
  - unfold getById. rewrite find_findIndex.
    change (Arr.findIndex _ ?l) with (findProductIndex l idParam).
    now rewrite (findProductIndex_same_ids stored _ idParam Hids), Hi, Hat.
  - intros q Hin. apply queryPublic_In in Hin as [_ Hactive]. discriminate.
  - intros Huniq q p Hin Hid. apply queryPublic_In in Hin as [Hin Hactive].
    assert (Huniq' : unique_ids (alter (deactivate now) i stored))
      by (unfold unique_ids; now rewrite Hids).
    assert (Hdel : In (deactivate now old) (alter (deactivate now) i stored)).
    { apply list_elem_of_In. eapply list_elem_of_lookup_2. exact Hat. }
    assert (p = deactivate now old).
    { apply (NoDup_map_inj Product.id _ _ _ Huniq' Hin Hdel). exact Hid. }
    subst p. discriminate.
Qed.

End SoftDeleteFacts.

(** X15: the permanent flag is read for its truthiness: with any string
    that is not empty (the string "false" included) the first product with
    the id is taken out of the collection, which keeps every other product
    in order and is shorter by one; with unique ids the id is then gone and
    reading it gives not-found. *)
Theorem permanent_delete_removes now stored idParam flag i :
  flag <> ""%string ->
  findProductIndex stored idParam = Some i ->
  let stored' := snd (delete_product now stored idParam (Some flag)) in
  stored' = delete i stored /\
  S (length stored') = length stored /\
  sublist stored' stored /\
  (unique_ids stored -> getById stored' idParam = GetNotFound).
Proof.
  intros Hflag Hi stored'. subst stored'. unfold delete_product.
  rewrite Hi. cbn [param_value]. rewrite (nonempty_truthy flag Hflag). cbn [snd].
  pose proof (findIndex_lt _ _ _ Hi) as Hlt.
  split; [reflexivity|]. split; [|split; [apply sublist_delete|]].
  - rewrite length_delete; [lia|]. now apply lookup_lt_is_Some.
  - intros Huniq.
    destruct (findProductIndex_Some stored idParam i Hi) as (old & Hold & Hid).
    unfold getById. destruct (Arr.find _ (delete i stored)) as [p|] eqn:Hf; [|reflexivity].
    exfalso. apply find_some in Hf as [Hin Hp].
    assert (Hsame : Product.id p = Product.id old).
    { destruct (Str.parseInt idParam) as [| | |x]; try discriminate.
      apply num_eq_of_Z. unfold JS.of_Z. apply num_eq_Fin.
      apply num_eq_Fin in Hid, Hp. now rewrite Hid, Hp. }
    unfold unique_ids, ids in Huniq.
    rewrite <- (take_drop_middle stored i old Hold) in Huniq.
    rewrite map_app in Huniq. simpl in Huniq.
    apply List.NoDup_remove_2 in Huniq. apply Huniq.
    rewrite <- Hsame, <- map_app. apply in_map.
    rewrite delete_take_drop in Hin. exact Hin.
Qed.

(** ** Creating a product: after the validation *)

Section CreateSuccessFacts.
Context `{Host}.

Lemma trim_or_None v fallback : trim_or v fallback = None <-> not_trimmable v.
Proof.
  unfold trim_or. destruct v; simpl; split; intros; try discriminate; try contradiction; auto.
Qed.

Lemma required_trim_None v :
  JS.truthy v = true -> required_trim v = None <-> not_trimmable v.
Proof.
  destruct v; simpl; intros Ht; split; intros; try discriminate; try contradiction; auto.
Qed.

Lemma newProduct_None user now1 now2 stored body :
  JS.truthy (field body "title") = true ->
  JS.truthy (field body "author") = true ->
  newProduct user now1 now2 stored body = None <->
  Exists (fun f => not_trimmable (field body f)) trimmedFields.
Proof.
  intros Ht Ha. unfold newProduct, trimmedFields.
  rewrite !Exists_cons, Exists_nil.
  rewrite <- (required_trim_None _ Ht), <- (required_trim_None _ Ha).
  rewrite <- (trim_or_None (field body "isbn") ""),
    <- (trim_or_None (field body "category") "General"),
    <- (trim_or_None (field body "description") ""),
    <- (trim_or_None (field body "imageUrl") "/images/default-book.jpg"),
    <- (trim_or_None (field body "publisher") "").
  destruct (required_trim (field body "title")); simpl; [|tauto].
  destruct (required_trim (field body "author")); simpl; [|tauto].
  destruct (trim_or (field body "isbn") ""); simpl; [|tauto].
  destruct (trim_or (field body "category") "General"); simpl; [|tauto].
  destruct (trim_or (field body "description") ""); simpl; [|tauto].
  destruct (trim_or (field body "imageUrl") "/images/default-book.jpg"); simpl; [|tauto].
  destruct (trim_or (field body "publisher") ""); simpl; [|tauto].
  split; [discriminate|]. intros [|[|[|[|[|[|[|[]]]]]]]]; discriminate.
Qed.

(** X16: a body that has passed the whole validation is still answered
    with the server error of the catch block, and nothing is appended,
    when one of title, author, isbn, category, description, imageUrl,
    publisher carries a number or a boolean: [trim] is called on the value
    without a check of its type. *)
Theorem create_after_validation user now1 now2 stored body :
  Forall (fun f => JS.truthy (field body f) = true) requiredFields ->
  js_lt (field body "price") (JS.VNum (JS.of_Z 0)) = false ->
  js_lt (field body "stock") (JS.VNum (JS.of_Z 0)) = false ->
  JS.truthy (field body "discountPrice")
  && js_gt (field body "discountPrice") (field body "price") = false ->
  Exists (fun f => not_trimmable (field body f)) trimmedFields ->
  create user now1 now2 stored body = (CreateServerError, stored).
Proof.
  intros Hall Hp Hs Hd Hex.
  assert (Ht : JS.truthy (field body "title") = true).
  { rewrite List.Forall_forall in Hall. apply Hall. simpl. tauto. }
  assert (Ha : JS.truthy (field body "author") = true).
  { rewrite List.Forall_forall in Hall. apply Hall. simpl. tauto. }
  unfold create. rewrite (missing_empty body Hall), Hp, Hs, Hd.
  apply (newProduct_None user now1 now2 stored body Ht Ha) in Hex.
  now rewrite Hex.
Qed.

Lemma create_Created user now1 now2 stored body product stored' :
  create user now1 now2 stored body = (Created product, stored') ->
  newProduct user now1 now2 stored body = Some product /\ stored' = stored ++ [product].
Proof.
  unfold create.
  repeat match goal with
         | |- context [if ?b then _ else _] => destruct b; [discriminate|]
         end.
  destruct (newProduct user now1 now2 stored body) as [p|]; [|discriminate].
  now intros [= <- <-].
Qed.

Lemma newProduct_fields user now1 now2 stored body product :
  newProduct user now1 now2 stored body = Some product ->
  Product.id product = newId stored
  /\ Product.isActive product = true
  /\ Product.createdAt product = now1
  /\ Product.updatedAt product = now2
  /\ Product.createdBy product = identity_id user
  /\ Product.price product = parseFloat (field body "price")
  /\ Product.stock product = parseInt (field body "stock")
  /\ Product.discountPrice product = parseFloat_or_null (field body "discountPrice")
  /\ Some (Product.category product) = trim_or (field body "category") "General"
  /\ Some (Product.title product) = required_trim (field body "title").
Proof.
  unfold newProduct. intros Hnew.
  destruct (required_trim (field body "title")); simpl in Hnew; [|discriminate].
  destruct (required_trim (field body "author")); simpl in Hnew; [|discriminate].
  destruct (trim_or (field body "isbn") ""); simpl in Hnew; [|discriminate].
  destruct (trim_or (field body "category") "General"); simpl in Hnew; [|discriminate].
  destruct (trim_or (field body "description") ""); simpl in Hnew; [|discriminate].
  destruct (trim_or (field body "imageUrl") "/images/default-book.jpg");
    simpl in Hnew; [|discriminate].
  destruct (trim_or (field body "publisher") ""); simpl in Hnew; [|discriminate].
  injection Hnew as <-. repeat split.
Qed.

Lemma queryPublic_no_filter stored :
  pr_products (queryPublic stored no_filter)
  = List.filter (fun p => Bool.eqb (Product.isActive p) true) stored.
Proof. reflexivity. Qed.

(** X17: a product is created from the last id and the two readings of the
    clock.  When the id of the last stored product is a safe integer and
    the numbers of the created product are finite (so that the file and the
    response hold them as they are, and not [null]), the product is
    appended at the end of the collection with the id of the last product
    plus one (1 in an empty collection), active, with [createdAt] at the
    first reading of the clock and [updatedAt] at the second, [createdBy]
    the id of the user of the request, its title trimmed, its price and
    stock coerced by [parseFloat] and [parseInt], the category "General"
    when the body gives none, and no discount price when the body gives
    none.  The public query without parameters lists it, and when ids
    increase along the collection the admin reads it back by its id. *)
Theorem create_appends_visible user now1 now2 stored body product stored' :
  create user now1 now2 stored body = (Created product, stored') ->
  safe_last_id stored ->
  finite_numbers product ->
  stored' = stored ++ [product] /\
  Product.id product = match last stored with
                       | Some lastProduct => Product.id lastProduct + 1
                       | None => 1
                       end /\
  Product.isActive product = true /\
  Product.createdAt product = now1 /\ Product.updatedAt product = now2 /\
  Product.createdBy product = identity_id user /\
  (exists t, field body "title" = JS.VStr t /\ Product.title product = trim t) /\
  Product.price product = parseFloat (field body "price") /\
  Product.stock product = parseInt (field body "stock") /\
  (JS.truthy (field body "discountPrice") = false ->
   Product.discountPrice product = None) /\
  (field body "category" = JS.VUndefined -> Product.category product = "General"%string) /\
  In product (pr_products (queryPublic stored' no_filter)) /\
  (increasing_ids stored -> getById stored' (pretty (Product.id product)) = GetOk product).
Proof.
  intros Hcreate Hsafe _. apply create_Created in Hcreate as [Hnew ->].
  destruct (newProduct_fields user now1 now2 stored body product Hnew)
    as (Hid & Hact & Hc & Hu & Hby & Hprice & Hstock & Hdisc & Hcat & Htitle).
  pose proof (newId_safe stored Hsafe) as Hnext.
  split; [reflexivity|]. split; [now rewrite Hid|]. split; [exact Hact|].
  split; [exact Hc|]. split; [exact Hu|]. split; [exact Hby|].
  split; [|split; [exact Hprice|]].
  { destruct (field body "title") as [| | | |t]; try discriminate.
    exists t. split; [reflexivity|]. simpl in Htitle. now injection Htitle. }
  split; [exact Hstock|]. split; [|split; [|split]].
  - intros Hfalsy. rewrite Hdisc. unfold parseFloat_or_null. now rewrite Hfalsy.
  - intros Habsent. rewrite Habsent in Hcat. simpl in Hcat. now injection Hcat.
  - rewrite queryPublic_no_filter. apply filter_In. split.
    + apply in_or_app. right. now left.
    + now rewrite Hact.
  - intros Hinc. apply getById_own_id.
    + rewrite Hid, Hnext. unfold safe_last_id in Hsafe.
      destruct (last stored) as [lastProduct|]; [|lia].
      specialize (Hsafe lastProduct eq_refl). unfold JS.safe_integer in Hsafe. lia.
    + apply increasing_NoDup. unfold ids. rewrite map_app. simpl. rewrite Hid.
      now apply newId_increasing.
    + apply in_or_app. right. now left.
Qed.

End CreateSuccessFacts.

(** ** The public catalog: what is returned, and in which order *)

Lemma filter_filter_andb {A : Type} (P Q : A -> bool) (l : list A) :
  List.filter Q (List.filter P l) = List.filter (fun x => P x && Q x) l.
Proof.
  induction l as [|x r IH]; simpl; [reflexivity|].
  destruct (P x); simpl; [|exact IH]. destruct (Q x); now rewrite IH.
Qed.

Section PublicQueryFacts.
Context `{Host}.

Lemma publicSort_perm sort products : Permutation (publicSort sort products) products.
Proof.
  unfold publicSort.
  repeat match goal with
         | |- context [if ?b then _ else _] => destruct b
         end; try apply sort_perm; reflexivity.
Qed.

Lemma publicSort_unknown sort products :
  ~ known_sort sort -> publicSort sort products = products.
Proof.
  intros Hunknown. unfold publicSort.
  repeat match goal with
         | |- context [if String.eqb sort ?k then _ else _] =>
             destruct (String.eqb_spec sort k) as [->|_];
             [exfalso; apply Hunknown; unfold known_sort; simpl; tauto|]
         end.
  reflexivity.
Qed.

Lemma queryPublic_unsorted stored q :
  pr_products (queryPublic stored q)
  = match param_given (pq_sort q) with
    | Some s => publicSort s (List.filter (publicMatches q) stored)
    | None => List.filter (publicMatches q) stored
    end.
Proof.
  unfold queryPublic, publicMatches. cbn [pr_products].
  assert (Hfilter :
    match param_given (pq_search q) with
    | Some s =>
        List.filter
          (fun p => Str.includes (toLowerCase (Product.title p)) (toLowerCase s)
                    || Str.includes (toLowerCase (Product.author p)) (toLowerCase s))
          match param_given (pq_category q) with
          | Some c =>
              List.filter
                (fun p => String.eqb (toLowerCase (Product.category p)) (toLowerCase c))
                (List.filter (fun p => Bool.eqb (Product.isActive p) true) stored)
          | None => List.filter (fun p => Bool.eqb (Product.isActive p) true) stored
          end
    | None =>
        match param_given (pq_category q) with
        | Some c =>
            List.filter
              (fun p => String.eqb (toLowerCase (Product.category p)) (toLowerCase c))
              (List.filter (fun p => Bool.eqb (Product.isActive p) true) stored)
        | None => List.filter (fun p => Bool.eqb (Product.isActive p) true) stored
        end
    end
    = List.filter
        (fun p =>
           Bool.eqb (Product.isActive p) true
           && match param_given (pq_category q) with
              | Some c => String.eqb (toLowerCase (Product.category p)) (toLowerCase c)
              | None => true
              end
           && match param_given (pq_search q) with
              | Some s =>
                  Str.includes (toLowerCase (Product.title p)) (toLowerCase s)
                  || Str.includes (toLowerCase (Product.author p)) (toLowerCase s)
              | None => true
              end) stored).
  { destruct (param_given (pq_search q)) as [s|], (param_given (pq_category q)) as [c|];
      rewrite ?filter_filter_andb; apply filter_ext; intros p;
      rewrite ?andb_true_r, ?andb_assoc; reflexivity. }
  now rewrite Hfilter.
Qed.

(** X19: the public query returns exactly the stored products that are
    active and pass the category and search parameters that are given (an
    empty parameter counts as not given), each as often as it is stored:
    the list is a rearrangement of those products, [total] is their
    number, and when no sort key is given, or one that is not among
    price_asc, price_desc, title_asc and title_desc, they come in the order
    of the stored collection. *)
Theorem queryPublic_exactly_matching stored q :
  let r := queryPublic stored q in
  let matching := List.filter (publicMatches q) stored in
  Permutation (pr_products r) matching /\
  pr_total r = length matching /\
  (forall p, In p (pr_products r) <-> In p stored /\ publicMatches q p = true) /\
  (pq_sort q = None -> pr_products r = matching) /\
  (forall sort, pq_sort q = Some sort -> ~ known_sort sort -> pr_products r = matching) /\
  (pq_category q = Some ""%string -> pq_search q = Some ""%string ->
   forall p, publicMatches q p = Product.isActive p).
Proof.
  intros r matching.
  assert (Hperm : Permutation (pr_products r) matching).
  { subst r. rewrite queryPublic_unsorted.
    destruct (param_given (pq_sort q)); [apply publicSort_perm|reflexivity]. }
  split; [exact Hperm|]. split; [|split; [|split; [|split]]].
  - change (pr_total r) with (length (pr_products r)). now apply Permutation_length.
  - intros p. rewrite <- filter_In. split; apply Permutation_in; [|symmetry]; exact Hperm.
  - intros Hsort. subst r. rewrite queryPublic_unsorted. now rewrite Hsort.
  - intros sort Hsort Hunknown. subst r. rewrite queryPublic_unsorted, Hsort.
    unfold param_given. destruct (JS.truthy _); [now apply publicSort_unknown|reflexivity].
  - intros Hc Hs p. unfold publicMatches. rewrite Hc, Hs. simpl.
    now destruct (Product.isActive p).
Qed.

End PublicQueryFacts.

(** ** Sorting by price: the order of the result *)

Lemma num_le_trans a b c :
  a <> JS.NaN -> b <> JS.NaN -> c <> JS.NaN ->
  JS.num_lt b a = false -> JS.num_lt c b = false -> JS.num_lt c a = false.
Proof.
  destruct a as [| | |x], b as [| | |y], c as [| | |z]; try congruence; try reflexivity;
    try discriminate.
  intros _ _ _ Hxy Hyz. apply not_true_is_false. rewrite num_lt_Fin.
  apply not_true_iff_false in Hxy, Hyz. rewrite num_lt_Fin in Hxy, Hyz. lra.
Qed.

Lemma StronglySorted_impl {A : Type} (R S : A -> A -> Prop) (l : list A) :
  (forall x y, R x y -> S x y) -> StronglySorted R l -> StronglySorted S l.
Proof.
  intros HRS. induction 1 as [|x r Hr IH Hx]; constructor; [exact IH|].
  eapply List.Forall_impl; [|exact Hx]. intros y. apply HRS.
Qed.

Lemma Forall_ForallOrdPairs {A : Type} (Q : A -> Prop) (R : A -> A -> Prop) (l : list A) :
  (forall x y, Q x -> Q y -> R x y) -> Forall Q l -> ForallOrdPairs R l.
Proof.
  intros HQR. induction 1 as [|x r Hx Hr IH]; constructor; [|exact IH].
  eapply List.Forall_impl; [|exact Hr]. intros y Hy. now apply HQR.
Qed.

Section PriceOrderFacts.
Context `{Host}.

Lemma price_asc_nondecreasing (l : list Product.t) :
  Forall priced l ->
  StronglySorted price_le
    (Arr.sort (fun a b => JS.num_sub (Product.price a) (Product.price b)) l).
Proof.
  intros Hl.
  apply (StronglySorted_impl (fun a b => priced a /\ priced b /\ price_le a b));
    [tauto|].
  apply sort_StronglySorted.
  - intros x y z (Hx & Hy & Hxy) (_ & Hz & Hyz). repeat split; try assumption.
    unfold price_le in *. now apply (num_le_trans _ (Product.price y)).
  - apply (Forall_ForallOrdPairs priced); [|exact Hl].
    intros x y Hx Hy. unfold decides, Arr.keeps_order. rewrite num_sub_pos.
    unfold price_le.
    destruct (JS.num_lt (Product.price y) (Product.price x)) eqn:Hyx; simpl.
    + repeat split; try assumption. apply not_true_is_false. intros Hxy.
      exact (num_lt_asym _ _ Hxy Hyx).
    + now repeat split.
Qed.

Lemma price_desc_nonincreasing (l : list Product.t) :
  Forall priced l ->
  StronglySorted (fun a b => price_le b a)
    (Arr.sort (fun a b => JS.num_sub (Product.price b) (Product.price a)) l).
Proof.
  intros Hl.
  apply (StronglySorted_impl (fun a b => priced a /\ priced b /\ price_le b a));
    [tauto|].
  apply sort_StronglySorted.
  - intros x y z (Hx & Hy & Hxy) (_ & Hz & Hyz). repeat split; try assumption.
    unfold price_le in *. now apply (num_le_trans _ (Product.price y)).
  - apply (Forall_ForallOrdPairs priced); [|exact Hl].
    intros x y Hx Hy. unfold decides, Arr.keeps_order. rewrite num_sub_pos.
    unfold price_le.
    destruct (JS.num_lt (Product.price x) (Product.price y)) eqn:Hxy; simpl.
    + repeat split; try assumption. apply not_true_is_false. intros Hyx.
      exact (num_lt_asym _ _ Hxy Hyx).
    + now repeat split.
Qed.

(** X20: when every stored price is a number, the public query with the
    sort key price_asc returns its products from the cheapest to the
    dearest (no product is followed, anywhere later in the list, by a
    cheaper one), and with price_desc from the dearest to the cheapest;
    equal prices are allowed. *)
Theorem queryPublic_price_order stored q :
  Forall priced stored ->
  StronglySorted price_le (pr_products (queryPublic stored (with_sort "price_asc" q))) /\
  StronglySorted (fun a b => price_le b a)
    (pr_products (queryPublic stored (with_sort "price_desc" q))).
Proof.
  intros Hpriced.
  assert (Hmatching : forall q', Forall priced (List.filter (publicMatches q') stored)).
  { intros q'. apply List.Forall_forall. intros p Hp. apply filter_In in Hp as [Hp _].
    rewrite List.Forall_forall in Hpriced. now apply Hpriced. }
  split.
  - rewrite queryPublic_unsorted.
    change (param_given (pq_sort (with_sort "price_asc" q))) with (Some "price_asc"%string).
    cbv beta iota.
    change (publicSort "price_asc" ?l)
      with (Arr.sort (fun a b => JS.num_sub (Product.price a) (Product.price b)) l).
    apply price_asc_nondecreasing, Hmatching.
  - rewrite queryPublic_unsorted.
    change (param_given (pq_sort (with_sort "price_desc" q))) with (Some "price_desc"%string).
    cbv beta iota.
    change (publicSort "price_desc" ?l)
      with (Arr.sort (fun a b => JS.num_sub (Product.price b) (Product.price a)) l).
    apply price_desc_nonincreasing, Hmatching.
Qed.

End PriceOrderFacts.

(** ** The admin catalog: filters and pages *)

Lemma slice_In {A : Type} (start stop : JS.number) (l : list A) x :
  In x (Arr.slice start stop l) -> In x l.
Proof.
  unfold Arr.slice. intros Hin. apply list_elem_of_In in Hin. apply list_elem_of_In.
  eapply elem_of_sublist; [exact Hin|].
  etransitivity; [apply sublist_take|apply sublist_drop].
Qed.

Section AdminFilterFacts.
Context `{Host}.

Lemma adminFilter_In stored q p : In p (adminFilter stored q) -> In p stored.
Proof.
  unfold adminFilter.
  destruct (param_given (aq_search q)); [intros Hp; apply filter_In in Hp as [Hp _]|intros Hp];
    (destruct (param_given (aq_category q)) as [c|];
       [destruct (negb (String.eqb c "all"));
          [apply filter_In in Hp as [Hp _]|]|]);
    repeat match type of Hp with
           | context [if ?b then _ else _] => destruct b
           end;
    try (apply filter_In in Hp as [Hp _]); exact Hp.
Qed.

Lemma adminFilter_status_In stored q p :
  In p (adminFilter stored q) ->
  (aq_status q = Some "active"%string -> Product.isActive p = true)
  /\ (aq_status q = Some "inactive"%string -> Product.isActive p = false).
Proof.
  unfold adminFilter. intros Hp.
  assert (Hstatus :
    In p (if String.eqb (default "all"%string (aq_status q)) "active"
          then List.filter (fun p => Bool.eqb (Product.isActive p) true) stored
          else if String.eqb (default "all"%string (aq_status q)) "inactive"
               then List.filter (fun p => Bool.eqb (Product.isActive p) false) stored
               else stored)).
  { destruct (param_given (aq_search q)); [apply filter_In in Hp as [Hp _]|];
      (destruct (param_given (aq_category q)) as [c|];
         [destruct (negb (String.eqb c "all"));
            [apply filter_In in Hp as [Hp _]|]|]); exact Hp. }
  split; intros Hs; rewrite Hs in Hstatus; simpl in Hstatus;
    apply filter_In in Hstatus as [_ Hb]; now destruct (Product.isActive p).
Qed.

(** X21: every product of an admin page is a stored product that passed
    the filters.  With the status active every product of the filtered set
    is active, with inactive every one is inactive, and any other status
    filters nothing, like a missing one; the category "all" filters
    nothing, like a missing one; without status, category and search the
    filtered set is the whole collection, inactive products included. *)
Theorem adminFilter_status stored q :
  (forall p, In p (ar_products (queryAdmin stored q)) ->
             In p (adminFilter stored q) /\ In p stored) /\
  (aq_status q = Some "active"%string ->
   Forall (fun p => Product.isActive p = true) (adminFilter stored q)) /\
  (aq_status q = Some "inactive"%string ->
   Forall (fun p => Product.isActive p = false) (adminFilter stored q)) /\
  (forall s, aq_status q = Some s -> s <> "active"%string -> s <> "inactive"%string ->
             adminFilter stored q = adminFilter stored (with_status None q)) /\
  adminFilter stored (with_category (Some "all"%string) q)
  = adminFilter stored (with_category None q) /\
  (aq_status q = None -> aq_category q = None -> aq_search q = None ->
   adminFilter stored q = stored).
Proof.
  split; [|split; [|split; [|split; [|split]]]].
  - intros p Hp. unfold queryAdmin in Hp. cbn [ar_products] in Hp.
    apply slice_In in Hp. unfold adminSorted in Hp. apply sort_In in Hp.
    split; [exact Hp|now apply adminFilter_In in Hp].
  - intros Hs. apply List.Forall_forall. intros p Hp.
    now apply (adminFilter_status_In stored q p Hp).
  - intros Hs. apply List.Forall_forall. intros p Hp.
    now apply (adminFilter_status_In stored q p Hp).
  - intros s Hs Ha Hi. unfold adminFilter. cbn [with_status aq_status aq_category aq_search].
    rewrite Hs. change (default "all"%string (Some s)) with s.
    change (default "all"%string None) with "all"%string.
    apply String.eqb_neq in Ha, Hi. rewrite Ha, Hi. reflexivity.
  - reflexivity.
  - intros Hs Hc Hq. unfold adminFilter. rewrite Hs, Hc, Hq. reflexivity.
Qed.

(** X22: for a page [p >= 1] of size [l >= 1], the page holds the
    [min l (total - (p-1)*l)] products that are left from its first index
    on, none when the page starts at or after the end; there is a previous
    page exactly when [p > 1] and a next page exactly when [p * l] is less
    than the number of filtered products. *)
Theorem queryAdmin_page_bounds stored q (p l : Z) :
  pageNum q = JS.of_Z p -> limitNum q = JS.of_Z l -> 1 <= p -> 1 <= l ->
  let total := Z.of_nat (length (adminFilter stored q)) in
  let r := queryAdmin stored q in
  Z.of_nat (totalProducts (ar_pagination r)) = total /\
  Z.of_nat (length (ar_products r)) = Z.min l (Z.max 0 (total - (p - 1) * l)) /\
  (total <= (p - 1) * l -> ar_products r = []) /\
  (hasPrevPage (ar_pagination r) = true <-> 1 < p) /\
  (hasNextPage (ar_pagination r) = true <-> p * l < total).
Proof.
  intros Hp Hl Hp1 Hl1 total r.
  assert (Hlen : Z.of_nat (length (adminSorted stored q)) = total)
    by (unfold adminSorted; now rewrite sort_length).
  assert (Hslice : ar_products r
                   = take (Z.to_nat l) (drop (Z.to_nat ((p - 1) * l))
                                          (adminSorted stored q))).
  { subst r. unfold queryAdmin; simpl.
    unfold endIndex, startIndex. rewrite Hp, Hl. unfold JS.of_Z. simpl.
    apply slice_window; try nia.
    - unfold Qeq, Qmult, Qplus, Qopp, inject_Z; simpl; lia.
    - unfold Qeq, Qmult, Qplus, Qopp, inject_Z; simpl; lia. }
  assert (Hstart : 0 <= (p - 1) * l) by nia.
  split; [exact Hlen|]. split; [|split; [|split]].
  - rewrite Hslice, length_take, length_drop.
    generalize dependent ((p - 1) * l). intros start _ Hstart. lia.
  - intros Hend. rewrite Hslice, drop_ge; [apply take_nil|].
    generalize dependent ((p - 1) * l). intros start _ Hstart Hend. lia.
  - subst r. unfold queryAdmin; simpl. unfold startIndex. rewrite Hp, Hl.
    unfold JS.of_Z, JS.num_sub. cbn [JS.num_neg JS.num_add JS.num_mul].
    etransitivity;
      [exact (num_lt_Fin (inject_Z 0) ((inject_Z p + - inject_Z 1) * inject_Z l))|].
    unfold Qlt, Qmult, Qplus, Qopp, inject_Z; simpl. nia.
  - subst r. unfold queryAdmin; simpl. unfold endIndex, startIndex. rewrite Hp, Hl.
    unfold JS.of_nat, JS.of_Z, JS.num_sub. cbn [JS.num_neg JS.num_add JS.num_mul].
    fold (adminSorted stored q).
    etransitivity;
      [exact (num_lt_Fin
                ((inject_Z p + - inject_Z 1) * inject_Z l + inject_Z l)
                (inject_Z (Z.of_nat (length (adminSorted stored q)))))|].
    unfold Qlt, Qmult, Qplus, Qopp, inject_Z; simpl. nia.
Qed.

Lemma pages_concat {A : Type} (L : list A) (l n : nat) :
  concat (map (fun k => take l (drop ((k - 1) * l) L)) (seq 1 n)) = take (n * l) L.
Proof.
  induction n as [|n IH]; [reflexivity|].
  rewrite seq_S, map_app, concat_app, IH. simpl.
  rewrite app_nil_r, Nat.sub_0_r, take_take_drop. f_equal. lia.
Qed.

(** X23: the pages of a query are a partition of its result: for a page
    size [l >= 1] that, together with the number of products, stays within
    the integers that numbers hold exactly (up to [2^53]), the pages 1, 2,
    ..., up to the number of pages (the ceiling of [total / l]), one after
    the other, are the filtered and sorted list, each product once and in
    order. *)
Theorem queryAdmin_pages_partition stored q (l : Z) :
  1 <= l ->
  Z.of_nat (length (adminSorted stored q)) + l <= 2 ^ 53 ->
  let sorted := adminSorted stored q in
  let pages := Z.to_nat ((Z.of_nat (length sorted) + l - 1) / l) in
  concat (map (fun k => ar_products (queryAdmin stored (page_of (Z.of_nat k) l q)))
            (seq 1 pages))
  = sorted.
Proof.
  intros Hl Hsafe sorted pages. fold sorted in Hsafe.
  assert (Hpow : 0 < 2 ^ 53) by (apply Z.pow_pos_nonneg; lia).
  assert (Hnonneg : 0 <= (Z.of_nat (length sorted) + l - 1) / l)
    by (apply Z.div_pos; lia).
  assert (Hle : (Z.of_nat (length sorted) + l - 1) / l <= Z.of_nat (length sorted)).
  { destruct (Z.eq_dec (Z.of_nat (length sorted)) 0) as [Hzero|Hpos].
    - rewrite Hzero, Z.div_small by lia. lia.
    - apply Z.div_le_upper_bound; [lia|]. nia. }
  assert (Hpage : forall k, In k (seq 1 pages) ->
            ar_products (queryAdmin stored (page_of (Z.of_nat k) l q))
            = take (Z.to_nat l) (drop ((k - 1) * Z.to_nat l) sorted)).
  { intros k Hk. apply in_seq in Hk.
    unfold queryAdmin; simpl. change (adminSorted stored (page_of _ l q)) with sorted.
    unfold endIndex, startIndex, pageNum, limitNum, page_of. simpl.
    rewrite (parseInt_pretty_safe (Z.of_nat k)), (parseInt_pretty_safe l)
      by (unfold JS.safe_integer; subst pages; lia).
    unfold JS.of_Z. simpl.
    rewrite (slice_window sorted _ _ ((Z.of_nat k - 1) * l) l); try nia.
    - do 2 f_equal. nia.
    - unfold Qeq, Qmult, Qplus, Qopp, inject_Z; simpl; lia.
    - unfold Qeq, Qmult, Qplus, Qopp, inject_Z; simpl; lia. }
  rewrite (map_ext_in _ _ _ Hpage), pages_concat.
  apply take_ge. subst pages.
  assert (Hceil : Z.of_nat (length sorted)
                  <= ((Z.of_nat (length sorted) + l - 1) / l) * l).
  { pose proof (Z.div_mod (Z.of_nat (length sorted) + l - 1) l ltac:(lia)) as Hdm.
    pose proof (Z.mod_pos_bound (Z.of_nat (length sorted) + l - 1) l ltac:(lia)) as Hb.
    nia. }
  nia.
Qed.

End AdminFilterFacts.

(** ** The further statements on the sample data *)

(** Product 2 is added to an empty cart and removed with the path
    parameter "2": the cart is empty again. *)
Lemma addItem_removeItem_round_trip_witness :
  Cart.items
    (fst (@removeItem Sample.host Sample.now
            (snd (addItem Sample.now Sample.shelf None Scenario.add_two)) "2"))
  = [].
Proof.
  apply (@addItem_removeItem_round_trip Sample.host Sample.now Sample.now Sample.shelf
           None (Sample.num 2) (JS.of_Z 1) (Sample.book 2 "B" 20 10 true) "2");
    reflexivity.
Defined.

(** The cart after one add satisfies what every stored cart satisfies. *)
Lemma reachableCart_invariant_witness :
  exists cart,
    @cartStep Sample.host Sample.now Sample.shelf None (AddItem Scenario.add_two)
    = Some cart
    /\ totals_consistent cart /\ one_line_per_product (Cart.items cart).
Proof.
  destruct (@cartStep Sample.host Sample.now Sample.shelf None (AddItem Scenario.add_two))
    as [cart|] eqn:Hstep; [|discriminate].
  exists cart. split; [reflexivity|].
  destruct (@reachableCart_invariant Sample.host (Some cart) cart) as (Ht & Hone & _).
  - rewrite <- Hstep. apply reachable_step, reachable_start.
  - reflexivity.
  - now split.
Defined.

(** One more copy of product 2 in a cart that holds five: the line is the
    old one with the quantity increased. *)
Lemma addItem_touches_one_line_witness :
  exists cart,
    addItem Sample.now Sample.shelf (Some (Sample.cart_with 5)) Scenario.add_two
    = (CartOk cart, Some cart)
    /\ Cart.items cart = [addQuantity (JS.of_Z 1) (Sample.line 2 5)].
Proof.
  eexists. split; [reflexivity|].
  match goal with
  | |- Cart.items ?c = _ =>
      destruct (addItem_touches_one_line Sample.now Sample.shelf
                  (Some (Sample.cart_with 5)) (Sample.num 2) (JS.of_Z 1)
                  (Sample.book 2 "B" 20 10 true) c eq_refl eq_refl)
        as [(i & line & Hline & _ & Hitems & _) | (Hnone & _)]
  end.
  - destruct i as [|i]; simpl in Hline; [|destruct i; discriminate].
    injection Hline as <-. exact Hitems.
  - discriminate.
Defined.

(** The sample admin logs in and deletes product 2 with the token. *)
Lemma login_token_opens_admin_routes_witness :
  @adminRoute SampleAuth.verifier _ _ (bearer SampleAuth.admin_token)
    Scenario.delete_second Sample.stored
  = (inr (fst (Scenario.delete_second Sample.stored)),
     snd (Scenario.delete_second Sample.stored)).
Proof.
  apply (@login_token_opens_admin_routes Sample.host SampleAuth.verifier _ _
           [Sample.customer; Sample.admin]
           (Sample.credentials "admin@bookstore.com" "passAdm")
           SampleAuth.admin_token Sample.admin).
  - reflexivity.
  - reflexivity.
  - unfold spaceless. simpl. repeat (constructor; [discriminate|]). constructor.
  - discriminate.
Defined.

(** The id parameter "abc" addresses nothing. *)
Lemma unknown_id_not_found_witness :
  getById Sample.stored "abc" = GetNotFound /\
  update Sample.now Sample.stored "abc" (Sample.title_patch "Updated Title")
  = (UpdateNotFound, Sample.stored) /\
  delete_product Sample.now Sample.stored "abc" None = (DeleteNotFound, Sample.stored).
Proof.
  apply (unknown_id_not_found Sample.now Sample.stored "abc"). left. reflexivity.
Defined.

(** Product 2 gets a new title: its timestamp is the time of the request
    and the collection keeps its three products. *)
Lemma update_effect_witness :
  exists product stored',
    update Sample.now Sample.stored "2" (Sample.title_patch "Updated Title")
    = (Updated product, stored')
    /\ Product.title product = "Updated Title"%string
    /\ Product.updatedAt product = Sample.now
    /\ length stored' = 3%nat.
Proof.
  eexists. eexists. split; [reflexivity|].
  match goal with
  | |- Product.title ?p = _ /\ _ /\ length ?s = _ =>
      destruct (update_effect Sample.now Sample.stored "2"
                  (Sample.title_patch "Updated Title") p s eq_refl)
        as (i & old & _ & _ & _ & _ & _ & _ & Hlen & _ & Hat & _ & _ & Htitle & _)
  end.
  split; [now apply Htitle|]. split; [exact Hat|exact Hlen].
Defined.

(** The product with the new title is the one read back. *)
Lemma update_then_getById_witness :
  exists product stored',
    update Sample.now Sample.stored "2" (Sample.title_patch "Updated Title")
    = (Updated product, stored')
    /\ getById stored' "2" = GetOk product.
Proof.
  eexists. eexists. split; [reflexivity|].
  apply (update_then_getById Sample.now Sample.stored "2"
           (Sample.title_patch "Updated Title")); reflexivity.
Defined.

(** Product 1 is deactivated: the admin reads it, the public does not. *)
Lemma soft_delete_hides_witness :
  let stored' := snd (delete_product Sample.now Sample.stored "1" None) in
  getById stored' "1" = GetOk (deactivate Sample.now (Sample.book 1 "A" 10 5 true)) /\
  map Product.id (pr_products (@queryPublic Sample.host stored' no_filter)) = [2].
Proof.
  intros stored'.
  destruct (@soft_delete_hides Sample.host Sample.now Sample.stored "1" None 0%nat
              (Sample.book 1 "A" 10 5 true) eq_refl eq_refl eq_refl)
    as (_ & _ & Hget & _).
  split; [exact Hget|reflexivity].
Defined.

(** The flag [permanent=false] deletes product 2 for good. *)
Lemma permanent_delete_removes_witness :
  snd (delete_product Sample.now Sample.stored "2" (Some "false"%string))
  = [Sample.book 1 "A" 10 5 true; Sample.book 3 "C" 30 50 false].
Proof.
  destruct (permanent_delete_removes Sample.now Sample.stored "2" "false" 1%nat)
    as (Hdelete & _).
  - discriminate.
  - reflexivity.
  - exact Hdelete.
Defined.

(** A body with a number as its title passes the validation and fails in
    [trim]. *)
Lemma create_after_validation_witness :
  @create Sample.host Sample.admin_identity Sample.now Sample.later Sample.stored
    (<[ "title"%string := Sample.num 5 ]> (Sample.new_book 30 10))
  = (CreateServerError, Sample.stored).
Proof.
  assert (Hall : Forall (fun f => JS.truthy
                           (field (<[ "title"%string := Sample.num 5 ]>
                                     (Sample.new_book 30 10)) f) = true)
                   requiredFields) by (repeat constructor).
  apply (@create_after_validation Sample.host Sample.admin_identity Sample.now
           Sample.later Sample.stored
           (<[ "title"%string := Sample.num 5 ]> (Sample.new_book 30 10))
           Hall eq_refl eq_refl eq_refl).
  apply Exists_cons_hd. exact I.
Defined.

(** The fourth product gets the id 4 and the two readings of the clock, is
    listed, and is read back. *)
Lemma create_appends_visible_witness :
  exists product stored',
    @create Sample.host Sample.admin_identity Sample.now Sample.later Sample.stored
      (Sample.new_book 30 10)
    = (Created product, stored')
    /\ Product.id product = 4
    /\ Product.createdAt product = Sample.now
    /\ Product.updatedAt product = Sample.later
    /\ In product (pr_products (@queryPublic Sample.host stored' no_filter))
    /\ getById stored' "4" = GetOk product.
Proof.
  eexists. eexists. split; [reflexivity|].
  assert (Hsafe : safe_last_id Sample.stored).
  { intros lastProduct [= <-]. unfold JS.safe_integer. simpl. lia. }
  match goal with
  | |- Product.id ?p = _ /\ _ /\ _ /\ In _ (pr_products (queryPublic ?s _)) /\ _ =>
      assert (Hfinite : finite_numbers p)
  end.
  { unfold finite_numbers, finite. simpl.
    split; [eauto|]. split; [eauto|]. split; [eauto|]. split; discriminate. }
  match goal with
  | |- Product.id ?p = _ /\ _ /\ _ /\ In _ (pr_products (queryPublic ?s _)) /\ _ =>
      destruct (@create_appends_visible Sample.host Sample.admin_identity Sample.now
                  Sample.later Sample.stored (Sample.new_book 30 10) p s eq_refl
                  Hsafe Hfinite)
        as (_ & Hid & _ & Hcreated & Hupdated & _ & _ & _ & _ & _ & _ & Hlisted & Hread)
  end.
  split; [exact Hid|]. split; [exact Hcreated|]. split; [exact Hupdated|].
  split; [exact Hlisted|].
  apply Hread. unfold increasing_ids. simpl.
  repeat (constructor; [|repeat (constructor; [lia|]); constructor]).
  constructor.
Defined.

(** The sample products by price. *)
Lemma queryPublic_price_order_witness :
  map Product.id
    (pr_products (@queryPublic Sample.host Sample.stored
                    (with_sort "price_asc" no_filter))) = [1; 2] /\
  StronglySorted price_le
    (pr_products (@queryPublic Sample.host Sample.stored
                    (with_sort "price_asc" no_filter))).
Proof.
  split; [reflexivity|].
  apply (@queryPublic_price_order Sample.host Sample.stored no_filter).
  unfold Sample.stored. repeat (constructor; [discriminate|]). constructor.
Defined.

(** The second page of size one of the three sample products. *)
Lemma queryAdmin_page_bounds_witness :
  let r := @queryAdmin Sample.host Sample.stored Scenario.second_page in
  Z.of_nat (length (ar_products r)) = 1 /\
  hasPrevPage (ar_pagination r) = true /\ hasNextPage (ar_pagination r) = true.
Proof.
  intros r.
  destruct (@queryAdmin_page_bounds Sample.host Sample.stored Scenario.second_page 2 1)
    as (_ & Hlen & _ & Hprev & Hnext); try reflexivity; try lia.
  split; [exact Hlen|]. split; [apply Hprev; lia|apply Hnext; simpl; lia].
Defined.

(** The three pages of size one are the three sample products. *)
Lemma queryAdmin_pages_partition_witness :
  concat
    (map (fun k => ar_products
                     (@queryAdmin Sample.host Sample.stored
                        (page_of (Z.of_nat k) 1 (Sample.window None None))))
       (seq 1 3))
  = Sample.stored.
Proof.
  apply (@queryAdmin_pages_partition Sample.host Sample.stored
           (Sample.window None None) 1).
  - lia.
  - vm_compute. discriminate.
Defined.

(** Product 2 of the sample collection is read by the string "2", and the
    string "7" finds nothing. *)
Lemma getById_finds_stored_witness :
  getById Sample.stored "2" = GetOk (Sample.book 2 "B" 20 0 true) /\
  getById Sample.stored "7" = GetNotFound.
Proof.
  assert (Huniq : unique_ids Sample.stored).
  { unfold unique_ids. simpl. repeat (constructor; [simpl; intuition lia|]). constructor. }
  split.
  - destruct (getById_finds_stored Sample.stored 2) as (_ & _ & _ & Hown).
    + unfold JS.safe_integer. simpl. lia.
    + apply (Hown Huniq); [|reflexivity]. right. now left.
  - destruct (getById_finds_stored Sample.stored 7) as (_ & _ & Hnone & _).
    + unfold JS.safe_integer. simpl. lia.
    + apply Hnone. simpl. intuition lia.
Defined.
